(** * Traffic collector: tile transform, geometry reprojection, sampler and renderer

    A shallow embedding of the three Python programs of the repository
    ([collect_all_data.py], [collect_speed_data.py], [visualize_traffic.py])
    together with the properties stated about them.

    Conventions of the embedding.
    - Python values read from JSON or from a decoded vector tile are dynamically
      typed; they are embedded in the type [Py.value], parameterised by the
      type of numbers.
    - An operation that can raise returns a [Py.result]; [Raise e] is the
      propagation of the exception [e].
    - Floats are binary64 floats ([PrimFloat]), bit for bit: every [+], [-],
      [*], [/], comparison and [int()] is the IEEE operation that Python
      performs.
    - The Web-Mercator transform of [collect_all_data.py] calls [math.tan],
      [math.cos], [math.log], [math.sinh] and [math.atan].  Python hands these
      to the C library of the platform, whose results are not fixed by any
      standard; the C functions are therefore a parameter ([math.libm]) of
      every definition that reaches them, and what Python adds around them
      (the exceptions for results that are not numbers or do not fit) is
      modelled as CPython does it.
    - In [collect_all_data.py] integers and floats are kept apart
      ([collect_all_data.number]): a tile index, a zoom or a pixel coordinate
      of a decoded tile is an integer of any size, and it becomes a float
      where Python converts it.  The renderer and the sampler only meet
      numbers read from JSON that they use as floats; there a JSON integer is
      read as the float of the same value.
    - What a loop does to the outside world (a request, a delay, a message)
      is recorded as a trace of events next to the data it accumulates; the
      outside world itself (the tile source, the telemetry endpoint, the
      clock) is a variable of the section that holds the loop. *)

From Stdlib Require Import ZArith List String Ascii Bool Lia.
From Stdlib Require Import Floats.
From Stdlib Require Import Reals Lra.
Import ListNotations.

Set Warnings "-inexact-float,-register-all".

(* ================================================================== *)
(** * Python values, exceptions and the operations the programs use *)
(* ================================================================== *)

Module Py.

(** The exceptions that the modelled code can meet. [RequestException] stands
    for whatever [requests.get], [raise_for_status] or the tile decoder
    raise. *)
Inductive exn : Type :=
| TypeError
| ValueError
| KeyError
| IndexError
| ZeroDivisionError
| OverflowError
| AttributeError
| RequestException.

Inductive result (A : Type) : Type :=
| Ok (a : A)
| Raise (e : exn).

Arguments Ok {A} a.
Arguments Raise {A} e.

Definition bind {A B : Type} (m : result A) (k : A -> result B) : result B :=
  match m with
  | Ok a => k a
  | Raise e => Raise e
  end.

Notation "x <- m ;; k" := (bind m (fun x => k))
  (at level 61, m at next level, right associativity).
Notation "' pat <- m ;; k" := (bind m (fun x => match x with pat => k end))
  (at level 61, pat pattern, m at next level, right associativity).

(** A list comprehension [[f(x) for x in l]]: elements are converted left to
    right and the first exception ends the comprehension. *)
Fixpoint mapM {A B : Type} (f : A -> result B) (l : list A) : result (list B) :=
  match l with
  | [] => Ok []
  | x :: l' => y <- f x ;; ys <- mapM f l' ;; Ok (y :: ys)
  end.

(** What the programs need of a number type: the zero test behind truthiness
    and the coercion of [bool] (a subclass of [int] in Python). *)
Class Number (num : Type) : Type := {
  is_zero : num -> bool;
  of_bool : bool -> num
}.

Section Values.

Context {num : Type} `{Number num}.

(** JSON-shaped Python values.  Dictionaries keep insertion order and have
    string keys, as every dictionary of the programs does. *)
Inductive value : Type :=
| VNone
| VBool (b : bool)
| VNum (x : num)
| VStr (s : string)
| VList (l : list value)
| VTuple (l : list value)
| VDict (d : list (string * value)).

Definition dict : Type := list (string * value).

(** [bool(v)]. *)
Definition truthy (v : value) : bool :=
  match v with
  | VNone => false
  | VBool b => b
  | VNum x => negb (is_zero x)
  | VStr s => negb (String.eqb s EmptyString)
  | VList l | VTuple l => match l with [] => false | _ => true end
  | VDict d => match d with [] => false | _ => true end
  end.

(** [v == s] for a string literal [s]. *)
Definition eq_str (v : value) (s : string) : bool :=
  match v with
  | VStr t => String.eqb t s
  | _ => false
  end.

Fixpoint lookup (key : string) (d : dict) : option value :=
  match d with
  | [] => None
  | (k, v) :: d' => if String.eqb k key then Some v else lookup key d'
  end.

(** [d[key] = v]: an existing key keeps its place, a new one goes last. *)
Fixpoint store (key : string) (v : value) (d : dict) : dict :=
  match d with
  | [] => [(key, v)]
  | (k, w) :: d' => if String.eqb k key then (k, v) :: d' else (k, w) :: store key v d'
  end.

(** [d.update(u)]. *)
Definition update (d u : dict) : dict :=
  fold_left (fun acc kv => store (fst kv) (snd kv) acc) u d.

Definition is_substring (s t : string) : bool :=
  match String.index 0 s t with
  | Some _ => true
  | None => false
  end.

(** [key in v]. *)
Definition contains (key : string) (v : value) : result bool :=
  match v with
  | VDict d => Ok (match lookup key d with Some _ => true | None => false end)
  | VList l | VTuple l => Ok (existsb (fun w => eq_str w key) l)
  | VStr s => Ok (is_substring key s)
  | VNone | VBool _ | VNum _ => Raise TypeError
  end.

(** [v[key]] for a string [key]. *)
Definition subscript (v : value) (key : string) : result value :=
  match v with
  | VDict d => match lookup key d with Some w => Ok w | None => Raise KeyError end
  | _ => Raise TypeError
  end.

(** [v.get(key, default)]. *)
Definition get (v : value) (key : string) (default : value) : result value :=
  match v with
  | VDict d => Ok (match lookup key d with Some w => w | None => default end)
  | _ => Raise AttributeError
  end.

Definition chars (s : string) : list value :=
  map (fun c => VStr (String c EmptyString)) (list_ascii_of_string s).

(** The elements that [for x in v] goes through. *)
Definition iter (v : value) : result (list value) :=
  match v with
  | VList l | VTuple l => Ok l
  | VStr s => Ok (chars s)
  | VDict d => Ok (map (fun kv => VStr (fst kv)) d)
  | VNone | VBool _ | VNum _ => Raise TypeError
  end.

(** [a, b = v]. *)
Definition unpack2 (v : value) : result (value * value) :=
  l <- iter v ;;
  match l with
  | [a; b] => Ok (a, b)
  | _ => Raise ValueError
  end.

(** [len(v)]. *)
Definition len (v : value) : result nat :=
  match v with
  | VList l | VTuple l => Ok (List.length l)
  | VStr s => Ok (String.length s)
  | VDict d => Ok (List.length d)
  | VNone | VBool _ | VNum _ => Raise TypeError
  end.

(** [v[i]] for a non-negative integer [i]. *)
Definition item (v : value) (i : nat) : result value :=
  match v with
  | VList l | VTuple l =>
      match nth_error l i with Some w => Ok w | None => Raise IndexError end
  | VStr s =>
      match nth_error (chars s) i with Some w => Ok w | None => Raise IndexError end
  | VDict _ => Raise KeyError
  | VNone | VBool _ | VNum _ => Raise TypeError
  end.

(** The operand of an arithmetic operator. *)
Definition as_number (v : value) : result num :=
  match v with
  | VNum x => Ok x
  | VBool b => Ok (of_bool b)
  | _ => Raise TypeError
  end.

End Values.

Arguments value num : clear implicits.
Arguments dict num : clear implicits.

(** [range(lo, hi)]. *)
Definition range (lo hi : Z) : list Z :=
  map (fun i => (lo + Z.of_nat i)%Z) (seq 0 (Z.to_nat (hi - lo))).

End Py.

Import Py.

(* ================================================================== *)
(** * Binary64 floats as Python uses them *)
(* ================================================================== *)

Module PyFloat.

Local Open Scope float_scope.

#[export] Instance float_number : Number float := {
  is_zero := fun x => x =? 0;
  of_bool := fun b => if b then 1 else 0
}.

(** [int(x)]: truncation toward zero; infinities and NaN raise. *)
Definition py_int (x : float) : result Z :=
  match Prim2SF x with
  | S754_zero _ => Ok 0%Z
  | S754_infinity _ => Raise OverflowError
  | S754_nan => Raise ValueError
  | S754_finite s m e =>
      let a := (if 0 <=? e then Z.pos m * 2 ^ e else Z.pos m / 2 ^ (- e))%Z in
      Ok (if s then (- a)%Z else a)
  end.

(** The conversion of an integer operand of a float operation: the nearest
    float, and [OverflowError] when there is none. *)
Definition of_int (z : Z) : result float :=
  let x := SF2Prim (binary_normalize prec emax z 0 false) in
  if is_infinity x then Raise OverflowError else Ok x.

(** [a / b]. *)
Definition div (a b : float) : result float :=
  if b =? 0 then Raise ZeroDivisionError else Ok (a / b).

End PyFloat.

(* ================================================================== *)
(** * The functions of Python's [math] module that the programs call *)
(* ================================================================== *)

Module math.

Import PyFloat.

Local Open Scope float_scope.

(** The functions of the C library behind [math.tan], [math.cos],
    [math.log], [math.sinh] and [math.atan], and behind the power of two
    floats. *)
Record libm : Type := {
  c_tan : float -> float;
  c_cos : float -> float;
  c_log : float -> float;
  c_sinh : float -> float;
  c_atan : float -> float;
  c_pow : float -> float -> float
}.

(** [math.pi], 3.141592653589793. *)
Definition pi : float := 0x1.921fb54442d18p+1.

(** [math.radians] and [math.degrees] multiply by the constants
    [pi / 180.0] and [180.0 / pi]. *)
Definition radians (x : float) : float := x * (pi / 180).
Definition degrees (x : float) : float := x * (180 / pi).

(** The wrapper [math_1] of CPython around a C function of one argument: a
    result that is not a number, for an argument that is one, raises
    [ValueError]; an infinite result for a finite argument raises
    [OverflowError] where the function can overflow and [ValueError] where
    it cannot.  The C function reports through its result, as the libraries
    that follow IEEE 754 do; the [errno] of a finite result, which CPython
    also looks at, is not modelled. *)
Definition math_1 (func : float -> float) (can_overflow : bool) (x : float)
  : result float :=
  let r := func x in
  if is_nan r && negb (is_nan x) then Raise ValueError
  else if is_infinity r && is_finite x then
    Raise (if can_overflow then OverflowError else ValueError)
  else Ok r.

(** The function [m_log] of CPython: the C logarithm for a positive finite
    argument, minus infinity at zero and no number below it. *)
Definition m_log (m : libm) (x : float) : float :=
  if is_finite x then
    if 0 <? x then c_log m x
    else if x =? 0 then neg_infinity
    else nan
  else if is_nan x then x
  else if 0 <? x then x
  else nan.

Definition tan (m : libm) : float -> result float := math_1 (c_tan m) false.
Definition cos (m : libm) : float -> result float := math_1 (c_cos m) false.
Definition log (m : libm) : float -> result float := math_1 (m_log m) false.
Definition sinh (m : libm) : float -> result float := math_1 (c_sinh m) true.
Definition atan (m : libm) : float -> result float := math_1 (c_atan m) false.

End math.

(* ================================================================== *)
(** * collect_all_data.py: tile transform, tiler, reprojector, collectors *)
(* ================================================================== *)

Module collect_all_data.

Import PyFloat.

Local Open Scope float_scope.

(** The numbers of this program: Python integers and Python floats. *)
Inductive number : Type :=
| Int (a : Z)
| Float (x : float).

(** [bool] is a subclass of [int]. *)
#[export] Instance number_number : Number number := {
  is_zero := fun n => match n with Int a => (a =? 0)%Z | Float x => x =? 0 end;
  of_bool := fun b => Int (if b then 1 else 0)
}.

#[local] Abbreviation value := (Py.value number).

(** The conversion of an operand of a float operation. *)
Definition to_float (n : number) : result float :=
  match n with
  | Int a => of_int a
  | Float x => Ok x
  end.

(** [a / b] on two integers: the quotient rounded once to the nearest float;
    a zero divisor raises before anything else, a quotient that fits no float
    raises [OverflowError]. *)
Definition int_to_sf (a : Z) : spec_float :=
  match a with
  | Z0 => S754_zero false
  | Zpos p => S754_finite false p 0
  | Zneg p => S754_finite true p 0
  end.

Definition int_truediv (a b : Z) : result float :=
  if (b =? 0)%Z then Raise ZeroDivisionError else
  let x := SF2Prim (SFdiv prec emax (int_to_sf a) (int_to_sf b)) in
  if is_infinity x then Raise OverflowError else Ok x.

(** [a / b] on two numbers: two integers are divided as integers; otherwise
    both operands become floats, the left one first. *)
Definition number_truediv (a b : number) : result float :=
  match a, b with
  | Int x, Int y => int_truediv x y
  | _, _ => x <- to_float a ;; y <- to_float b ;; div x y
  end.

(** [a / b] where the operands are whatever the caller passed: operands that
    are not numbers raise [TypeError]. *)
Definition truediv (a b : value) : result float :=
  x <- as_number a ;;
  y <- as_number b ;;
  number_truediv x y.

(** [x * n] and [x / n] for a float [x]: [n] becomes a float first. *)
Definition mul_number (x : float) (n : number) : result float :=
  y <- to_float n ;; Ok (x * y).

Definition div_number (x : float) (n : number) : result float :=
  y <- to_float n ;; div x y.

Definition ZOOM : Z := 15.

Definition MIN_LAT : float := 47.10.
Definition MIN_LON : float := 27.52.
Definition MAX_LAT : float := 47.22.
Definition MAX_LON : float := 27.66.

Section Transform.

(** The C library of the platform. *)
Variable m : math.libm.

(** [2 ** z] for an integer [z]: an integer when [z] is not negative;
    otherwise the float power [2.0 ** z], which CPython computes with the C
    function [pow] after converting [z], and which raises [OverflowError]
    when the result is infinite. *)
Definition pow2 (z : Z) : result number :=
  if (0 <=? z)%Z then Ok (Int (2 ^ z)) else
  zf <- of_int z ;;
  let r := math.c_pow m 2 zf in
  if is_infinity r then Raise OverflowError else Ok (Float r).

Definition latlon_to_tile_xy (lat lon : float) (z : Z) : result (Z * Z) :=
  n <- pow2 z ;;
  xtile <- mul_number ((lon + 180) / 360) n ;;
  let lat_rad := math.radians lat in
  t <- math.tan m lat_rad ;;
  c <- math.cos m lat_rad ;;
  sec <- div 1 c ;;
  l <- math.log m (t + sec) ;;
  ytile <- mul_number ((1 - l / math.pi) / 2) n ;;
  tx <- py_int xtile ;;
  ty <- py_int ytile ;;
  Ok (tx, ty).

Definition tile_pixel_to_lonlat (z tx ty : Z) (px py extent : value)
  : result (float * float) :=
  n <- pow2 z ;;
  qx <- truediv px extent ;;
  txf <- of_int tx ;;
  x_norm <- div_number (txf + qx) n ;;
  qy <- truediv py extent ;;
  tyf <- of_int ty ;;
  y_norm <- div_number (tyf + qy) n ;;
  let lon := x_norm * 360 - 180 in
  let merc_n := math.pi - 2 * math.pi * y_norm in
  s <- math.sinh m merc_n ;;
  a <- math.atan m s ;;
  let lat := math.degrees a in
  Ok (lon, lat).

(** The default of the parameter [extent]. *)
Definition default_extent : value := VNum (Int 4096).

Definition tiles_for_bbox (min_lat min_lon max_lat max_lon : float) (z : Z)
  : result (list (Z * Z)) :=
  '(tx_min, ty_max) <- latlon_to_tile_xy min_lat min_lon z ;;
  '(tx_max, ty_min) <- latlon_to_tile_xy max_lat max_lon z ;;
  Ok (flat_map
        (fun tx =>
           map (fun ty => (tx, ty))
               (range (Z.min ty_min ty_max) (Z.max ty_min ty_max + 1)))
        (range (Z.min tx_min tx_max) (Z.max tx_min tx_max + 1))).

(** The inner function [conv_point] of [convert_geometry]; the pair that
    [tile_pixel_to_lonlat] returns is a tuple. *)
Definition conv_point (z tx ty : Z) (extent : value) (pt : value)
  : result value :=
  '(px, py) <- unpack2 pt ;;
  '(lon, lat) <- tile_pixel_to_lonlat z tx ty px py extent ;;
  Ok (VTuple [VNum (Float lon); VNum (Float lat)]).

(** [[conv_point(p) for p in part]]. *)
Definition conv_line (z tx ty : Z) (extent : value) (part : value)
  : result value :=
  ps <- iter part ;;
  cs <- mapM (conv_point z tx ty extent) ps ;;
  Ok (VList cs).

(** [[[conv_point(p) for p in part] for part in coords]]. *)
Definition conv_lines (z tx ty : Z) (extent : value) (coords : value)
  : result value :=
  parts <- iter coords ;;
  cs <- mapM (conv_line z tx ty extent) parts ;;
  Ok (VList cs).

(** The dictionary literal [{"type": typ, "coordinates": coords}]. *)
Definition geometry (typ : string) (coords : value) : value :=
  VDict [("type"%string, VStr typ); ("coordinates"%string, coords)].

Definition convert_geometry (geom : value) (z tx ty : Z) (extent : value)
  : result value :=
  if negb (truthy geom) then Ok VNone else
  has_type <- contains "type" geom ;;
  if negb has_type then Ok VNone else
  has_coords <- contains "coordinates" geom ;;
  if negb has_coords then Ok VNone else
  typ <- subscript geom "type" ;;
  coords <- subscript geom "coordinates" ;;
  if eq_str typ "Point" then
    c <- conv_point z tx ty extent coords ;;
    Ok (geometry "Point" c)
  else if eq_str typ "LineString" then
    c <- conv_line z tx ty extent coords ;;
    Ok (geometry "LineString" c)
  else if eq_str typ "MultiLineString" then
    c <- conv_lines z tx ty extent coords ;;
    Ok (geometry "MultiLineString" c)
  else if eq_str typ "Polygon" then
    c <- conv_lines z tx ty extent coords ;;
    Ok (geometry "Polygon" c)
  else Ok VNone.

End Transform.

(** ** The collector loop

    What the loop does to the outside world is recorded as a trace of events;
    what it accumulates is the pair of lists [all_features], [all_records]. *)

Inductive event : Type :=
| Request (tx ty : Z)            (* [requests.get] for the tile *)
| PrintError (tx ty : Z) (e : exn)  (* the [print] of the handler *)
| Sleep.                         (* [time.sleep(0.2)] *)

Record state : Type := {
  all_features : list value;
  all_records : list value;
  trace : list event
}.

Definition initial : state :=
  {| all_features := []; all_records := []; trace := [] |}.

Definition emit (e : event) (st : state) : state :=
  {| all_features := all_features st;
     all_records := all_records st;
     trace := trace st ++ [e] |}.

Definition append (feature props : value) (st : state) : state :=
  {| all_features := all_features st ++ [feature];
     all_records := all_records st ++ [props];
     trace := trace st |}.

Section Collector.

(** The C library of the platform. *)
Variable m : math.libm.

(** The tile source: [requests.get], [raise_for_status] and
    [mapbox_vector_tile.decode] for the tile [(tx, ty)], either the decoded
    payload or the exception one of them raised. *)
Variable fetch : Z -> Z -> result value.

(** [datetime.now().isoformat()]. *)
Variable now : value.

(** One turn of [for feat in features]: [Ok None] is a [continue],
    [Ok (Some (feature, props))] reaches the two [append]s. *)
Definition convert_feature (layer_name : string) (tx ty : Z) (extent feat : value)
  : result (option (value * value)) :=
  geom_raw <- get feat "geometry" VNone ;;
  if negb (truthy geom_raw) then Ok None else
  has_type <- contains "type" geom_raw ;;
  if negb has_type then Ok None else
  geom <- convert_geometry m geom_raw ZOOM tx ty extent ;;
  if negb (truthy geom) then Ok None else
  props <- get feat "properties" (VDict []) ;;
  match props with
  | VDict p =>
      let props' :=
        VDict (update p [("layer"%string, VStr layer_name);
                         ("tile_x"%string, VNum (Int tx));
                         ("tile_y"%string, VNum (Int ty));
                         ("tile_z"%string, VNum (Int ZOOM));
                         ("timestamp"%string, now)]) in
      let feature :=
        VDict [("type"%string, VStr "Feature");
               ("geometry"%string, geom);
               ("properties"%string, props')] in
      Ok (Some (feature, props'))
  | _ => Raise AttributeError
  end.

(** [for feat in features: ...]; an exception leaves what was appended. *)
Fixpoint feature_loop (layer_name : string) (tx ty : Z) (extent : value)
  (features : list value) (st : state) : result unit * state :=
  match features with
  | [] => (Ok tt, st)
  | feat :: rest =>
      match convert_feature layer_name tx ty extent feat with
      | Raise e => (Raise e, st)
      | Ok None => feature_loop layer_name tx ty extent rest st
      | Ok (Some (feature, props)) =>
          feature_loop layer_name tx ty extent rest (append feature props st)
      end
  end.

(** The body of [for layer_name in decoded.keys()]. *)
Definition layer_body (decoded : value) (layer_name : string) (tx ty : Z)
  (st : state) : result unit * state :=
  match
    (layer_obj <- subscript decoded layer_name ;;
     features <- get layer_obj "features" (VList []) ;;
     extent <- get layer_obj "extent" default_extent ;;
     fs <- iter features ;;
     Ok (extent, fs))
  with
  | Raise e => (Raise e, st)
  | Ok (extent, fs) => feature_loop layer_name tx ty extent fs st
  end.

Fixpoint layer_loop (decoded : value) (layer_names : list string) (tx ty : Z)
  (st : state) : result unit * state :=
  match layer_names with
  | [] => (Ok tt, st)
  | layer_name :: rest =>
      match layer_body decoded layer_name tx ty st with
      | (Raise e, st') => (Raise e, st')
      | (Ok _, st') => layer_loop decoded rest tx ty st'
      end
  end.

(** The [try] block of one tile. *)
Definition try_tile (tx ty : Z) (st : state) : result unit * state :=
  let st := emit (Request tx ty) st in
  match fetch tx ty with
  | Raise e => (Raise e, st)
  | Ok decoded =>
      match decoded with
      | VDict d => layer_loop decoded (map fst d) tx ty st
      | _ => (Raise AttributeError, st)
      end
  end.

(** [for tx, ty in tiles: try: ... except Exception as e: print(...); continue]
    followed by [time.sleep(0.2)]. *)
Fixpoint tile_loop (tiles : list (Z * Z)) (st : state) : state :=
  match tiles with
  | [] => st
  | (tx, ty) :: rest =>
      match try_tile tx ty st with
      | (Raise e, st') => tile_loop rest (emit (PrintError tx ty e) st')
      | (Ok _, st') => tile_loop rest (emit Sleep st')
      end
  end.

(** [collect_traffic_flow] up to the two files it writes: the state holds
    what [save_json] and [save_ndjson] receive. *)
Definition collect_traffic_flow : result state :=
  tiles <- tiles_for_bbox m MIN_LAT MIN_LON MAX_LAT MAX_LON ZOOM ;;
  Ok (tile_loop tiles initial).

End Collector.

(** ** The incident collector

    [collect_traffic_incidents] sends one request and writes up to three
    files; what it does is the list of its outputs, in order.  Writing a file
    is taken to succeed. *)

Inductive output : Type :=
| SaveJson (filename : string) (data : value)              (* [save_json] *)
| SaveNdjson (filename : string) (records : list value)  (* [save_ndjson] *)
| PrintIncidentsError (e : exn).                             (* the [print] of the handler *)

Section Incidents.

(** The incident endpoint: the JSON document of the response, or the
    exception of [requests.get], [raise_for_status] or [resp.json]. *)
Variable response : result value.

(** [datetime.now().isoformat()] when the incident of index [i] is reached. *)
Variable clock : nat -> value.

(** The dictionary literal of the loop body and its ['properties']:
    [{**incident.get("properties", {}), "timestamp": ...}] needs a mapping. *)
Definition incident_feature (i : nat) (incident : value)
  : result (value * value) :=
  geom <- get incident "geometry" VNone ;;
  props <- get incident "properties" (VDict []) ;;
  match props with
  | VDict p =>
      let props' := VDict (store "timestamp" (clock i) p) in
      let feature :=
        VDict [("type"%string, VStr "Feature");
               ("geometry"%string, geom);
               ("properties"%string, props')] in
      Ok (feature, props')
  | _ => Raise TypeError
  end.

(** [for incident in data["incidents"]: ...]. *)
Fixpoint incident_loop (incidents : list value) (i : nat)
  (features records : list value) : result (list value * list value) :=
  match incidents with
  | [] => Ok (features, records)
  | incident :: rest =>
      '(feature, props) <- incident_feature i incident ;;
      incident_loop rest (S i) (features ++ [feature]) (records ++ [props])
  end.

Definition collect_traffic_incidents : list output :=
  match response with
  | Raise e => [PrintIncidentsError e]
  | Ok data =>
      SaveJson "traffic_incidents_raw.json" data ::
      match
        (has_incidents <- contains "incidents" data ;;
         if has_incidents then
           incidents <- subscript data "incidents" ;;
           l <- iter incidents ;;
           incident_loop l 0 [] []
         else Ok ([], []))
      with
      | Raise e => [PrintIncidentsError e]
      | Ok (features, records) =>
          [SaveJson "traffic_incidents.geojson"
             (VDict [("type"%string, VStr "FeatureCollection");
                     ("features"%string, VList features)]);
           SaveNdjson "traffic_incidents_records.ndjson" records]
      end
  end.

End Incidents.

End collect_all_data.

(* ================================================================== *)
(** * collect_speed_data.py: the segment sampler *)
(* ================================================================== *)

Module collect_speed_data.

Import PyFloat.

#[local] Abbreviation value := (Py.value float).

Definition extract_center_point (geometry : value) : result (value * value) :=
  typ <- subscript geometry "type" ;;
  if eq_str typ "LineString" then
    coords <- subscript geometry "coordinates" ;;
    n <- len coords ;;
    let mid_idx := Nat.div n 2 in
    p <- item coords mid_idx ;;
    '(lon, lat) <- unpack2 p ;;
    Ok (lat, lon)
  else if eq_str typ "MultiLineString" then
    lines <- subscript geometry "coordinates" ;;
    coords <- item lines 0 ;;
    n <- len coords ;;
    let mid_idx := Nat.div n 2 in
    p <- item coords mid_idx ;;
    '(lon, lat) <- unpack2 p ;;
    Ok (lat, lon)
  else if eq_str typ "Point" then
    coords <- subscript geometry "coordinates" ;;
    '(lon, lat) <- unpack2 coords ;;
    Ok (lat, lon)
  else Ok (VNone, VNone).

Inductive event : Type :=
| Query (lat lon : value)   (* [requests.get] of the flow segment endpoint *)
| Sleep.                    (* [time.sleep(0.2)] *)

Record state : Type := {
  raw_data : list value;
  trace : list event
}.

Definition initial : state := {| raw_data := []; trace := [] |}.

Definition emit (e : event) (st : state) : state :=
  {| raw_data := raw_data st; trace := trace st ++ [e] |}.

Definition append (record : value) (st : state) : state :=
  {| raw_data := raw_data st ++ [record]; trace := trace st |}.

(** The format specification [:.5f] accepts numbers only. *)
Definition format_5f (v : value) : result unit :=
  match v with
  | VNum _ | VBool _ => Ok tt
  | VStr _ => Raise ValueError
  | _ => Raise TypeError
  end.

(** [v[:n]]. *)
Definition prefix (v : value) (n : nat) : result (list value) :=
  match v with
  | VList l | VTuple l => Ok (firstn n l)
  | VStr s => Ok (firstn n (chars s))
  | _ => Raise TypeError
  end.

Section Sampler.

(** The telemetry endpoint: the JSON document of the response, or the
    exception of [requests.get], [raise_for_status] or [resp.json]. *)
Variable request : value -> value -> result value.

(** [datetime.now().isoformat()]. *)
Variable now : value.

Definition get_flow_segment_data (lat lon : value) : value :=
  match request lat lon with
  | Ok v => v
  | Raise _ => VNone
  end.

(** One turn of the loop of [main]. *)
Definition sample (feature : value) (st : state) : result state :=
  geom <- subscript feature "geometry" ;;
  '(lat, lon) <- extract_center_point geom ;;
  if negb (truthy lat) || negb (truthy lon) then Ok st else
  _ <- format_5f lat ;;
  _ <- format_5f lon ;;
  let st := emit (Query lat lon) st in
  let tomtom_response := get_flow_segment_data lat lon in
  st <-
    (if truthy tomtom_response then
       let record :=
         VDict [("query_timestamp"%string, now);
                ("query_lat"%string, lat);
                ("query_lon"%string, lon);
                ("tomtom_raw_response"%string, tomtom_response)] in
       let st := append record st in
       shown <- contains "flowSegmentData" tomtom_response ;;
       if shown then
         seg <- subscript tomtom_response "flowSegmentData" ;;
         _ <- get seg "currentSpeed" (VStr "N/A") ;;
         _ <- get seg "freeFlowSpeed" (VStr "N/A") ;;
         Ok st
       else Ok st
     else Ok st) ;;
  Ok (emit Sleep st).

Fixpoint sample_loop (features : list value) (st : state) : result state :=
  match features with
  | [] => Ok st
  | feature :: rest => st' <- sample feature st ;; sample_loop rest st'
  end.

(** [main] up to the files it writes, from the document read from
    [INPUT_FILE]; the loop goes through [features[:1]]. *)
Definition main (data : value) : result state :=
  features <- subscript data "features" ;;
  _ <- len features ;;
  sampled <- prefix features 1 ;;
  sample_loop sampled initial.

End Sampler.

End collect_speed_data.

(* ================================================================== *)
(** * visualize_traffic.py: the raster renderer *)
(* ================================================================== *)

Module visualize_traffic.

Import PyFloat.

Local Open Scope float_scope.

#[local] Abbreviation value := (Py.value float).

Definition MIN_LAT : float := 47.0342.
Definition MIN_LON : float := 27.5010.
Definition MAX_LAT : float := 47.2852.
Definition MAX_LON : float := 27.6943.

Definition IMG_WIDTH : Z := 5000.
Definition IMG_HEIGHT : Z := 5000.

Definition latlon_to_pixel (lat lon : value)
  (min_lat max_lat min_lon max_lon : float) (img_width img_height : Z)
  : result (Z * Z) :=
  lon <- as_number lon ;;
  norm_lon <- div (lon - min_lon) (max_lon - min_lon) ;;
  lat <- as_number lat ;;
  norm_lat <- div (lat - min_lat) (max_lat - min_lat) ;;
  w <- of_int img_width ;;
  pixel_x <- py_int (norm_lon * w) ;;
  h <- of_int img_height ;;
  pixel_y <- py_int ((1 - norm_lat) * h) ;;
  Ok (pixel_x, pixel_y).

(** A BGR triple. *)
Definition color : Type := (Z * Z * Z)%type.

Definition GREEN : color := (0, 255, 0)%Z.
Definition YELLOW : color := (0, 255, 255)%Z.
Definition ORANGE : color := (0, 165, 255)%Z.
Definition RED : color := (0, 0, 255)%Z.

(** [min(1, x)] is [x] when [x < 1] and [1] otherwise; [max(0, y)] is [y] when
    [y > 0] and [0] otherwise.  The integers [0] and [1] compare with the
    float thresholds as the floats [0.0] and [1.0] do. *)
Definition clamp (traffic_level : float) : float :=
  let m := if traffic_level <? 1 then traffic_level else 1 in
  if 0 <? m then m else 0.

Definition get_color_for_traffic_level (traffic_level : float) : color :=
  let level := clamp traffic_level in
  if 0.7 <=? level then GREEN
  else if 0.5 <=? level then YELLOW
  else if 0.3 <=? level then ORANGE
  else RED.

Record segment : Type := {
  coords : list (Z * Z);
  seg_color : color
}.

Definition in_canvas (p : Z * Z) : bool :=
  let '(px, py) := p in
  ((0 <=? px) && (px <? IMG_WIDTH) && (0 <=? py) && (py <? IMG_HEIGHT))%Z.

(** The pixel of one [[lon, lat]] pair of a line. *)
Definition pixel_of (p : value) : result (Z * Z) :=
  '(lon, lat) <- unpack2 p ;;
  latlon_to_pixel lat lon MIN_LAT MAX_LAT MIN_LON MAX_LON IMG_WIDTH IMG_HEIGHT.

(** [for lon, lat in line: ...]: the pixels inside the canvas, in order. *)
Fixpoint pixel_loop (line : list value) (pixel_coords : list (Z * Z))
  : result (list (Z * Z)) :=
  match line with
  | [] => Ok pixel_coords
  | p :: rest =>
      q <- pixel_of p ;;
      if in_canvas q then pixel_loop rest (pixel_coords ++ [q])
      else pixel_loop rest pixel_coords
  end.

(** [for line in pixel_coords_list: ...]. *)
Fixpoint line_loop (lines : list value) (c : color) (segments : list segment)
  : result (list segment) :=
  match lines with
  | [] => Ok segments
  | line :: rest =>
      pts <- iter line ;;
      pixel_coords <- pixel_loop pts [] ;;
      if (1 <? List.length pixel_coords)%nat
      then line_loop rest c (segments ++ [{| coords := pixel_coords; seg_color := c |}])
      else line_loop rest c segments
  end.

(** The body of [for feature in features]. *)
Definition load_feature (feature : value) (segments : list segment)
  : result (list segment) :=
  geom <- get feature "geometry" (VDict []) ;;
  properties <- get feature "properties" (VDict []) ;;
  traffic_level <- get properties "traffic_level" (VNum 0.5) ;;
  level <- as_number traffic_level ;;
  let c := get_color_for_traffic_level level in
  geom_type <- get geom "type" VNone ;;
  coords <- get geom "coordinates" (VList []) ;;
  let pixel_coords_list :=
    if eq_str geom_type "LineString" then VList [coords]
    else if eq_str geom_type "MultiLineString" then coords
    else VList [] in
  lines <- iter pixel_coords_list ;;
  line_loop lines c segments.

Fixpoint feature_loop (features : list value) (segments : list segment)
  : result (list segment) :=
  match features with
  | [] => Ok segments
  | feature :: rest =>
      segments' <- load_feature feature segments ;;
      feature_loop rest segments'
  end.

Definition load_segments (geojson_data : value) : result (list segment) :=
  features <- get geojson_data "features" (VList []) ;;
  fs <- iter features ;;
  feature_loop fs [].

(** One call [cv2.line(image, (x1, y1), (x2, y2), color, 3)]. *)
Record line : Type := {
  p1 : Z * Z;
  p2 : Z * Z;
  line_color : color
}.

(** [for i in range(len(coords) - 1): ... coords[i] ... coords[i + 1]]. *)
Definition segment_lines (s : segment) : list line :=
  map (fun i => {| p1 := nth i (coords s) (0, 0)%Z;
                   p2 := nth (i + 1) (coords s) (0, 0)%Z;
                   line_color := seg_color s |})
      (seq 0 (List.length (coords s) - 1)).

(** The lines that [visualize] draws for the document read from
    [INPUT_FILE], in drawing order. *)
Definition visualize (geojson_data : value) : result (list line) :=
  segments <- load_segments geojson_data ;;
  Ok (flat_map segment_lines segments).

End visualize_traffic.

(* ================================================================== *)
(** * Properties of the tile transform and of the tiler *)
(* ================================================================== *)

Module transform.

Import PyFloat collect_all_data.

(** ** Vocabulary of the statements *)

(** A C library for the examples.  It answers at the arguments where Annex F
    of the C standard fixes the result ([tan], [sinh] and [atan] of zero are
    zero, [cos] of zero is one, [log] of one is zero) and has no number to
    offer elsewhere, where libraries may differ.  The examples that use it
    only reach those arguments: they are the run of the code on every
    platform. *)
Definition annex_f : math.libm :=
  {| math.c_tan := fun x => if (x =? 0)%float then x else nan;
     math.c_cos := fun x => if (x =? 0)%float then 1%float else nan;
     math.c_log := fun x => if (x =? 1)%float then 0%float else nan;
     math.c_sinh := fun x => if (x =? 0)%float then x else nan;
     math.c_atan := fun x => if (x =? 0)%float then x else nan;
     math.c_pow := fun x y => nan |}.

(** The real number that a float stands for (zero for what is no number). *)
Definition to_real (x : float) : R :=
  match Prim2SF x with
  | S754_finite s m e => (if s then -1 else 1)%R * IZR (Z.pos m) * powerRZ 2 e
  | _ => 0%R
  end.

(** [k] is [x] without its fractional part: the floor of a value that is not
    negative, the ceiling of one that is not positive. *)
Definition truncation (x : float) (k : Z) : Prop :=
  py_int x = Ok k /\
  (0 <= to_real x -> k = Zfloor (to_real x))%R /\
  (to_real x <= 0 -> k = Zceil (to_real x))%R.

(** The two coordinates of the Web-Mercator tiling formula at zoom [z],
    [(lon + 180) / 360 * 2^z] and
    [(1 - ln(tan(lat) + 1 / cos(lat)) / pi) / 2 * 2^z] with [lat] in radians,
    evaluated in binary64 from left to right; each raises when one of its
    operations does. *)
Definition xtile (m : math.libm) (lon : float) (z : Z) : result float :=
  n <- pow2 m z ;;
  mul_number ((lon + 180) / 360)%float n.

Definition ytile (m : math.libm) (lat : float) (z : Z) : result float :=
  n <- pow2 m z ;;
  let lat_rad := math.radians lat in
  t <- math.tan m lat_rad ;;
  c <- math.cos m lat_rad ;;
  sec <- div 1 c ;;
  l <- math.log m (t + sec)%float ;;
  mul_number ((1 - l / math.pi) / 2)%float n.

(** The rectangle of tiles between two corners, as [tiles_for_bbox] lists it. *)
Definition rectangle (x1 y1 x2 y2 : Z) : list (Z * Z) :=
  flat_map
    (fun tx => map (fun ty => (tx, ty)) (range (Z.min y2 y1) (Z.max y2 y1 + 1)))
    (range (Z.min x1 x2) (Z.max x1 x2 + 1)).

(** ** [int()] drops the fractional part *)

Lemma powerRZ_2_nonneg (e : Z) : (0 <= e)%Z -> powerRZ 2 e = IZR (2 ^ e).
Proof.
  intros He. rewrite <- (Z2Nat.id e He), <- pow_powerRZ. apply pow_IZR.
Qed.

Lemma powerRZ_2_neg (e : Z) : (e < 0)%Z -> powerRZ 2 e = (/ IZR (2 ^ (- e)))%R.
Proof.
  intros He. replace e with (- (- e))%Z at 1 by lia.
  rewrite powerRZ_neg'. now rewrite powerRZ_2_nonneg by lia.
Qed.

Lemma Zfloor_quotient (a d : Z) :
  (0 < d)%Z -> Zfloor (IZR a * / IZR d) = (a / d)%Z.
Proof.
  intros Hd. apply Zfloor_eq.
  assert (Hdr : (0 < IZR d)%R) by now apply IZR_lt.
  pose proof (Z.mul_div_le a d Hd) as Hlo.
  pose proof (Z.mul_succ_div_gt a d Hd) as Hhi.
  apply IZR_le in Hlo. apply IZR_lt in Hhi.
  rewrite mult_IZR in Hlo. rewrite mult_IZR, <- Z.add_1_r, plus_IZR in Hhi.
  split.
  - apply Rmult_le_reg_r with (IZR d); [assumption | ].
    rewrite Rmult_assoc, Rinv_l by lra. lra.
  - apply Rmult_lt_reg_r with (IZR d); [assumption | ].
    rewrite Rmult_assoc, Rinv_l by lra. lra.
Qed.

Lemma py_int_truncation (x : float) (k : Z) : py_int x = Ok k -> truncation x k.
Proof.
  intros H. split; [assumption | ].
  unfold py_int, to_real in *.
  destruct (Prim2SF x) as [s | s | | s m e]; try discriminate.
  - injection H as <-. split; intros _.
    + symmetry. apply (ZfloorZ 0).
    + unfold Zceil. rewrite Ropp_0. now rewrite (ZfloorZ 0).
  - injection H as <-.
    assert (Hm : (0 < IZR (Z.pos m))%R) by now apply IZR_lt.
    assert (Hp : (0 < powerRZ 2 e)%R) by (apply powerRZ_lt; lra).
    assert (Hv : (0 < IZR (Z.pos m) * powerRZ 2 e)%R) by now apply Rmult_lt_0_compat.
    assert (Hfloor : Zfloor (IZR (Z.pos m) * powerRZ 2 e)
                     = (if (0 <=? e)%Z then Z.pos m * 2 ^ e
                        else Z.pos m / 2 ^ (- e))%Z).
    { destruct (0 <=? e)%Z eqn:He.
      - apply Z.leb_le in He. rewrite powerRZ_2_nonneg by assumption.
        rewrite <- mult_IZR. apply ZfloorZ.
      - apply Z.leb_gt in He. rewrite powerRZ_2_neg by assumption.
        apply Zfloor_quotient. apply Z.pow_pos_nonneg; lia. }
    destruct s.
    + split; [intros H0; exfalso; lra | intros _].
      unfold Zceil.
      replace (- (-1 * IZR (Z.pos m) * powerRZ 2 e))%R
        with (IZR (Z.pos m) * powerRZ 2 e)%R by ring.
      now rewrite Hfloor.
    + split; [intros _ | intros H0; exfalso; lra].
      replace (1 * IZR (Z.pos m) * powerRZ 2 e)%R
        with (IZR (Z.pos m) * powerRZ 2 e)%R by ring.
      now rewrite Hfloor.
Qed.

Lemma bind_value {A B : Type} (m : result A) (k : A -> result B) (r : B) :
  bind m k = Ok r -> exists a, m = Ok a /\ k a = Ok r.
Proof. destruct m as [a | e]; cbn [bind]; [eauto | discriminate]. Qed.

(** [latlon_to_tile_xy] computes the two coordinates and then drops their
    fractional parts; it raises what the first of these steps raises. *)
Lemma latlon_to_tile_xy_coordinates (m : math.libm) (lat lon : float) (z : Z) :
  latlon_to_tile_xy m lat lon z
  = (x <- xtile m lon z ;;
     y <- ytile m lat z ;;
     tx <- py_int x ;;
     ty <- py_int y ;;
     Ok (tx, ty)).
Proof.
  unfold latlon_to_tile_xy, xtile, ytile.
  destruct (pow2 m z) as [n | e]; cbn [bind]; [ | reflexivity].
  destruct (mul_number ((lon + 180) / 360) n) as [x | e]; cbn [bind]; [ | reflexivity].
  destruct (math.tan m (math.radians lat)) as [t | e]; cbn [bind]; [ | reflexivity].
  destruct (math.cos m (math.radians lat)) as [c | e]; cbn [bind]; [ | reflexivity].
  destruct (div 1 c) as [sec | e]; cbn [bind]; [ | reflexivity].
  destruct (math.log m (t + sec)) as [l | e]; cbn [bind]; [ | reflexivity].
  destruct (mul_number ((1 - l / math.pi) / 2) n) as [y | e]; reflexivity.
Qed.

(** C2, as the code has it.  [latlon_to_tile_xy] computes the two
    Web-Mercator coordinates in binary64, operation by operation, and raises
    when one of the operations does.  It returns exactly when both
    coordinates are computed and finite, and then it returns each of them
    without its fractional part: [int()] truncates toward zero, which is the
    floor of a coordinate that is not negative and the ceiling of a negative
    one. *)
Theorem latlon_to_tile_xy_truncates (m : math.libm) (lat lon : float) (z : Z) :
  latlon_to_tile_xy m lat lon z
  = (x <- xtile m lon z ;;
     y <- ytile m lat z ;;
     tx <- py_int x ;;
     ty <- py_int y ;;
     Ok (tx, ty)) /\
  (forall tx ty : Z,
     latlon_to_tile_xy m lat lon z = Ok (tx, ty) <->
     exists x y : float,
       xtile m lon z = Ok x /\
       ytile m lat z = Ok y /\
       truncation x tx /\
       truncation y ty).
Proof.
  pose proof (latlon_to_tile_xy_coordinates m lat lon z) as Heq.
  split; [assumption | ].
  intros tx ty. rewrite Heq. split.
  - intros H.
    apply bind_value in H as (x & Hx & H).
    apply bind_value in H as (y & Hy & H).
    apply bind_value in H as (kx & Hkx & H).
    apply bind_value in H as (ky & Hky & [= <- <-]).
    exists x, y. repeat split; try assumption; now apply py_int_truncation.
  - intros (x & y & -> & -> & [Hx _] & [Hy _]). cbn [bind].
    now rewrite Hx, Hy.
Qed.

Lemma latlon_to_tile_xy_truncates_witness :
  exists x y : float,
    xtile annex_f 27.58 15 = Ok x /\
    ytile annex_f 0 15 = Ok y /\
    truncation x 18894 /\
    truncation y 16384.
Proof.
  apply (proj2 (latlon_to_tile_xy_truncates annex_f 0 27.58 15) 18894%Z 16384%Z).
  vm_compute. reflexivity.
Defined.

(** The float below 180 and the real number it stands for. *)
Lemma to_real_below_180 :
  to_real 179.99999999999997 = (IZR 6333186975989759 * / IZR (2 ^ 45))%R.
Proof.
  unfold to_real.
  replace (Prim2SF 179.99999999999997) with (S754_finite false 6333186975989759 (-45))
    by (vm_compute; reflexivity).
  rewrite powerRZ_2_neg by lia. change (- -45)%Z with 45%Z. ring.
Qed.

(** C2 fails as stated, in two ways.  West of -180 the column is negative and
    [int()] gives its ceiling: at longitude -200 and zoom 0 the code returns
    column 0 where the floor is -1.  And the binary64 coordinate need not
    have the floor of the exact one: at the longitude just below 180 and
    zoom 15 the sum [lon + 180.0] rounds to 360, and the code returns column
    32768 where the floor of the exact coordinate is 32767. *)
Lemma latlon_to_tile_xy_is_not_floor :
  latlon_to_tile_xy annex_f 0 (-200) 0 = Ok (0, 0)%Z /\
  Zfloor ((-200 + 180) / 360 * 2 ^ 0) = (-1)%Z /\
  latlon_to_tile_xy annex_f 0 179.99999999999997 15 = Ok (32768, 16384)%Z /\
  Zfloor ((to_real 179.99999999999997 + 180) / 360 * 2 ^ 15) = 32767%Z.
Proof.
  split; [vm_compute; reflexivity | ].
  split; [apply Zfloor_eq; lra | ].
  split; [vm_compute; reflexivity | ].
  rewrite to_real_below_180. apply Zfloor_eq.
  change (2 ^ 45)%Z with 35184372088832%Z. lra.
Qed.

(** ** The tiler *)

Lemma range_single (a : Z) : range a (a + 1) = [a].
Proof.
  unfold range. replace (a + 1 - a)%Z with 1%Z by lia.
  change (Z.to_nat 1) with 1%nat. cbn [seq map Z.of_nat]. now rewrite Z.add_0_r.
Qed.

Lemma tiles_for_bbox_of_point (m : math.libm) (lat lon : float) (z : Z) (t : Z * Z) :
  latlon_to_tile_xy m lat lon z = Ok t ->
  tiles_for_bbox m lat lon lat lon z = Ok [t].
Proof.
  intros H. unfold tiles_for_bbox. rewrite H. destruct t as [tx ty]. cbn [bind].
  rewrite !Z.min_id, !Z.max_id, !range_single. reflexivity.
Qed.

(** C3, as the code has it.  For a bounding box whose two corners are one
    point, [tiles_for_bbox] returns the list of one tile, the tile that
    [latlon_to_tile_xy] returns for the point, whenever that call returns;
    and it raises what [latlon_to_tile_xy] raises for the point when that
    call does not return. *)
Theorem tiles_for_bbox_single_point (m : math.libm) (lat lon : float) (z : Z) :
  (forall t : Z * Z,
     latlon_to_tile_xy m lat lon z = Ok t ->
     tiles_for_bbox m lat lon lat lon z = Ok [t]) /\
  (forall e : exn,
     latlon_to_tile_xy m lat lon z = Raise e ->
     tiles_for_bbox m lat lon lat lon z = Raise e).
Proof.
  split.
  - intros t H. now apply tiles_for_bbox_of_point.
  - intros e H. unfold tiles_for_bbox. now rewrite H.
Qed.

Lemma tiles_for_bbox_single_point_witness :
  tiles_for_bbox annex_f 0 27.58 0 27.58 15 = Ok [(18894, 16384)%Z].
Proof.
  apply (proj1 (tiles_for_bbox_single_point annex_f 0 27.58 15)).
  vm_compute. reflexivity.
Defined.

(** C3 fails as stated for the zooms at which [latlon_to_tile_xy] does not
    return: at zoom 1024 the integer [2 ** z] has no float, the product
    [(lon + 180.0) / 360.0 * n] raises, and [tiles_for_bbox] returns no list
    for the point on the equator at longitude 0. *)
Lemma tiles_for_bbox_single_point_overflows :
  latlon_to_tile_xy annex_f 0 0 1024 = Raise OverflowError /\
  tiles_for_bbox annex_f 0 0 0 0 1024 = Raise OverflowError.
Proof. split; vm_compute; reflexivity. Qed.

(** ** The list of tiles is a rectangle *)

Lemma range_In (lo hi i : Z) : In i (range lo hi) <-> (lo <= i < hi)%Z.
Proof.
  unfold range. rewrite in_map_iff. split.
  - intros (k & <- & Hk). apply in_seq in Hk. lia.
  - intros Hi. exists (Z.to_nat (i - lo)). split; [lia | ].
    apply in_seq. lia.
Qed.

Lemma NoDup_map_injective {A B : Type} (f : A -> B) (l : list A) :
  (forall a b, f a = f b -> a = b) -> NoDup l -> NoDup (map f l).
Proof.
  intros Hf Hl. apply NoDup_map_NoDup_ForallPairs; [ | assumption].
  intros a b _ _. apply Hf.
Qed.

Lemma range_NoDup (lo hi : Z) : NoDup (range lo hi).
Proof.
  unfold range. apply NoDup_map_injective; [ | apply seq_NoDup].
  intros a b Hab. lia.
Qed.

Lemma range_length (lo hi : Z) : List.length (range lo hi) = Z.to_nat (hi - lo).
Proof. unfold range. now rewrite length_map, length_seq. Qed.

Lemma tiles_for_bbox_rectangle (m : math.libm) (min_lat min_lon max_lat max_lon : float)
  (z x1 y1 x2 y2 : Z) :
  latlon_to_tile_xy m min_lat min_lon z = Ok (x1, y1) ->
  latlon_to_tile_xy m max_lat max_lon z = Ok (x2, y2) ->
  tiles_for_bbox m min_lat min_lon max_lat max_lon z = Ok (rectangle x1 y1 x2 y2).
Proof.
  intros H1 H2. unfold tiles_for_bbox. now rewrite H1, H2.
Qed.

Lemma rectangle_In (x1 y1 x2 y2 tx ty : Z) :
  In (tx, ty) (rectangle x1 y1 x2 y2) <->
  (Z.min x1 x2 <= tx <= Z.max x1 x2 /\ Z.min y1 y2 <= ty <= Z.max y1 y2)%Z.
Proof.
  unfold rectangle. rewrite in_flat_map. split.
  - intros (x & Hx & Hin). apply in_map_iff in Hin as (y & [= <- <-] & Hy).
    apply range_In in Hx, Hy. lia.
  - intros [Hx Hy]. exists tx. split; [apply range_In; lia | ].
    apply in_map_iff. exists ty. split; [reflexivity | apply range_In; lia].
Qed.

Lemma flat_map_pairs_NoDup (xs ys : list Z) :
  NoDup xs -> NoDup ys ->
  NoDup (flat_map (fun tx => map (fun ty => (tx, ty)) ys) xs).
Proof.
  intros Hxs Hys. induction Hxs as [ | x xs Hx Hxs IH]; cbn [flat_map]; [constructor | ].
  apply NoDup_app.
  - apply NoDup_map_injective; [ | assumption]. now intros a b [= ].
  - assumption.
  - intros [a b] Hin Hin'. apply in_map_iff in Hin as (y & [= <- <-] & _).
    apply in_flat_map in Hin' as (x' & Hx' & Hin').
    apply in_map_iff in Hin' as (y' & [= <- <-] & _). contradiction.
Qed.

Lemma flat_map_pairs_length (xs ys : list Z) :
  List.length (flat_map (fun tx => map (fun ty => (tx, ty)) ys) xs)
  = (List.length xs * List.length ys)%nat.
Proof.
  induction xs as [ | x xs IH]; cbn [flat_map List.length]; [reflexivity | ].
  rewrite length_app, length_map, IH. simpl. lia.
Qed.

Lemma rectangle_NoDup (x1 y1 x2 y2 : Z) : NoDup (rectangle x1 y1 x2 y2).
Proof. apply flat_map_pairs_NoDup; apply range_NoDup. Qed.

Lemma rectangle_length (x1 y1 x2 y2 : Z) :
  Z.of_nat (List.length (rectangle x1 y1 x2 y2))
  = ((Z.abs (x2 - x1) + 1) * (Z.abs (y2 - y1) + 1))%Z.
Proof.
  unfold rectangle. rewrite flat_map_pairs_length, !range_length.
  rewrite Nat2Z.inj_mul, !Z2Nat.id by lia. f_equal; lia.
Qed.

(** X3.  Whenever [latlon_to_tile_xy] returns for the two corners,
    [tiles_for_bbox] returns the rectangle of tiles between the tiles of the
    corners: it holds a tile exactly when its column and its row lie between
    those of the corners, it holds no tile twice, and which corner is given
    first does not matter. *)
Theorem tiles_for_bbox_is_rectangle (m : math.libm) (lat1 lon1 lat2 lon2 : float)
  (z x1 y1 x2 y2 : Z) :
  latlon_to_tile_xy m lat1 lon1 z = Ok (x1, y1) ->
  latlon_to_tile_xy m lat2 lon2 z = Ok (x2, y2) ->
  exists tiles : list (Z * Z),
    tiles_for_bbox m lat1 lon1 lat2 lon2 z = Ok tiles /\
    tiles_for_bbox m lat2 lon2 lat1 lon1 z = Ok tiles /\
    NoDup tiles /\
    (forall tx ty : Z,
       In (tx, ty) tiles <->
       (Z.min x1 x2 <= tx <= Z.max x1 x2 /\ Z.min y1 y2 <= ty <= Z.max y1 y2)%Z) /\
    Z.of_nat (List.length tiles)
      = ((Z.abs (x2 - x1) + 1) * (Z.abs (y2 - y1) + 1))%Z.
Proof.
  intros H1 H2. exists (rectangle x1 y1 x2 y2).
  split; [now apply tiles_for_bbox_rectangle | ].
  split.
  { rewrite (tiles_for_bbox_rectangle m lat2 lon2 lat1 lon1 z x2 y2 x1 y1 H2 H1).
    unfold rectangle.
    now rewrite (Z.min_comm x2 x1), (Z.max_comm x2 x1), (Z.min_comm y1 y2),
      (Z.max_comm y1 y2). }
  split; [apply rectangle_NoDup | ].
  split; [intros tx ty; apply rectangle_In | apply rectangle_length].
Qed.

Lemma tiles_for_bbox_is_rectangle_witness :
  exists tiles : list (Z * Z),
    tiles_for_bbox annex_f 0 (-10) 0 27.58 4 = Ok tiles /\
    tiles_for_bbox annex_f 0 27.58 0 (-10) 4 = Ok tiles /\
    NoDup tiles /\
    (forall tx ty : Z,
       In (tx, ty) tiles <->
       (Z.min 7 9 <= tx <= Z.max 7 9 /\ Z.min 8 8 <= ty <= Z.max 8 8)%Z) /\
    Z.of_nat (List.length tiles)
      = ((Z.abs (9 - 7) + 1) * (Z.abs (8 - 8) + 1))%Z.
Proof.
  apply (tiles_for_bbox_is_rectangle annex_f 0 (-10) 0 27.58 4 7 8 9 8);
    vm_compute; reflexivity.
Defined.

End transform.

(* ================================================================== *)
(** * Properties of the geometry reprojector and of the feature collector *)
(* ================================================================== *)

Module reprojector.

Import PyFloat collect_all_data transform.

Local Open Scope string_scope.

#[local] Abbreviation value := (Py.value number).

(** ** Vocabulary of the statements *)

(** A coordinate pair in tile-pixel space, two numbers [(px, py)], and a pair
    in geographic space, two floats [(lon, lat)]. *)
Definition pixel : Type := (number * number)%type.
Definition lonlat : Type := (float * float)%type.

(** The four geometry variants with coordinate data of the matching depth. *)
Inductive shape (P : Type) : Type :=
| Point (p : P)
| LineString (l : list P)
| MultiLineString (parts : list (list P))
| Polygon (rings : list (list P)).

Arguments Point {P} p.
Arguments LineString {P} l.
Arguments MultiLineString {P} parts.
Arguments Polygon {P} rings.

Definition type_name {P : Type} (s : shape P) : string :=
  match s with
  | Point _ => "Point"
  | LineString _ => "LineString"
  | MultiLineString _ => "MultiLineString"
  | Polygon _ => "Polygon"
  end.

(** A pair as the tile decoder gives it, a list [[px, py]], and as
    [tile_pixel_to_lonlat] returns it, a tuple [(lon, lat)]. *)
Definition pair_in (p : pixel) : value := VList [VNum (fst p); VNum (snd p)].
Definition pair_out (q : lonlat) : value :=
  VTuple [VNum (Float (fst q)); VNum (Float (snd q))].

(** The value of the key ['coordinates'] for a shape. *)
Definition encode {P : Type} (pair : P -> value) (s : shape P) : value :=
  match s with
  | Point p => pair p
  | LineString l => VList (map pair l)
  | MultiLineString ls | Polygon ls =>
      VList (map (fun l => VList (map pair l)) ls)
  end.

(** A well-formed geometry of a given shape: a dictionary whose ['type'] is
    the name of the variant and whose ['coordinates'] nest as the variant
    requires.  Other keys may be present. *)
Definition well_formed (geom : value) (s : shape pixel) : Prop :=
  exists d : dict number,
    geom = VDict d /\
    lookup "type" d = Some (VStr (type_name s)) /\
    lookup "coordinates" d = Some (encode pair_in s).

(** All the coordinate pairs of a shape, in order. *)
Definition points {P : Type} (s : shape P) : list P :=
  match s with
  | Point p => [p]
  | LineString l => l
  | MultiLineString ls | Polygon ls => List.concat ls
  end.


(** What [tile_pixel_to_lonlat] makes of a pixel pair of tile [(tx, ty)]. *)
Definition to_lonlat (m : math.libm) (z tx ty : Z) (extent : value) (p : pixel)
  : result lonlat :=
  tile_pixel_to_lonlat m z tx ty (VNum (fst p)) (VNum (snd p)) extent.

(** The pairs of a shape converted one after the other, in order; the first
    pair that raises ends the conversion. *)
Definition convert_shape {P Q : Type} (f : P -> result Q) (s : shape P)
  : result (shape Q) :=
  match s with
  | Point p => q <- f p ;; Ok (Point q)
  | LineString l => l' <- mapM f l ;; Ok (LineString l')
  | MultiLineString ls => ls' <- mapM (mapM f) ls ;; Ok (MultiLineString ls')
  | Polygon ls => ls' <- mapM (mapM f) ls ;; Ok (Polygon ls')
  end.

(** The types that [convert_geometry] recognises. *)
Definition known_type (typ : value) : bool :=
  eq_str typ "Point" || eq_str typ "LineString"
  || eq_str typ "MultiLineString" || eq_str typ "Polygon".

(** ** Reprojection keeps the structure *)

Lemma mapM_map_bind {A B C D : Type} (f : B -> result D) (g : A -> B)
  (h : A -> result C) (k : C -> D) (l : list A) :
  (forall x, f (g x) = (y <- h x ;; Ok (k y))) ->
  mapM f (map g l) = (l' <- mapM h l ;; Ok (map k l')).
Proof.
  intros Hf. induction l as [ | x l IH]; [reflexivity | ].
  cbn [map mapM]. rewrite Hf, IH.
  destruct (h x) as [y | e]; cbn [bind]; [ | reflexivity].
  destruct (mapM h l) as [l' | e]; reflexivity.
Qed.

Lemma conv_point_pair (m : math.libm) (z tx ty : Z) (extent : value) (p : pixel) :
  conv_point m z tx ty extent (pair_in p)
  = (q <- to_lonlat m z tx ty extent p ;; Ok (pair_out q)).
Proof.
  unfold conv_point, pair_in, to_lonlat. cbn [unpack2 iter bind].
  destruct (tile_pixel_to_lonlat m z tx ty (VNum (fst p)) (VNum (snd p)) extent)
    as [[lon lat] | e]; reflexivity.
Qed.

Lemma conv_line_pairs (m : math.libm) (z tx ty : Z) (extent : value) (l : list pixel) :
  conv_line m z tx ty extent (VList (map pair_in l))
  = (l' <- mapM (to_lonlat m z tx ty extent) l ;; Ok (VList (map pair_out l'))).
Proof.
  unfold conv_line. cbn [iter bind].
  rewrite (mapM_map_bind _ pair_in (to_lonlat m z tx ty extent) pair_out)
    by apply conv_point_pair.
  now destruct (mapM (to_lonlat m z tx ty extent) l).
Qed.

Lemma conv_lines_pairs (m : math.libm) (z tx ty : Z) (extent : value)
  (ls : list (list pixel)) :
  conv_lines m z tx ty extent (VList (map (fun l => VList (map pair_in l)) ls))
  = (ls' <- mapM (mapM (to_lonlat m z tx ty extent)) ls ;;
     Ok (VList (map (fun l => VList (map pair_out l)) ls'))).
Proof.
  unfold conv_lines. cbn [iter bind].
  rewrite (mapM_map_bind _ (fun l => VList (map pair_in l))
             (mapM (to_lonlat m z tx ty extent))
             (fun l' => VList (map pair_out l')))
    by apply conv_line_pairs.
  now destruct (mapM (mapM (to_lonlat m z tx ty extent)) ls).
Qed.

Lemma convert_geometry_well_formed (m : math.libm) (geom : value) (s : shape pixel)
  (z tx ty : Z) (extent : value) :
  well_formed geom s ->
  convert_geometry m geom z tx ty extent
  = (s' <- convert_shape (to_lonlat m z tx ty extent) s ;;
     Ok (geometry (type_name s) (encode pair_out s'))).
Proof.
  intros (d & -> & Htyp & Hco).
  unfold convert_geometry.
  assert (Ht : truthy (VDict d) = true) by (destruct d; [discriminate | reflexivity]).
  rewrite Ht. cbn [negb contains subscript bind].
  rewrite Htyp, Hco. cbn [negb bind].
  destruct s as [p | l | ls | ls];
    cbn [type_name eq_str encode convert_shape];
    simpl String.eqb; cbn iota.
  - rewrite conv_point_pair.
    now destruct (to_lonlat m z tx ty extent p).
  - rewrite conv_line_pairs.
    now destruct (mapM (to_lonlat m z tx ty extent) l).
  - rewrite conv_lines_pairs.
    now destruct (mapM (mapM (to_lonlat m z tx ty extent)) ls).
  - rewrite conv_lines_pairs.
    now destruct (mapM (mapM (to_lonlat m z tx ty extent)) ls).
Qed.









(** ** When the reprojector answers [None], and what the collector does then *)

(** The four ways of being absent: a falsy geometry, no ['type'], no
    ['coordinates'], a type outside the four variants. *)
Definition absent_cause (geom : value) : Prop :=
  truthy geom = false \/
  contains "type" geom = Ok false \/
  contains "coordinates" geom = Ok false \/
  (exists typ coords : value,
     subscript geom "type" = Ok typ /\
     subscript geom "coordinates" = Ok coords /\
     known_type typ = false).

Section Collected.

(** The C library of the platform. *)
Variable m : math.libm.

Lemma bind_geometry_not_none (r : result value) (typ : string) :
  (c <- r ;; Ok (geometry typ c)) <> Ok VNone.
Proof. destruct r; cbn [bind]; discriminate. Qed.

Lemma contains_ok_both (geom : value) (k1 k2 : string) (b : bool) :
  contains k1 geom = Ok b -> exists b', contains k2 geom = Ok b'.
Proof. destruct geom; cbn [contains]; intros E; try discriminate; eauto. Qed.

Lemma convert_geometry_none_cause (geom : value) (z tx ty : Z) (extent : value) :
  convert_geometry m geom z tx ty extent = Ok VNone -> absent_cause geom.
Proof.
  unfold convert_geometry, absent_cause.
  destruct (truthy geom); cbn [negb]; [ | now left].
  destruct (contains "type" geom) as [[ | ] | e]; cbn [bind negb];
    [ | intros _; right; now left | discriminate].
  destruct (contains "coordinates" geom) as [[ | ] | e]; cbn [bind negb];
    [ | intros _; right; right; now left | discriminate].
  destruct (subscript geom "type") as [typ | e]; cbn [bind]; [ | discriminate].
  destruct (subscript geom "coordinates") as [coords | e]; cbn [bind]; [ | discriminate].
  intros Hres. right; right; right. exists typ, coords.
  split; [reflexivity | split; [reflexivity | ]].
  unfold known_type.
  destruct (eq_str typ "Point"); [now apply bind_geometry_not_none in Hres | ].
  destruct (eq_str typ "LineString"); [now apply bind_geometry_not_none in Hres | ].
  destruct (eq_str typ "MultiLineString"); [now apply bind_geometry_not_none in Hres | ].
  destruct (eq_str typ "Polygon"); [now apply bind_geometry_not_none in Hres | ].
  reflexivity.
Qed.

Lemma convert_geometry_cause_none (geom : value) (z tx ty : Z) (extent : value) :
  absent_cause geom -> convert_geometry m geom z tx ty extent = Ok VNone.
Proof.
  unfold convert_geometry.
  intros [Hf | [Ht | [Hc | (typ & coords & Ht & Hc & Hk)]]].
  - now rewrite Hf.
  - destruct (truthy geom); [ | reflexivity]. now rewrite Ht.
  - destruct (truthy geom); [ | reflexivity]. cbn [negb].
    destruct (contains_ok_both geom "coordinates" "type" false Hc) as [b Hb].
    rewrite Hb. cbn [bind]. destruct b; [ | reflexivity]. now rewrite Hc.
  - destruct geom as [ | | | | | | d]; try discriminate.
    cbn [subscript] in Ht, Hc. cbn [contains subscript].
    destruct (lookup "type" d) as [t | ] eqn:Et; [ | discriminate].
    destruct (lookup "coordinates" d) as [c | ] eqn:Ec; [ | discriminate].
    injection Ht as ->. injection Hc as ->.
    assert (Htr : truthy (VDict d) = true)
      by (destruct d; [discriminate | reflexivity]).
    rewrite Htr. cbn [negb bind].
    unfold known_type in Hk.
    apply orb_false_iff in Hk as [Hk Hpoly].
    apply orb_false_iff in Hk as [Hk Hmulti].
    apply orb_false_iff in Hk as [Hpoint Hline].
    now rewrite Hpoint, Hline, Hmulti, Hpoly.
Qed.

Lemma convert_feature_skips (now : value) (layer_name : string) (tx ty : Z)
  (extent feat geom_raw : value) :
  get feat "geometry" VNone = Ok geom_raw ->
  absent_cause geom_raw ->
  convert_feature m now layer_name tx ty extent feat = Ok None.
Proof.
  intros Hget Hcause.
  pose proof (convert_geometry_cause_none geom_raw ZOOM tx ty extent Hcause) as Hnone.
  unfold convert_feature. rewrite Hget. cbn [bind].
  destruct (truthy geom_raw) eqn:Htr; cbn [negb]; [ | reflexivity].
  unfold convert_geometry in Hnone. rewrite Htr in Hnone. cbn [negb] in Hnone.
  destruct (contains "type" geom_raw) as [[ | ] | e]; cbn [bind negb] in *;
    [ | reflexivity | discriminate].
  fold (convert_geometry m geom_raw ZOOM tx ty extent).
  rewrite (convert_geometry_cause_none geom_raw ZOOM tx ty extent Hcause).
  reflexivity.
Qed.

(** Nothing in the loop over the tiles can raise: once the tiler has
    returned the tiles of the bounding box, the run reaches its end. *)
Lemma collect_traffic_flow_returns (fetch : Z -> Z -> result value)
  (now : value) (tiles : list (Z * Z)) :
  tiles_for_bbox m MIN_LAT MIN_LON MAX_LAT MAX_LON ZOOM = Ok tiles ->
  collect_traffic_flow m fetch now = Ok (tile_loop m fetch now tiles initial).
Proof. intros H. unfold collect_traffic_flow. now rewrite H. Qed.

(** When the tile is served, the delay follows. *)
Lemma served_tile_sleeps (fetch : Z -> Z -> result value) (now : value)
  (tx ty : Z) (rest : list (Z * Z)) (st st' : state) (u : unit) :
  try_tile m fetch now tx ty st = (Ok u, st') ->
  tile_loop m fetch now ((tx, ty) :: rest) st
    = tile_loop m fetch now rest (emit Sleep st').
Proof. intros Htry. cbn [tile_loop]. now rewrite Htry. Qed.

(** C5.  [convert_geometry] returns [None] exactly when the geometry is falsy,
    has no ['type'], has no ['coordinates'], or has a type other than Point,
    LineString, MultiLineString and Polygon.  The loop of
    [collect_traffic_flow] then goes on with the next feature: nothing is
    appended and nothing is raised.  Whatever a tile raises is caught, and the
    loop goes on with the next tile; so, once the tiler has returned the tiles
    of the bounding box, [collect_traffic_flow] returns whatever the tile
    source answers. *)
Theorem absent_geometry_is_skipped :
  (forall (geom : value) (z tx ty : Z) (extent : value),
     convert_geometry m geom z tx ty extent = Ok VNone <-> absent_cause geom) /\
  (forall (now : value) (layer_name : string) (tx ty : Z)
          (extent feat geom_raw : value) (rest : list value) (st : state),
     get feat "geometry" VNone = Ok geom_raw ->
     absent_cause geom_raw ->
     feature_loop m now layer_name tx ty extent (feat :: rest) st
       = feature_loop m now layer_name tx ty extent rest st) /\
  (forall (fetch : Z -> Z -> result value) (now : value) (tx ty : Z)
          (rest : list (Z * Z)) (st st' : state) (e : exn),
     try_tile m fetch now tx ty st = (Raise e, st') ->
     tile_loop m fetch now ((tx, ty) :: rest) st
       = tile_loop m fetch now rest (emit (PrintError tx ty e) st')) /\
  (forall (fetch : Z -> Z -> result value) (now : value) (tiles : list (Z * Z)),
     tiles_for_bbox m MIN_LAT MIN_LON MAX_LAT MAX_LON ZOOM = Ok tiles ->
     collect_traffic_flow m fetch now = Ok (tile_loop m fetch now tiles initial)).
Proof.
  split; [ | split; [ | split]]; [ | | | apply collect_traffic_flow_returns].
  - intros geom z tx ty extent. split.
    + apply convert_geometry_none_cause.
    + apply convert_geometry_cause_none.
  - intros now layer_name tx ty extent feat geom_raw rest st Hget Hcause.
    cbn [feature_loop].
    now rewrite (convert_feature_skips now layer_name tx ty extent feat geom_raw).
  - intros fetch now tx ty rest st st' e Htry.
    cbn [tile_loop]. now rewrite Htry.
Qed.

End Collected.

(** A feature whose geometry is a circle is passed over. *)
Lemma absent_geometry_is_skipped_witness :
  feature_loop annex_f VNone "flow" 18890 11419 default_extent
    [VDict [("geometry", geometry "Circle" (VList []))]] initial
  = (Ok tt, initial).
Proof.
  apply (proj1 (proj2 (absent_geometry_is_skipped annex_f)) VNone "flow" 18890%Z 11419%Z
           default_extent _ (geometry "Circle" (VList [])) [] initial).
  - reflexivity.
  - right; right; right. exists (VStr "Circle"), (VList []). repeat split.
Defined.

(** ** The delay between tiles *)

(** A tile source that fails for the tiles of column 0 and answers an empty
    tile elsewhere. *)
Definition failing_first (tx ty : Z) : result value :=
  if (tx =? 0)%Z then Raise RequestException else Ok (VDict []).

Lemma failed_tile_continues (m : math.libm) (fetch : Z -> Z -> result value)
  (now : value)
  (tx ty : Z) (rest : list (Z * Z)) (st : state) (e : exn) :
  fetch tx ty = Raise e ->
  tile_loop m fetch now ((tx, ty) :: rest) st
    = tile_loop m fetch now rest (emit (PrintError tx ty e) (emit (Request tx ty) st)).
Proof.
  intros Hf. cbn [tile_loop]. unfold try_tile. now rewrite Hf.
Qed.

(** C8, on the code.  A tile whose request fails is followed by the error
    message and then at once by the next tile: the handler's [continue] passes
    over the [time.sleep(0.2)] that follows the [try] statement.  When the
    first of two tiles fails, the only [Sleep] of the run is the one after the
    second tile. *)
Theorem no_delay_after_failed_tile (m : math.libm) :
  (forall (fetch : Z -> Z -> result value) (now : value) (tx ty : Z)
          (rest : list (Z * Z)) (st : state) (e : exn),
     fetch tx ty = Raise e ->
     tile_loop m fetch now ((tx, ty) :: rest) st
       = tile_loop m fetch now rest
           (emit (PrintError tx ty e) (emit (Request tx ty) st))) /\
  trace (tile_loop m failing_first VNone [(0, 0); (1, 0)]%Z initial)
  = [Request 0 0; PrintError 0 0 RequestException; Request 1 0; Sleep].
Proof.
  split.
  - intros fetch now tx ty rest st e Hf. now apply failed_tile_continues.
  - reflexivity.
Qed.

End reprojector.

(* ================================================================== *)
(** * Properties of the segment sampler *)
(* ================================================================== *)

Module sampler.

Import PyFloat collect_speed_data.

Local Open Scope string_scope.

#[local] Abbreviation value := (Py.value float).

(** ** Vocabulary of the statements *)

(** A coordinate pair as GeoJSON stores it, longitude first. *)
Definition lonlat : Type := (value * value)%type.

Definition pair_value (p : lonlat) : value := VList [fst p; snd p].

(** The geometries that [extract_center_point] knows, with their coordinate
    sequences.  Of a MultiLineString only the first line matters. *)
Inductive street : Type :=
| LineString (coords : list lonlat)
| MultiLineString (first : list lonlat) (others : list value)
| Point (p : lonlat).

Definition type_name (s : street) : string :=
  match s with
  | LineString _ => "LineString"
  | MultiLineString _ _ => "MultiLineString"
  | Point _ => "Point"
  end.

Definition coordinates (s : street) : value :=
  match s with
  | LineString l => VList (map pair_value l)
  | MultiLineString l others => VList (VList (map pair_value l) :: others)
  | Point p => pair_value p
  end.

(** The coordinate sequence that the center is taken from. *)
Definition sequence (s : street) : list lonlat :=
  match s with
  | LineString l => l
  | MultiLineString l _ => l
  | Point p => [p]
  end.

(** A geometry of the given shape: a dictionary whose ['type'] and
    ['coordinates'] are those of the shape. *)
Definition has_shape (geom : value) (s : street) : Prop :=
  exists d : dict float,
    geom = VDict d /\
    lookup "type" d = Some (VStr (type_name s)) /\
    lookup "coordinates" d = Some (coordinates s).

(** The types that [extract_center_point] recognises. *)
Definition known_type (typ : value) : bool :=
  eq_str typ "LineString" || eq_str typ "MultiLineString" || eq_str typ "Point".

(** A coordinate that is the number zero. *)
Definition is_zero_number (v : value) : Prop :=
  exists x : float, v = VNum x /\ (x =? 0)%float = true.

(** ** The center point *)

Lemma middle_item (l : list lonlat) :
  l <> [] ->
  item (VList (map pair_value l)) (Nat.div (List.length l) 2)
    = Ok (pair_value (nth (Nat.div (List.length l) 2) l (VNone, VNone))).
Proof.
  intros Hl. cbn [item].
  assert (Hlt : (Nat.div (List.length l) 2 < List.length l)%nat).
  { apply Nat.div_lt; [ | lia]. destruct l; [contradiction | cbn; lia]. }
  rewrite nth_error_map.
  rewrite (nth_error_nth' l (VNone, VNone) Hlt). reflexivity.
Qed.

Lemma center_of_sequence (l : list lonlat) :
  l <> [] ->
  (n <- len (VList (map pair_value l)) ;;
   p <- item (VList (map pair_value l)) (Nat.div n 2) ;;
   '(lon, lat) <- unpack2 p ;;
   Ok (lat, lon))
  = Ok (snd (nth (Nat.div (List.length l) 2) l (VNone, VNone)),
        fst (nth (Nat.div (List.length l) 2) l (VNone, VNone))).
Proof.
  intros Hl. cbn [len bind]. rewrite length_map, middle_item by assumption.
  reflexivity.
Qed.

(** C6.  For a LineString, a MultiLineString or a Point whose coordinate
    sequence is not empty (for a MultiLineString the sequence is its first
    line, for a Point its single pair), [extract_center_point] returns the
    pair at index [len // 2] of the sequence, latitude first although the
    geometry stores longitude first.  The LineString
    [[27.58,47.16],[27.59,47.17],[27.60,47.18]] gives (47.17, 27.59). *)
Theorem extract_center_point_middle (geom : value) (s : street) :
  has_shape geom s ->
  sequence s <> [] ->
  let mid := nth (Nat.div (List.length (sequence s)) 2) (sequence s) (VNone, VNone) in
  extract_center_point geom = Ok (snd mid, fst mid) /\
  extract_center_point
    (VDict [("type", VStr "LineString");
            ("coordinates",
             VList [VList [VNum 27.58%float; VNum 47.16%float];
                    VList [VNum 27.59%float; VNum 47.17%float];
                    VList [VNum 27.60%float; VNum 47.18%float]])])
  = Ok (VNum 47.17%float, VNum 27.59%float).
Proof.
  intros (d & -> & Htyp & Hco) Hne mid. subst mid.
  split; [ | reflexivity].
  unfold extract_center_point. cbn [subscript]. rewrite Htyp. cbn [bind].
  destruct s as [l | l others | p]; cbn [type_name eq_str sequence coordinates] in *;
    simpl String.eqb; cbn iota; rewrite Hco; cbn [bind].
  - now apply center_of_sequence.
  - cbn [item nth_error bind]. now apply center_of_sequence.
  - reflexivity.
Qed.

Lemma extract_center_point_middle_witness :
  extract_center_point
    (VDict [("type", VStr "LineString");
            ("coordinates",
             VList [VList [VNum 27.58%float; VNum 47.16%float];
                    VList [VNum 27.59%float; VNum 47.17%float];
                    VList [VNum 27.60%float; VNum 47.18%float]])])
  = Ok (VNum 47.17%float, VNum 27.59%float).
Proof.
  refine (proj1 (extract_center_point_middle _
            (LineString [(VNum 27.58%float, VNum 47.16%float);
                         (VNum 27.59%float, VNum 47.17%float);
                         (VNum 27.60%float, VNum 47.18%float)]) _ _)).
  - eexists. repeat split.
  - discriminate.
Defined.

(** ** The features that the sampler passes over *)

Lemma truthy_zero_number (v : value) : is_zero_number v -> truthy v = false.
Proof. intros (x & -> & Hx). cbn [truthy is_zero float_number]. now rewrite Hx. Qed.

Lemma sample_skips (request : value -> value -> result value) (now : value)
  (feature geom lat lon : value) (st : state) :
  subscript feature "geometry" = Ok geom ->
  extract_center_point geom = Ok (lat, lon) ->
  truthy lat = false \/ truthy lon = false ->
  sample request now feature st = Ok st.
Proof.
  intros Hgeom Hcenter Hfalsy. unfold sample.
  rewrite Hgeom. cbn [bind]. rewrite Hcenter. cbn [bind].
  destruct Hfalsy as [-> | ->]; [reflexivity | ].
  now rewrite orb_true_r.
Qed.

Lemma extract_center_point_unknown (d : dict float) (typ : value) :
  lookup "type" d = Some typ ->
  known_type typ = false ->
  extract_center_point (VDict d) = Ok (VNone, VNone).
Proof.
  intros Htyp Hk. unfold extract_center_point. cbn [subscript].
  rewrite Htyp. cbn [bind]. unfold known_type in Hk.
  apply orb_false_iff in Hk as [Hk Hpoint].
  apply orb_false_iff in Hk as [Hline Hmulti].
  now rewrite Hline, Hmulti, Hpoint.
Qed.

(** C10.  When the midpoint that [extract_center_point] returns has latitude
    zero or longitude zero, the loop of [main] goes on to the next feature
    with its state unchanged: no query is sent and no record is appended.  A
    geometry whose type is not LineString, MultiLineString or Point has the
    midpoint [(None, None)] and is passed over by the same test. *)
Theorem sampler_skips_zero_midpoint (request : value -> value -> result value)
  (now feature geom : value) (st : state) :
  subscript feature "geometry" = Ok geom ->
  (forall lat lon : value,
     extract_center_point geom = Ok (lat, lon) ->
     is_zero_number lat \/ is_zero_number lon ->
     sample request now feature st = Ok st) /\
  (forall (d : dict float) (typ : value),
     geom = VDict d ->
     lookup "type" d = Some typ ->
     known_type typ = false ->
     extract_center_point geom = Ok (VNone, VNone) /\
     sample request now feature st = Ok st).
Proof.
  intros Hgeom. split.
  - intros lat lon Hcenter Hzero.
    apply (sample_skips request now feature geom lat lon st Hgeom Hcenter).
    destruct Hzero as [H | H]; [left | right]; now apply truthy_zero_number.
  - intros d typ -> Htyp Hk.
    pose proof (extract_center_point_unknown d typ Htyp Hk) as Hcenter.
    split; [assumption | ].
    apply (sample_skips request now feature (VDict d) VNone VNone st Hgeom Hcenter).
    now left.
Qed.

(** A street whose midpoint lies on the equator. *)
Definition equator_street : value :=
  VDict [("type", VStr "Feature");
         ("geometry",
          VDict [("type", VStr "LineString");
                 ("coordinates", VList [VList [VNum 27.58%float; VNum 0%float]])])].

Lemma sampler_skips_zero_midpoint_witness :
  sample (fun _ _ => Ok VNone) VNone equator_street initial = Ok initial.
Proof.
  refine (proj1 (sampler_skips_zero_midpoint (fun _ _ => Ok VNone) VNone
                   equator_street _ initial _) (VNum 0%float) (VNum 27.58%float) _ _).
  - reflexivity.
  - reflexivity.
  - left. exists 0%float. split; reflexivity.
Defined.

(** By contrast a midpoint with two non-zero coordinates is queried, and the
    delay follows. *)
Lemma nonzero_midpoint_is_queried :
  sample (fun _ _ => Raise RequestException) VNone
    (VDict [("geometry",
             VDict [("type", VStr "Point");
                    ("coordinates", VList [VNum 27.58%float; VNum 47.16%float])])])
    initial
  = Ok {| raw_data := [];
          trace := [Query (VNum 47.16%float) (VNum 27.58%float); Sleep] |}.
Proof. reflexivity. Qed.

End sampler.

(* ================================================================== *)
(** * Properties of the raster renderer *)
(* ================================================================== *)

Module renderer.

Import PyFloat visualize_traffic.

#[local] Abbreviation value := (Py.value float).

(** ** The order of binary64 floats *)

Local Open Scope Z_scope.

(** The place of a float on a line of integer triples in lexicographic
    order; NaN has none. *)
Definition rank (f : spec_float) : option (Z * Z * Z) :=
  match f with
  | S754_nan => None
  | S754_zero _ => Some (0, 0, 0)
  | S754_infinity s => Some (if s then -2 else 2, 0, 0)
  | S754_finite s m e => Some (if s then (-1, - e, - Z.pos m) else (1, e, Z.pos m))
  end.

Definition lex (a b : Z * Z * Z) : comparison :=
  let '(a1, a2, a3) := a in
  let '(b1, b2, b3) := b in
  match a1 ?= b1 with
  | Eq => match a2 ?= b2 with Eq => a3 ?= b3 | c => c end
  | c => c
  end.

Definition lt3 (a b : Z * Z * Z) : Prop :=
  let '(a1, a2, a3) := a in
  let '(b1, b2, b3) := b in
  a1 < b1 \/ (a1 = b1 /\ (a2 < b2 \/ (a2 = b2 /\ a3 < b3))).

Lemma SFcompare_rank (a b : spec_float) :
  SFcompare a b =
  match rank a, rank b with
  | Some x, Some y => Some (lex x y)
  | _, _ => None
  end.
Proof.
  destruct a as [sa | sa | | sa ma ea], b as [sb | sb | | sb mb eb];
    try reflexivity; cbn [SFcompare rank];
    try (destruct sa; reflexivity); try (destruct sb; reflexivity);
    try (destruct sa, sb; reflexivity).
  destruct sa, sb; cbn [lex]; try reflexivity.
  rewrite Z.compare_opp, (Z.compare_antisym ea eb).
  destruct (ea ?= eb); reflexivity.
Qed.

Local Open Scope float_scope.

Lemma lex_spec (a1 a2 a3 b1 b2 b3 : Z) :
  CompareSpec (a1 = b1 /\ a2 = b2 /\ a3 = b3)%Z
              (lt3 (a1, a2, a3) (b1, b2, b3))
              (lt3 (b1, b2, b3) (a1, a2, a3))
              (lex (a1, a2, a3) (b1, b2, b3)).
Proof.
  unfold lex, lt3.
  destruct (Z.compare_spec a1 b1), (Z.compare_spec a2 b2), (Z.compare_spec a3 b3);
    constructor; lia.
Qed.

(** The three comparisons in terms of ranks. *)
Lemma compare_ranked (x y : float) (a b : Z * Z * Z) :
  rank (Prim2SF x) = Some a ->
  rank (Prim2SF y) = Some b ->
  (x <? y) = match lex a b with Lt => true | _ => false end /\
  (x <=? y) = match lex a b with Gt => false | _ => true end /\
  (x =? y) = match lex a b with Eq => true | _ => false end.
Proof.
  intros Ha Hb.
  rewrite ltb_spec, leb_spec, eqb_spec. unfold SFltb, SFleb, SFeqb.
  rewrite SFcompare_rank, Ha, Hb. now destruct (lex a b).
Qed.

(** NaN compares false with everything. *)
Lemma compare_nan_l (x y : float) :
  rank (Prim2SF x) = None ->
  (x <? y) = false /\ (x <=? y) = false /\ (x =? y) = false.
Proof.
  intros Ha. rewrite ltb_spec, leb_spec, eqb_spec. unfold SFltb, SFleb, SFeqb.
  now rewrite SFcompare_rank, Ha.
Qed.

Lemma compare_nan_r (x y : float) :
  rank (Prim2SF y) = None ->
  (x <? y) = false /\ (x <=? y) = false /\ (x =? y) = false.
Proof.
  intros Hb. rewrite ltb_spec, leb_spec, eqb_spec. unfold SFltb, SFleb, SFeqb.
  rewrite SFcompare_rank, Hb. now destruct (rank (Prim2SF x)).
Qed.

Lemma rank_0 : rank (Prim2SF 0) = Some (0, 0, 0)%Z.
Proof. reflexivity. Qed.
Lemma rank_1 : rank (Prim2SF 1) = Some (1, -52, 4503599627370496)%Z.
Proof. reflexivity. Qed.
Lemma rank_03 : rank (Prim2SF 0.3) = Some (1, -54, 5404319552844595)%Z.
Proof. reflexivity. Qed.
Lemma rank_05 : rank (Prim2SF 0.5) = Some (1, -53, 4503599627370496)%Z.
Proof. reflexivity. Qed.
Lemma rank_07 : rank (Prim2SF 0.7) = Some (1, -53, 6305039478318694)%Z.
Proof. reflexivity. Qed.

Lemma ltb_ranked (x y : float) (a b : Z * Z * Z) :
  rank (Prim2SF x) = Some a -> rank (Prim2SF y) = Some b ->
  (x <? y) = match lex a b with Lt => true | _ => false end.
Proof. intros Ha Hb. apply (compare_ranked x y a b Ha Hb). Qed.

Lemma leb_ranked (x y : float) (a b : Z * Z * Z) :
  rank (Prim2SF x) = Some a -> rank (Prim2SF y) = Some b ->
  (x <=? y) = match lex a b with Gt => false | _ => true end.
Proof. intros Ha Hb. apply (compare_ranked x y a b Ha Hb). Qed.

Lemma eqb_ranked (x y : float) (a b : Z * Z * Z) :
  rank (Prim2SF x) = Some a -> rank (Prim2SF y) = Some b ->
  (x =? y) = match lex a b with Eq => true | _ => false end.
Proof. intros Ha Hb. apply (compare_ranked x y a b Ha Hb). Qed.

Ltac rank_of :=
  first [ eassumption | exact rank_0 | exact rank_1
        | exact rank_03 | exact rank_05 | exact rank_07 ].

(** Turns the comparisons of floats of known rank into comparisons of
    triples, in the goal and in the hypotheses. *)
Ltac to_ranks :=
  repeat match goal with
         | |- context [PrimFloat.ltb ?a ?b] =>
             rewrite (ltb_ranked a b _ _ ltac:(rank_of) ltac:(rank_of))
         | |- context [PrimFloat.leb ?a ?b] =>
             rewrite (leb_ranked a b _ _ ltac:(rank_of) ltac:(rank_of))
         | |- context [PrimFloat.eqb ?a ?b] =>
             rewrite (eqb_ranked a b _ _ ltac:(rank_of) ltac:(rank_of))
         | H : context [PrimFloat.ltb ?a ?b] |- _ =>
             rewrite (ltb_ranked a b _ _ ltac:(rank_of) ltac:(rank_of)) in H
         | H : context [PrimFloat.leb ?a ?b] |- _ =>
             rewrite (leb_ranked a b _ _ ltac:(rank_of) ltac:(rank_of)) in H
         | H : context [PrimFloat.eqb ?a ?b] |- _ =>
             rewrite (eqb_ranked a b _ _ ltac:(rank_of) ltac:(rank_of)) in H
         end.

(** Goes through the outcomes of the comparisons of triples that linear
    arithmetic leaves possible. *)
Ltac lex_cases :=
  repeat match goal with
         | H : context [lex (?a1, ?a2, ?a3) (?b1, ?b2, ?b3)] |- _ =>
             destruct (lex_spec a1 a2 a3 b1 b2 b3); unfold lt3 in *;
             try (exfalso; lia)
         | |- context [lex (?a1, ?a2, ?a3) (?b1, ?b2, ?b3)] =>
             destruct (lex_spec a1 a2 a3 b1 b2 b3); unfold lt3 in *;
             try (exfalso; lia)
         end.

Ltac float_cases := to_ranks; lex_cases; try reflexivity; try discriminate.

Lemma clamp_nan (x : float) : rank (Prim2SF x) = None -> clamp x = 1.
Proof.
  intros Rx. unfold clamp. now destruct (compare_nan_l x 1 Rx) as (-> & _).
Qed.

Lemma clamp_range (x : float) :
  (0 <=? clamp x) = true /\ (clamp x <=? 1) = true.
Proof.
  destruct (rank (Prim2SF x)) as [[[c e] m] | ] eqn:Rx.
  - unfold clamp.
    destruct (x <? 1) eqn:E1; [destruct (0 <? x) eqn:E0 | ];
     split; float_cases.
  - rewrite (clamp_nan x Rx). split; reflexivity.
Qed.

Lemma clamp_inside (x : float) :
  (0 <=? x) = true -> (x <=? 1) = true -> (clamp x =? x) = true.
Proof.
  intros H0 H1.
  destruct (rank (Prim2SF x)) as [[[c e] m] | ] eqn:Rx.
  - unfold clamp.
    destruct (x <? 1) eqn:E1; [destruct (0 <? x) eqn:E0 | ]; float_cases.
  - now destruct (compare_nan_l x 1 Rx) as (_ & E & _); rewrite E in H1.
Qed.

Lemma green_from (x : float) :
  (0.7 <=? x) = true -> get_color_for_traffic_level x = GREEN.
Proof.
  intros H.
  destruct (rank (Prim2SF x)) as [[[c e] m] | ] eqn:Rx.
  - unfold get_color_for_traffic_level, clamp.
    destruct (x <? 1) eqn:E1; [destruct (0 <? x) eqn:E0 | ]; float_cases.
  - now destruct (compare_nan_r 0.7 x Rx) as (_ & E & _); rewrite E in H.
Qed.

Lemma yellow_between (x : float) :
  (0.5 <=? x) = true -> (x <? 0.7) = true ->
  get_color_for_traffic_level x = YELLOW.
Proof.
  intros H G.
  destruct (rank (Prim2SF x)) as [[[c e] m] | ] eqn:Rx.
  - unfold get_color_for_traffic_level, clamp.
    destruct (x <? 1) eqn:E1; [destruct (0 <? x) eqn:E0 | ]; float_cases.
  - now destruct (compare_nan_r 0.5 x Rx) as (_ & E & _); rewrite E in H.
Qed.

Lemma orange_between (x : float) :
  (0.3 <=? x) = true -> (x <? 0.5) = true ->
  get_color_for_traffic_level x = ORANGE.
Proof.
  intros H G.
  destruct (rank (Prim2SF x)) as [[[c e] m] | ] eqn:Rx.
  - unfold get_color_for_traffic_level, clamp.
    destruct (x <? 1) eqn:E1; [destruct (0 <? x) eqn:E0 | ]; float_cases.
  - now destruct (compare_nan_r 0.3 x Rx) as (_ & E & _); rewrite E in H.
Qed.

Lemma red_below (x : float) :
  (x <? 0.3) = true -> get_color_for_traffic_level x = RED.
Proof.
  intros H.
  destruct (rank (Prim2SF x)) as [[[c e] m] | ] eqn:Rx.
  - unfold get_color_for_traffic_level, clamp.
    destruct (x <? 1) eqn:E1; [destruct (0 <? x) eqn:E0 | ]; float_cases.
  - now destruct (compare_nan_l x 0.3 Rx) as (E & _); rewrite E in H.
Qed.

(** C7.  [get_color_for_traffic_level] first clamps the level into [[0, 1]]
    (a level already there is kept) and then picks the color of the first
    threshold, from the highest down, that the clamped level reaches: green
    from 0.7, yellow from 0.5, orange from 0.3, red below.  In terms of the
    level itself: every level that is at least 0.7 is green, however large;
    a level in [[0.5, 0.7)] is yellow, in [[0.3, 0.5)] orange, and every level
    below 0.3 is red, however negative.  A threshold belongs to the bucket
    above it: 0.7 is green, 0.699999 yellow, and clamping makes 1.5 green and
    -1 red. *)
Theorem get_color_for_traffic_level_thresholds (x : float) :
  ((0 <=? clamp x) = true /\ (clamp x <=? 1) = true) /\
  ((0 <=? x) = true -> (x <=? 1) = true -> (clamp x =? x) = true) /\
  get_color_for_traffic_level x =
    (if 0.7 <=? clamp x then GREEN
     else if 0.5 <=? clamp x then YELLOW
     else if 0.3 <=? clamp x then ORANGE
     else RED) /\
  ((0.7 <=? x) = true -> get_color_for_traffic_level x = GREEN) /\
  ((0.5 <=? x) = true -> (x <? 0.7) = true ->
   get_color_for_traffic_level x = YELLOW) /\
  ((0.3 <=? x) = true -> (x <? 0.5) = true ->
   get_color_for_traffic_level x = ORANGE) /\
  ((x <? 0.3) = true -> get_color_for_traffic_level x = RED) /\
  get_color_for_traffic_level 0.7 = GREEN /\
  get_color_for_traffic_level 0.699999 = YELLOW /\
  get_color_for_traffic_level 0.5 = YELLOW /\
  get_color_for_traffic_level 0.3 = ORANGE /\
  get_color_for_traffic_level 1.5 = GREEN /\
  get_color_for_traffic_level (-1) = RED.
Proof.
  split; [apply clamp_range | ].
  split; [apply clamp_inside | ].
  split; [reflexivity | ].
  split; [apply green_from | ].
  split; [apply yellow_between | ].
  split; [apply orange_between | ].
  split; [apply red_below | ].
  repeat split; reflexivity.
Qed.

Local Open Scope string_scope.

(** ** Which points a drawn line connects *)

(** [pts] is one coordinate sequence of the feature: the coordinates of its
    LineString, or one of the lines of its MultiLineString. *)
Definition line_of (feature : value) (pts : list value) : Prop :=
  exists geom geom_type coords : value,
    get feature "geometry" (VDict []) = Ok geom /\
    get geom "type" VNone = Ok geom_type /\
    get geom "coordinates" (VList []) = Ok coords /\
    ((eq_str geom_type "LineString" = true /\ iter coords = Ok pts) \/
     (eq_str geom_type "LineString" = false /\
      eq_str geom_type "MultiLineString" = true /\
      exists (lines : list value) (line : value),
        iter coords = Ok lines /\ In line lines /\ iter line = Ok pts)).

(** The point projects outside the canvas, so [load_segments] drops it. *)
Definition dropped (p : value) : Prop :=
  exists q : Z * Z, pixel_of p = Ok q /\ in_canvas q = false.

(** The line joins the pixels of two points of the sequence that lie inside
    the canvas, the first before the second, and every point of the sequence
    between the two was dropped. *)
Definition connects (pts : list value) (ln : line) : Prop :=
  exists (j k : nat) (pj pk : value),
    (j < k)%nat /\
    nth_error pts j = Some pj /\ nth_error pts k = Some pk /\
    pixel_of pj = Ok (p1 ln) /\ pixel_of pk = Ok (p2 ln) /\
    in_canvas (p1 ln) = true /\ in_canvas (p2 ln) = true /\
    forall (m : nat) (pm : value),
      (j < m < k)%nat -> nth_error pts m = Some pm -> dropped pm.

Lemma bind_Ok {A B : Type} (m : result A) (k : A -> result B) (r : B) :
  bind m k = Ok r -> exists a, m = Ok a /\ k a = Ok r.
Proof. destruct m as [a | e]; cbn [bind]; [eauto | discriminate]. Qed.

Lemma filter_first {A : Type} (f : A -> bool) (l : list A) (b : A) :
  nth_error (filter f l) 0 = Some b ->
  exists k, nth_error l k = Some b /\ f b = true /\
    forall m c, (m < k)%nat -> nth_error l m = Some c -> f c = false.
Proof.
  induction l as [ | x l IH]; cbn [filter]; [discriminate | ].
  destruct (f x) eqn:Fx.
  - cbn [nth_error]. intros [= ->]. exists 0%nat.
    repeat split; [assumption | intros m c Hm; lia].
  - intros H. destruct (IH H) as (k & Hk & Fb & Hbefore).
    exists (S k). repeat split; try assumption.
    intros [ | m] c Hm; cbn [nth_error].
    + now intros [= <-].
    + apply Hbefore. lia.
Qed.

Lemma filter_consecutive {A : Type} (f : A -> bool) (l : list A) (i : nat) (a b : A) :
  nth_error (filter f l) i = Some a ->
  nth_error (filter f l) (S i) = Some b ->
  exists j k, (j < k)%nat /\ nth_error l j = Some a /\ nth_error l k = Some b /\
    f a = true /\ f b = true /\
    forall m c, (j < m < k)%nat -> nth_error l m = Some c -> f c = false.
Proof.
  revert i. induction l as [ | x l IH]; intros i; cbn [filter].
  - destruct i; discriminate.
  - destruct (f x) eqn:Fx.
    + destruct i as [ | i]; cbn [nth_error].
      * intros [= ->] Hb.
        destruct (filter_first f l b Hb) as (k & Hk & Fb & Hbefore).
        exists 0%nat, (S k). repeat split; try assumption; try lia.
        intros [ | m] c Hm; [lia | ]. cbn [nth_error]. apply Hbefore. lia.
      * intros Ha Hb.
        destruct (IH i Ha Hb) as (j & k & Hjk & Hj & Hk & Fa & Fb & Hbetween).
        exists (S j), (S k). repeat split; try assumption; try lia.
        intros [ | m] c Hm; [lia | ]. cbn [nth_error]. apply Hbetween. lia.
    + intros Ha Hb.
      destruct (IH i Ha Hb) as (j & k & Hjk & Hj & Hk & Fa & Fb & Hbetween).
      exists (S j), (S k). repeat split; try assumption; try lia.
      intros [ | m] c Hm; [lia | ]. cbn [nth_error]. apply Hbetween. lia.
Qed.

Lemma mapM_nth_error {A B : Type} (f : A -> result B) (l : list A) (qs : list B) :
  mapM f l = Ok qs ->
  forall j, match nth_error l j, nth_error qs j with
            | Some p, Some q => f p = Ok q
            | None, None => True
            | _, _ => False
            end.
Proof.
  revert qs. induction l as [ | x l IH]; intros qs; cbn [mapM].
  - intros [= <-] [ | j]; exact I.
  - intros H. apply bind_Ok in H as (y & Hy & H).
    apply bind_Ok in H as (ys & Hys & [= <-]).
    intros [ | j]; cbn [nth_error]; [assumption | now apply IH].
Qed.

(** The loop over a line keeps, in order, the pixels that fall inside the
    canvas. *)
Lemma pixel_loop_filter (pts : list value) (acc r : list (Z * Z)) :
  pixel_loop pts acc = Ok r ->
  exists qs, mapM pixel_of pts = Ok qs /\ r = (acc ++ filter in_canvas qs)%list.
Proof.
  revert acc. induction pts as [ | p pts IH]; intros acc; cbn [pixel_loop mapM].
  - intros [= <-]. exists []. now rewrite app_nil_r.
  - intros H. apply bind_Ok in H as (q & Hq & H). rewrite Hq. cbn [bind].
    destruct (in_canvas q) eqn:Cq.
    + destruct (IH _ H) as (qs & -> & ->). exists (q :: qs).
      split; [reflexivity | ]. cbn [filter]. rewrite Cq.
      now rewrite <- app_assoc.
    + destruct (IH _ H) as (qs & -> & ->). exists (q :: qs).
      split; [reflexivity | ]. cbn [filter]. now rewrite Cq.
Qed.

Lemma pixel_loop_connects (pts : list value) (cs : list (Z * Z)) (i : nat)
  (a b : Z * Z) (c : color) :
  pixel_loop pts [] = Ok cs ->
  nth_error cs i = Some a -> nth_error cs (S i) = Some b ->
  connects pts {| p1 := a; p2 := b; line_color := c |}.
Proof.
  intros Hloop Ha Hb.
  destruct (pixel_loop_filter pts [] cs Hloop) as (qs & Hqs & ->).
  cbn [app] in Ha, Hb.
  destruct (filter_consecutive in_canvas qs i a b Ha Hb)
    as (j & k & Hjk & Hj & Hk & Fa & Fb & Hbetween).
  pose proof (mapM_nth_error pixel_of pts qs Hqs) as Hnth.
  pose proof (Hnth j) as Nj. rewrite Hj in Nj.
  pose proof (Hnth k) as Nk. rewrite Hk in Nk.
  destruct (nth_error pts j) as [pj | ] eqn:Ej; [ | contradiction].
  destruct (nth_error pts k) as [pk | ] eqn:Ek; [ | contradiction].
  exists j, k, pj, pk. cbn [p1 p2].
  repeat split; try assumption.
  intros m pm Hm Em. specialize (Hnth m). rewrite Em in Hnth.
  destruct (nth_error qs m) as [q | ] eqn:Eq; [ | contradiction].
  exists q. split; [assumption | ]. now apply (Hbetween m).
Qed.

Lemma segment_lines_nth (s : segment) (ln : line) :
  In ln (segment_lines s) ->
  exists i, nth_error (coords s) i = Some (p1 ln) /\
            nth_error (coords s) (S i) = Some (p2 ln) /\
            line_color ln = seg_color s.
Proof.
  unfold segment_lines. intros H. apply in_map_iff in H as (i & <- & Hi).
  apply in_seq in Hi. cbn [p1 p2 line_color]. exists i.
  replace (i + 1)%nat with (S i) by lia.
  repeat split; apply nth_error_nth'; lia.
Qed.

(** Where a segment comes from. *)
Definition made_from (pts : list value) (s : segment) : Prop :=
  pixel_loop pts [] = Ok (coords s).

Lemma line_loop_origin (lines : list value) (c : color) (segs out : list segment) :
  line_loop lines c segs = Ok out ->
  forall s, In s out ->
    In s segs \/
    exists line pts, In line lines /\ iter line = Ok pts /\ made_from pts s.
Proof.
  revert segs. induction lines as [ | line lines IH]; intros segs; cbn [line_loop].
  - intros [= <-] s Hs. now left.
  - intros H s Hs.
    apply bind_Ok in H as (pts & Hpts & H).
    apply bind_Ok in H as (cs & Hcs & H).
    assert (Hrest : forall segs', line_loop lines c segs' = Ok out ->
              (forall s', In s' segs' -> In s' segs \/ made_from pts s') ->
              In s segs \/
              exists line' pts', In line' (line :: lines) /\ iter line' = Ok pts'
                                 /\ made_from pts' s).
    { intros segs' H' Hsegs'.
      destruct (IH segs' H' s Hs) as [Hin | (l' & p' & Hl' & Hp' & Hm')].
      - destruct (Hsegs' s Hin) as [ | Hm]; [now left | ].
        right. exists line, pts. repeat split; [now left | assumption | assumption].
      - right. exists l', p'. repeat split; [now right | assumption | assumption]. }
    destruct (1 <? List.length cs)%nat.
    + apply (Hrest _ H). intros s' Hs'. apply in_app_or in Hs' as [ | [<- | []]].
      * now left.
      * right. exact Hcs.
    + apply (Hrest _ H). intros s' Hs'. now left.
Qed.

Lemma load_feature_origin (feature : value) (segs out : list segment) :
  load_feature feature segs = Ok out ->
  forall s, In s out ->
    In s segs \/ exists pts, line_of feature pts /\ made_from pts s.
Proof.
  unfold load_feature. intros H s Hs.
  apply bind_Ok in H as (geom & Hgeom & H).
  apply bind_Ok in H as (properties & _ & H).
  apply bind_Ok in H as (traffic_level & _ & H).
  apply bind_Ok in H as (level & _ & H).
  apply bind_Ok in H as (geom_type & Htype & H).
  apply bind_Ok in H as (coords & Hcoords & H).
  apply bind_Ok in H as (lines & Hlines & H).
  destruct (line_loop_origin _ _ _ _ H s Hs) as [ | (line & pts & Hline & Hpts & Hmade)];
    [now left | right].
  exists pts. split; [ | assumption].
  exists geom, geom_type, coords. repeat split; try assumption.
  destruct (eq_str geom_type "LineString") eqn:E1.
  - left. split; [reflexivity | ].
    cbn [iter] in Hlines. injection Hlines as <-.
    destruct Hline as [<- | []]. assumption.
  - right. split; [reflexivity | ].
    destruct (eq_str geom_type "MultiLineString") eqn:E2.
    + split; [reflexivity | ]. exists lines, line. now repeat split.
    + cbn [iter] in Hlines. injection Hlines as <-. destruct Hline.
Qed.

Lemma feature_loop_origin (features : list value) (segs out : list segment) :
  feature_loop features segs = Ok out ->
  forall s, In s out ->
    In s segs \/
    exists feature pts, In feature features /\ line_of feature pts /\ made_from pts s.
Proof.
  revert segs. induction features as [ | feature features IH]; intros segs;
    cbn [feature_loop].
  - intros [= <-] s Hs. now left.
  - intros H s Hs. apply bind_Ok in H as (segs' & Hfeat & H).
    destruct (IH segs' H s Hs) as [Hin | (f' & pts & Hf' & Hl & Hm)].
    + destruct (load_feature_origin feature segs segs' Hfeat s Hin)
        as [ | (pts & Hl & Hm)]; [now left | right].
      exists feature, pts. repeat split; [now left | assumption | assumption].
    + right. exists f', pts. repeat split; [now right | assumption | assumption].
Qed.

(** The features that [load_segments] goes through. *)
Definition features_of (geojson_data : value) : result (list value) :=
  features <- get geojson_data "features" (VList []) ;;
  iter features.

(** C9, as the code has it.  Points that project outside the canvas are
    dropped one by one before any line is drawn.  Every line that [visualize]
    draws joins the pixels of two points of one coordinate sequence of one
    feature, both inside the canvas, the first before the second in the
    sequence; the points of the sequence between the two are exactly points
    that were dropped.  The two points are neighbours in the sequence only
    when none was dropped between them. *)
Theorem drawn_line_skips_dropped_points (geojson_data : value) (lines : list line) :
  visualize geojson_data = Ok lines ->
  forall ln : line, In ln lines ->
    exists (features : list value) (feature : value) (pts : list value),
      features_of geojson_data = Ok features /\
      In feature features /\
      line_of feature pts /\
      connects pts ln.
Proof.
  unfold visualize, load_segments, features_of. intros H ln Hln.
  apply bind_Ok in H as (segments & Hseg & [= <-]).
  apply bind_Ok in Hseg as (fv & Hfv & Hseg).
  apply bind_Ok in Hseg as (features & Hfeatures & Hloop).
  apply in_flat_map in Hln as (s & Hs & Hln).
  destruct (feature_loop_origin features [] segments Hloop s Hs)
    as [[] | (feature & pts & Hfeature & Hline & Hmade)].
  exists features, feature, pts.
  split; [rewrite Hfv; exact Hfeatures | ].
  split; [assumption | split; [assumption | ]].
  destruct (segment_lines_nth s ln Hln) as (i & Ha & Hb & Hc).
  destruct ln as [a b c]. cbn [p1 p2] in *.
  now apply (pixel_loop_connects pts (coords s) i).
Qed.

(** A street of three points whose middle point lies east of the rendered
    area. *)
Definition example_street : value :=
  VDict [("type", VStr "FeatureCollection");
         ("features",
          VList [VDict [("type", VStr "Feature");
                        ("geometry",
                         VDict [("type", VStr "LineString");
                                ("coordinates",
                                 VList [VList [VNum 27.55%float; VNum 47.10%float];
                                        VList [VNum 27.80%float; VNum 47.15%float];
                                        VList [VNum 27.60%float; VNum 47.20%float]])]);
                        ("properties", VDict [])]])].

Lemma drawn_line_skips_dropped_points_witness :
  exists (features : list value) (feature : value) (pts : list value),
    features_of example_street = Ok features /\
    In feature features /\
    line_of feature pts /\
    connects pts {| p1 := (1267, 3689)%Z; p2 := (2560, 1697)%Z; line_color := YELLOW |}.
Proof.
  apply (drawn_line_skips_dropped_points example_street
           [{| p1 := (1267, 3689)%Z; p2 := (2560, 1697)%Z; line_color := YELLOW |}]).
  - vm_compute. reflexivity.
  - now left.
Defined.

(** The only line drawn for [example_street] joins the first point and the
    third, which are not neighbours in the coordinate sequence: the second
    point, whose pixel column is 7734, was dropped. *)
Lemma drawn_line_joins_non_consecutive_points :
  visualize example_street
    = Ok [{| p1 := (1267, 3689)%Z; p2 := (2560, 1697)%Z; line_color := YELLOW |}] /\
  pixel_of (VList [VNum 27.55%float; VNum 47.10%float]) = Ok (1267, 3689)%Z /\
  pixel_of (VList [VNum 27.80%float; VNum 47.15%float]) = Ok (7734, 2693)%Z /\
  pixel_of (VList [VNum 27.60%float; VNum 47.20%float]) = Ok (2560, 1697)%Z /\
  in_canvas (7734, 2693)%Z = false.
Proof. repeat split; vm_compute; reflexivity. Qed.

End renderer.

(* ================================================================== *)
(** * Facts about dictionaries and about the error monad *)
(* ================================================================== *)

Module dictionaries.

Local Open Scope string_scope.

(** ** Dictionaries *)

Lemma lookup_store (num : Type) (k k' : string) (v : value num) (d : dict num) :
  lookup k (store k' v d) = if String.eqb k' k then Some v else lookup k d.
Proof.
  induction d as [ | [k0 w] d IH]; cbn [store lookup].
  - reflexivity.
  - destruct (String.eqb k0 k') eqn:E0; cbn [lookup].
    + apply String.eqb_eq in E0 as ->.
      now destruct (k' =? k).
    + destruct (String.eqb k0 k) eqn:E1.
      * apply String.eqb_eq in E1 as ->. now rewrite String.eqb_sym, E0.
      * assumption.
Qed.

Lemma lookup_update (num : Type) (k : string) (u d : dict num) :
  lookup k (update d u) =
  match lookup k (rev u) with
  | Some v => Some v
  | None => lookup k d
  end.
Proof.
  unfold update. revert d. induction u as [ | [k' v] u IH]; intros d; cbn [fold_left].
  - reflexivity.
  - rewrite IH. cbn [rev fst snd].
    assert (Happ : forall (a b : dict num),
               lookup k (a ++ b)%list
               = match lookup k a with Some w => Some w | None => lookup k b end).
    { induction a as [ | [k0 w0] a IHa]; intros b; cbn [app lookup]; [reflexivity | ].
      destruct (String.eqb k0 k); [reflexivity | apply IHa]. }
    rewrite Happ. destruct (lookup k (rev u)); [reflexivity | ].
    cbn [lookup]. rewrite lookup_store. now destruct (k' =? k).
Qed.

Lemma bind_ok {A B : Type} (m : result A) (k : A -> result B) (r : B) :
  bind m k = Ok r -> exists a, m = Ok a /\ k a = Ok r.
Proof. destruct m as [a | e]; cbn [bind]; [eauto | discriminate]. Qed.

End dictionaries.

(* ================================================================== *)
(** * More on the collector: what is collected, in which order, and when not *)
(* ================================================================== *)

Module collector.

Import PyFloat collect_all_data transform reprojector dictionaries.

Local Open Scope string_scope.

#[local] Abbreviation value := (Py.value number).

(** ** Vocabulary of the statements *)

(** The five entries that the collector writes into the properties of a
    feature. *)
Definition tags (layer_name : string) (tx ty : Z) (now : value) : dict number :=
  [("layer", VStr layer_name);
   ("tile_x", VNum (Int tx));
   ("tile_y", VNum (Int ty));
   ("tile_z", VNum (Int ZOOM));
   ("timestamp", now)].

Definition is_tag (k : string) : bool :=
  (k =? "layer") || (k =? "tile_x") || (k =? "tile_y") || (k =? "tile_z")
  || (k =? "timestamp").

(** The dictionary literal of a GeoJSON feature. *)
Definition feature_of (geom props : value) : value :=
  VDict [("type", VStr "Feature"); ("geometry", geom); ("properties", props)].

Definition geometry_types : list string :=
  ["Point"; "LineString"; "MultiLineString"; "Polygon"].

Section Collected.

(** The C library of the platform. *)
Variable m : math.libm.

(** ** What [convert_geometry] can return *)

Lemma convert_geometry_shape (geom : value) (z tx ty : Z) (extent g : value) :
  convert_geometry m geom z tx ty extent = Ok g ->
  g = VNone \/
  exists (typ : string) (coords : value),
    g = geometry typ coords /\
    subscript geom "type" = Ok (VStr typ) /\
    In typ geometry_types.
Proof.
  unfold convert_geometry.
  destruct (truthy geom); cbn [negb]; [ | intros [= <-]; now left].
  destruct (contains "type" geom) as [[ | ] | e]; cbn [bind negb];
    [ | intros [= <-]; now left | discriminate].
  destruct (contains "coordinates" geom) as [[ | ] | e]; cbn [bind negb];
    [ | intros [= <-]; now left | discriminate].
  destruct (subscript geom "type") as [typ | e]; cbn [bind]; [ | discriminate].
  destruct (subscript geom "coordinates") as [coords | e]; cbn [bind]; [ | discriminate].
  assert (Hstr : forall s, eq_str typ s = true -> typ = VStr s).
  { intros s. destruct typ; cbn [eq_str]; try discriminate.
    intros E. apply String.eqb_eq in E. now subst. }
  unfold geometry_types.
  destruct (eq_str typ "Point") eqn:E1.
  { intros H. apply bind_ok in H as (c & _ & [= <-]). right.
    exists "Point", c. rewrite (Hstr _ E1). repeat split. now left. }
  destruct (eq_str typ "LineString") eqn:E2.
  { intros H. apply bind_ok in H as (c & _ & [= <-]). right.
    exists "LineString", c. rewrite (Hstr _ E2). repeat split. right; now left. }
  destruct (eq_str typ "MultiLineString") eqn:E3.
  { intros H. apply bind_ok in H as (c & _ & [= <-]). right.
    exists "MultiLineString", c. rewrite (Hstr _ E3). repeat split.
    right; right; now left. }
  destruct (eq_str typ "Polygon") eqn:E4.
  { intros H. apply bind_ok in H as (c & _ & [= <-]). right.
    exists "Polygon", c. rewrite (Hstr _ E4). repeat split.
    right; right; right; now left. }
  intros [= <-]. now left.
Qed.

(** X8.  Whatever the input, a result of [convert_geometry] is either [None]
    or a dictionary with exactly the two keys ['type'] and ['coordinates'],
    whose type is the type of the input and one of the four known ones; other
    keys of the input are not carried over.  So the result is falsy only when
    it is [None]: a geometry without any point is still converted. *)
Theorem convert_geometry_result_shape (geom : value) (z tx ty : Z)
  (extent g : value) :
  convert_geometry m geom z tx ty extent = Ok g ->
  (g = VNone \/
   exists (typ : string) (coords : value),
     g = VDict [("type", VStr typ); ("coordinates", coords)] /\
     subscript geom "type" = Ok (VStr typ) /\
     In typ geometry_types) /\
  (truthy g = false <-> g = VNone).
Proof.
  intros H. pose proof (convert_geometry_shape geom z tx ty extent g H) as Hs.
  split; [exact Hs | ].
  destruct Hs as [-> | (typ & coords & -> & _)].
  - split; reflexivity.
  - split; discriminate.
Qed.

(** ** One feature *)

Lemma convert_feature_some (now : value) (layer_name : string) (tx ty : Z)
  (extent feat feature props : value) :
  convert_feature m now layer_name tx ty extent feat = Ok (Some (feature, props)) ->
  exists (geom_raw geom : value) (p : dict number),
    get feat "geometry" VNone = Ok geom_raw /\
    convert_geometry m geom_raw ZOOM tx ty extent = Ok geom /\
    truthy geom = true /\
    get feat "properties" (VDict []) = Ok (VDict p) /\
    props = VDict (update p (tags layer_name tx ty now)) /\
    feature = feature_of geom props.
Proof.
  unfold convert_feature. intros H.
  apply bind_ok in H as (geom_raw & Hraw & H).
  destruct (truthy geom_raw); cbn [negb] in H; [ | discriminate].
  apply bind_ok in H as (has_type & _ & H).
  destruct has_type; cbn [negb] in H; [ | discriminate].
  apply bind_ok in H as (geom & Hgeom & H).
  destruct (truthy geom) eqn:Htr; cbn [negb] in H; [ | discriminate].
  apply bind_ok in H as (pv & Hprops & H).
  destruct pv as [ | | | | | | p]; try discriminate.
  injection H as <- <-.
  exists geom_raw, geom, p. repeat split; assumption.
Qed.

Lemma lookup_tags_other (k : string) (layer_name : string) (tx ty : Z) (now : value) :
  is_tag k = false -> lookup k (rev (tags layer_name tx ty now)) = None.
Proof.
  unfold is_tag. intros H.
  apply orb_false_iff in H as [H H5].
  apply orb_false_iff in H as [H H4].
  apply orb_false_iff in H as [H H3].
  apply orb_false_iff in H as [H1 H2].
  cbn [tags rev app lookup].
  rewrite !(String.eqb_sym _ k).
  now rewrite H1, H2, H3, H4, H5.
Qed.

(** X9.  The properties of a collected feature are the properties of the tile
    feature with the five entries of the collector written over them: the
    layer, the tile column, row and zoom, and the time stamp replace any entry
    of the same name that the tile feature had, and every other entry is kept.
    The feature holds that same dictionary under ['properties']. *)
Theorem tile_tags_override_properties (now : value) (layer_name : string)
  (tx ty : Z) (extent feat feature props : value) :
  convert_feature m now layer_name tx ty extent feat = Ok (Some (feature, props)) ->
  exists (p p' : dict number) (geom : value),
    get feat "properties" (VDict []) = Ok (VDict p) /\
    props = VDict p' /\
    feature = VDict [("type", VStr "Feature"); ("geometry", geom);
                     ("properties", props)] /\
    lookup "layer" p' = Some (VStr layer_name) /\
    lookup "tile_x" p' = Some (VNum (Int tx)) /\
    lookup "tile_y" p' = Some (VNum (Int ty)) /\
    lookup "tile_z" p' = Some (VNum (Int 15)) /\
    lookup "timestamp" p' = Some now /\
    (forall k : string, is_tag k = false -> lookup k p' = lookup k p).
Proof.
  intros H.
  apply convert_feature_some in H as (geom_raw & geom & p & _ & _ & _ & Hp & -> & ->).
  exists p, (update p (tags layer_name tx ty now)), geom.
  split; [assumption | split; [reflexivity | split; [reflexivity | ]]].
  repeat split; try (rewrite lookup_update; reflexivity).
  intros k Hk. now rewrite lookup_update, lookup_tags_other.
Qed.

(** ** The state that a loop leaves is the state it found, extended *)

(** [extend st d]: the lists of [d] appended to those of [st]. *)
Definition extend (st d : state) : state :=
  {| all_features := (all_features st ++ all_features d)%list;
     all_records := (all_records st ++ all_records d)%list;
     trace := (trace st ++ trace d)%list |}.

Lemma extend_initial (st : state) : extend st initial = st.
Proof. destruct st. unfold extend, initial. cbn. now rewrite !app_nil_r. Qed.

Lemma extend_append (st d : state) (f p : value) :
  append f p (extend st d) = extend st (append f p d).
Proof. unfold append, extend. cbn. now rewrite !app_assoc. Qed.

Lemma extend_emit (st d : state) (e : event) :
  emit e (extend st d) = extend st (emit e d).
Proof. unfold emit, extend. cbn. now rewrite !app_assoc. Qed.

Lemma feature_loop_extend (now : value) (layer_name : string) (tx ty : Z)
  (extent : value) (features : list value) (st d : state) :
  feature_loop m now layer_name tx ty extent features (extend st d)
  = (fst (feature_loop m now layer_name tx ty extent features d),
     extend st (snd (feature_loop m now layer_name tx ty extent features d))).
Proof.
  revert d. induction features as [ | feat rest IH]; intros d; cbn [feature_loop].
  - reflexivity.
  - destruct (convert_feature m now layer_name tx ty extent feat) as [[[f p] | ] | e].
    + rewrite extend_append. apply IH.
    + apply IH.
    + reflexivity.
Qed.

Lemma layer_body_extend (now : value) (decoded : value) (layer_name : string)
  (tx ty : Z) (st d : state) :
  layer_body m now decoded layer_name tx ty (extend st d)
  = (fst (layer_body m now decoded layer_name tx ty d),
     extend st (snd (layer_body m now decoded layer_name tx ty d))).
Proof.
  unfold layer_body.
  destruct (layer_obj <- subscript decoded layer_name ;;
            features <- get layer_obj "features" (VList []) ;;
            extent <- get layer_obj "extent" default_extent ;;
            fs <- iter features ;; Ok (extent, fs)) as [[extent fs] | e].
  - apply feature_loop_extend.
  - reflexivity.
Qed.

Lemma layer_loop_extend (now : value) (decoded : value)
  (layer_names : list string) (tx ty : Z) (st d : state) :
  layer_loop m now decoded layer_names tx ty (extend st d)
  = (fst (layer_loop m now decoded layer_names tx ty d),
     extend st (snd (layer_loop m now decoded layer_names tx ty d))).
Proof.
  revert d. induction layer_names as [ | l rest IH]; intros d; cbn [layer_loop].
  - reflexivity.
  - rewrite layer_body_extend.
    destruct (layer_body m now decoded l tx ty d) as [[u | e] d']; cbn [fst snd].
    + apply IH.
    + reflexivity.
Qed.

Lemma try_tile_extend (fetch : Z -> Z -> result value) (now : value)
  (tx ty : Z) (st d : state) :
  try_tile m fetch now tx ty (extend st d)
  = (fst (try_tile m fetch now tx ty d), extend st (snd (try_tile m fetch now tx ty d))).
Proof.
  unfold try_tile. rewrite extend_emit.
  destruct (fetch tx ty) as [decoded | e]; [ | reflexivity].
  destruct decoded; try reflexivity.
  apply layer_loop_extend.
Qed.

Lemma tile_loop_extend (fetch : Z -> Z -> result value) (now : value)
  (tiles : list (Z * Z)) (st d : state) :
  tile_loop m fetch now tiles (extend st d) = extend st (tile_loop m fetch now tiles d).
Proof.
  revert d. induction tiles as [ | [tx ty] rest IH]; intros d; cbn [tile_loop].
  - reflexivity.
  - rewrite try_tile_extend.
    destruct (try_tile m fetch now tx ty d) as [[u | e] d']; cbn [fst snd];
      rewrite extend_emit; apply IH.
Qed.

(** What one tile contributes when the loop starts from nothing: the result
    of its [try] block and the state that block leaves. *)
Definition tile_result (fetch : Z -> Z -> result value) (now : value)
  (t : Z * Z) : result unit :=
  fst (try_tile m fetch now (fst t) (snd t) initial).

Definition contribution (fetch : Z -> Z -> result value) (now : value)
  (t : Z * Z) : state :=
  snd (try_tile m fetch now (fst t) (snd t) initial).

(** The events of one tile: the request, then the delay when the [try]
    block ends, or the message of the handler when it raises. *)
Definition tile_events (fetch : Z -> Z -> result value) (now : value)
  (t : Z * Z) : list event :=
  [Request (fst t) (snd t);
   match tile_result fetch now t with
   | Ok _ => Sleep
   | Raise e => PrintError (fst t) (snd t) e
   end].

Lemma tile_loop_cons (fetch : Z -> Z -> result value) (now : value)
  (t : Z * Z) (rest : list (Z * Z)) (st : state) :
  tile_loop m fetch now (t :: rest) st
  = extend
      (emit match tile_result fetch now t with
            | Ok _ => Sleep
            | Raise e => PrintError (fst t) (snd t) e
            end (extend st (contribution fetch now t)))
      (tile_loop m fetch now rest initial).
Proof.
  destruct t as [tx ty]. cbn [tile_loop]. unfold tile_result, contribution. cbn [fst snd].
  rewrite <- (extend_initial st) at 1. rewrite try_tile_extend.
  destruct (try_tile m fetch now tx ty initial) as [[u | e] d']; cbn [fst snd];
    rewrite <- tile_loop_extend, extend_initial; reflexivity.
Qed.

(** The loops over features and layers leave the trace alone. *)
Lemma feature_loop_trace (now : value) (layer_name : string) (tx ty : Z)
  (extent : value) (features : list value) (st : state) :
  trace (snd (feature_loop m now layer_name tx ty extent features st)) = trace st.
Proof.
  revert st. induction features as [ | feat rest IH]; intros st; cbn [feature_loop].
  - reflexivity.
  - destruct (convert_feature m now layer_name tx ty extent feat) as [[[f p] | ] | e].
    + now rewrite IH.
    + apply IH.
    + reflexivity.
Qed.

Lemma layer_loop_trace (now : value) (decoded : value)
  (layer_names : list string) (tx ty : Z) (st : state) :
  trace (snd (layer_loop m now decoded layer_names tx ty st)) = trace st.
Proof.
  revert st. induction layer_names as [ | l rest IH]; intros st; cbn [layer_loop].
  - reflexivity.
  - assert (Hb : trace (snd (layer_body m now decoded l tx ty st)) = trace st).
    { unfold layer_body.
      destruct (layer_obj <- subscript decoded l ;;
                features <- get layer_obj "features" (VList []) ;;
                extent <- get layer_obj "extent" default_extent ;;
                fs <- iter features ;; Ok (extent, fs)) as [[extent fs] | e].
      - apply feature_loop_trace.
      - reflexivity. }
    destruct (layer_body m now decoded l tx ty st) as [[u | e] st']; cbn [fst snd] in *.
    + now rewrite IH.
    + assumption.
Qed.

Lemma contribution_trace (fetch : Z -> Z -> result value) (now : value)
  (t : Z * Z) :
  trace (contribution fetch now t) = [Request (fst t) (snd t)].
Proof.
  unfold contribution, try_tile.
  destruct (fetch (fst t) (snd t)) as [decoded | e]; [ | reflexivity].
  destruct decoded; try reflexivity.
  now rewrite layer_loop_trace.
Qed.

(** The tiles that the trace asks for, in order. *)
Definition requested (tr : list event) : list (Z * Z) :=
  flat_map (fun e => match e with Request tx ty => [(tx, ty)] | _ => [] end) tr.

(** X10.  The run asks for every tile of its list exactly once, in the order of
    the list, and never again: the trace is, tile after tile, the request
    followed by the delay when the tile went through, or by the message of
    the handler when it raised.  Converting features causes no event. *)
Theorem one_request_per_tile (fetch : Z -> Z -> result value) (now : value)
  (tiles : list (Z * Z)) :
  trace (tile_loop m fetch now tiles initial) = flat_map (tile_events fetch now) tiles /\
  requested (trace (tile_loop m fetch now tiles initial)) = tiles /\
  List.length (trace (tile_loop m fetch now tiles initial))
    = (2 * List.length tiles)%nat.
Proof.
  assert (Htr : trace (tile_loop m fetch now tiles initial)
                = flat_map (tile_events fetch now) tiles).
  { induction tiles as [ | t rest IH]; [reflexivity | ].
    rewrite tile_loop_cons. cbn [extend emit trace flat_map].
    rewrite contribution_trace, IH. unfold tile_events at 2. reflexivity. }
  rewrite Htr. split; [reflexivity | split].
  - clear Htr. induction tiles as [ | [tx ty] rest IH]; [reflexivity | ].
    cbn [flat_map tile_events app requested fst snd].
    fold (requested (flat_map (tile_events fetch now) rest)). rewrite IH.
    now destruct (tile_result fetch now (tx, ty)).
  - clear Htr. induction tiles as [ | t rest IH]; [reflexivity | ].
    cbn [flat_map tile_events app List.length]. rewrite IH. lia.
Qed.

(** X11.  What the run collects is, tile after tile in the order of the list,
    what each tile contributes on its own: the features and records that the
    [try] block of the tile appends when it starts from empty lists, whether
    it ends or raises.  No tile changes what another contributes. *)
Theorem tiles_contribute_independently (fetch : Z -> Z -> result value)
  (now : value) (tiles : list (Z * Z)) :
  all_features (tile_loop m fetch now tiles initial)
    = flat_map (fun t => all_features (contribution fetch now t)) tiles /\
  all_records (tile_loop m fetch now tiles initial)
    = flat_map (fun t => all_records (contribution fetch now t)) tiles.
Proof.
  induction tiles as [ | t rest [IHf IHr]]; [split; reflexivity | ].
  rewrite tile_loop_cons. cbn [extend emit all_features all_records flat_map initial app].
  now rewrite IHf, IHr.
Qed.

(** ** What the collected lists hold *)









(** ** A tile source that cannot be reached *)

Lemma contribution_raise (fetch : Z -> Z -> result value) (now : value)
  (t : Z * Z) (e : exn) :
  fetch (fst t) (snd t) = Raise e ->
  contribution fetch now t = emit (Request (fst t) (snd t)) initial /\
  tile_result fetch now t = Raise e.
Proof.
  intros H. unfold contribution, tile_result, try_tile. now rewrite H.
Qed.

(** The event is a request or a message of the handler. *)
Definition request_or_error (ev : event) : Prop :=
  match ev with
  | Request _ _ | PrintError _ _ _ => True
  | Sleep => False
  end.

(** X13.  When the request of every tile fails, the run still reaches its end:
    it collects nothing, so that an empty feature collection and an empty
    record file are written, and its trace holds the requests and the
    messages of the handler only, without any delay. *)
Theorem unreachable_source_collects_nothing (fetch : Z -> Z -> result value)
  (now : value) (tiles : list (Z * Z)) :
  (forall tx ty : Z, In (tx, ty) tiles -> exists e : exn, fetch tx ty = Raise e) ->
  all_features (tile_loop m fetch now tiles initial) = [] /\
  all_records (tile_loop m fetch now tiles initial) = [] /\
  Forall request_or_error (trace (tile_loop m fetch now tiles initial)).
Proof.
  intros Hfail.
  induction tiles as [ | [tx ty] rest IH]; [repeat split; constructor | ].
  destruct (Hfail tx ty (or_introl eq_refl)) as [e He].
  destruct (contribution_raise fetch now (tx, ty) e He) as [Hc Hr].
  destruct IH as (IHf & IHr & IHt); [intros x y Hxy; apply Hfail; now right | ].
  rewrite tile_loop_cons, Hc, Hr.
  cbn [extend emit initial all_features all_records trace app fst snd].
  rewrite IHf, IHr. repeat split.
  constructor; [exact I | constructor; [exact I | exact IHt]].
Qed.

(** ** A feature with a well-formed geometry *)

(** The properties of the tile feature: the dictionary under ['properties'],
    or the empty dictionary when the feature has none. *)
Definition own_properties (fd p : dict number) : Prop :=
  lookup "properties" fd = Some (VDict p) \/
  (lookup "properties" fd = None /\ p = []).

Lemma convert_feature_well_formed (now : value) (layer_name : string) (tx ty : Z)
  (extent : value) (fd : dict number) (geom : value) (s : shape pixel) :
  lookup "geometry" fd = Some geom ->
  well_formed geom s ->
  convert_feature m now layer_name tx ty extent (VDict fd)
  = (g <- convert_geometry m geom ZOOM tx ty extent ;;
     match lookup "properties" fd with
     | Some (VDict p) =>
         Ok (Some (feature_of g (VDict (update p (tags layer_name tx ty now))),
                   VDict (update p (tags layer_name tx ty now))))
     | None =>
         Ok (Some (feature_of g (VDict (update [] (tags layer_name tx ty now))),
                   VDict (update [] (tags layer_name tx ty now))))
     | Some _ => Raise AttributeError
     end).
Proof.
  intros Hgeom Hwf.
  pose proof (convert_geometry_well_formed m geom s ZOOM tx ty extent Hwf) as Heq.
  destruct Hwf as (d & -> & Htyp & Hco).
  assert (Ht : truthy (VDict d) = true) by (destruct d; [discriminate | reflexivity]).
  unfold convert_feature. cbn [get]. rewrite Hgeom. cbn [bind].
  rewrite Ht. cbn [negb contains bind]. rewrite Htyp. cbn [negb bind].
  rewrite Heq.
  destruct (convert_shape (to_lonlat m ZOOM tx ty extent) s) as [s' | e];
    cbn [bind]; [ | reflexivity].
  cbn [truthy geometry negb].
  destruct (lookup "properties" fd) as [[ | | | | | | p] | ]; reflexivity.
Qed.

(** X14.  A tile feature whose geometry is well formed is never passed over
    in silence.  Its turn of the loop raises what [convert_geometry] raises
    for the geometry; when [convert_geometry] returns, the loop appends the
    feature with the returned geometry and, as properties and as record, the
    feature's own properties (none when it has no ['properties']) with the
    five entries of the collector; a ['properties'] that is no dictionary
    raises [AttributeError]. *)
Theorem well_formed_feature_is_never_skipped (now : value) (layer_name : string)
  (tx ty : Z) (extent : value) (fd : dict number) (geom : value) (s : shape pixel)
  (rest : list value) (st : state) :
  lookup "geometry" fd = Some geom ->
  well_formed geom s ->
  convert_feature m now layer_name tx ty extent (VDict fd) <> Ok None /\
  (forall e : exn,
     convert_geometry m geom ZOOM tx ty extent = Raise e ->
     feature_loop m now layer_name tx ty extent (VDict fd :: rest) st = (Raise e, st)) /\
  (forall (g : value) (p : dict number),
     convert_geometry m geom ZOOM tx ty extent = Ok g ->
     own_properties fd p ->
     feature_loop m now layer_name tx ty extent (VDict fd :: rest) st
     = feature_loop m now layer_name tx ty extent rest
         (append (feature_of g (VDict (update p (tags layer_name tx ty now))))
                 (VDict (update p (tags layer_name tx ty now))) st)) /\
  (forall g v : value,
     convert_geometry m geom ZOOM tx ty extent = Ok g ->
     lookup "properties" fd = Some v ->
     (forall p : dict number, v <> VDict p) ->
     feature_loop m now layer_name tx ty extent (VDict fd :: rest) st
     = (Raise AttributeError, st)).
Proof.
  intros Hgeom Hwf.
  pose proof (convert_feature_well_formed now layer_name tx ty extent fd geom s
                Hgeom Hwf) as Heq.
  split; [ | split; [ | split]].
  - rewrite Heq.
    destruct (convert_geometry m geom ZOOM tx ty extent) as [g | e]; cbn [bind];
      [ | discriminate].
    destruct (lookup "properties" fd) as [[ | | | | | | p] | ]; discriminate.
  - intros e He. cbn [feature_loop]. rewrite Heq, He. reflexivity.
  - intros g p Hg Hp. cbn [feature_loop]. rewrite Heq, Hg. cbn [bind].
    destruct Hp as [Hp | [Hp ->]]; rewrite Hp; reflexivity.
  - intros g v Hg Hv Hnot. cbn [feature_loop]. rewrite Heq, Hg. cbn [bind].
    rewrite Hv. destruct v; try reflexivity. now destruct (Hnot d).
Qed.

(** ** An extent that cannot divide *)

Section BadExtent.

Variable z tx ty : Z.
Variable extent : value.
Variable e : exn.

(** The zoom is one at which [2 ** z] is an integer. *)
Hypothesis zoom : (0 <= z)%Z.

(** The pairs whose first division raises [e]. *)
Definition fails (p : pixel) : Prop := truediv (VNum (fst p)) extent = Raise e.

Lemma conv_point_raises (p : pixel) :
  fails p -> conv_point m z tx ty extent (pair_in p) = Raise e.
Proof.
  intros Hp. unfold conv_point, pair_in. cbn [unpack2 iter bind].
  unfold tile_pixel_to_lonlat, pow2.
  destruct (0 <=? z)%Z eqn:Hz; [ | apply Z.leb_gt in Hz; lia].
  cbn [bind]. unfold fails in Hp. now rewrite Hp.
Qed.

Lemma conv_line_raises (l : list pixel) :
  Forall fails l -> l <> [] ->
  conv_line m z tx ty extent (VList (map pair_in l)) = Raise e.
Proof.
  intros Hall Hne. destruct Hall as [ | p l Hp _]; [contradiction | ].
  unfold conv_line. cbn [iter bind map mapM]. now rewrite conv_point_raises.
Qed.

Lemma conv_lines_raises (ls : list (list pixel)) :
  Forall fails (List.concat ls) -> List.concat ls <> [] ->
  conv_lines m z tx ty extent (VList (map (fun l => VList (map pair_in l)) ls))
  = Raise e.
Proof.
  unfold conv_lines. cbn [iter bind].
  induction ls as [ | l ls IH]; [contradiction | ].
  cbn [List.concat map mapM]. intros Hall Hne.
  destruct l as [ | p l].
  - cbn [app] in Hne, Hall.
    change (conv_line m z tx ty extent (VList (map pair_in [])))
      with (@Ok value (VList [])). cbn [bind].
    specialize (IH Hall Hne).
    destruct (mapM (conv_line m z tx ty extent)
                (map (fun l => VList (map pair_in l)) ls)); [discriminate | ].
    cbn [bind] in *. assumption.
  - rewrite conv_line_raises; [reflexivity | | discriminate].
    apply Forall_app in Hall. apply Hall.
Qed.

Lemma convert_geometry_raises (geom : value) (s : shape pixel) :
  well_formed geom s -> Forall fails (points s) -> points s <> [] ->
  convert_geometry m geom z tx ty extent = Raise e.
Proof.
  intros (d & -> & Htyp & Hco) Hall Hne.
  unfold convert_geometry.
  assert (Ht : truthy (VDict d) = true) by (destruct d; [discriminate | reflexivity]).
  rewrite Ht. cbn [negb contains subscript bind].
  rewrite Htyp, Hco. cbn [negb bind].
  destruct s as [p | l | ls | ls]; cbn [type_name eq_str encode points] in *;
    simpl String.eqb; cbn iota.
  - rewrite conv_point_raises; [reflexivity | ]. now inversion Hall.
  - now rewrite conv_line_raises.
  - now rewrite conv_lines_raises.
  - now rewrite conv_lines_raises.
Qed.

End BadExtent.

Lemma conv_lines_empty (z tx ty : Z) (extent : value) (ls : list (list pixel)) :
  List.concat ls = [] ->
  conv_lines m z tx ty extent (VList (map (fun l => VList (map pair_in l)) ls))
  = Ok (VList (map (fun l => VList (map pair_in l)) ls)).
Proof.
  unfold conv_lines. cbn [iter bind]. intros Hnil.
  assert (H : mapM (conv_line m z tx ty extent) (map (fun l => VList (map pair_in l)) ls)
              = Ok (map (fun l => VList (map pair_in l)) ls)).
  { induction ls as [ | l ls IH]; [reflexivity | ].
    cbn [List.concat] in Hnil. apply app_eq_nil in Hnil as [-> Hnil].
    cbn [map mapM].
    change (conv_line m z tx ty extent (VList [])) with (@Ok value (VList [])).
    cbn [bind]. now rewrite (IH Hnil). }
  now rewrite H.
Qed.

(** The number becomes a float without overflow. *)
Definition fits (n : number) : Prop := exists x : float, to_float n = Ok x.

Lemma int_zero_extent (extent : value) (n : number) :
  as_number extent = Ok (Int 0) ->
  truediv (VNum n) extent = Raise ZeroDivisionError.
Proof.
  intros H. unfold truediv. cbn [as_number bind]. rewrite H. cbn [bind].
  destruct n as [a | x]; [reflexivity | ].
  unfold number_truediv, to_float. cbn [bind].
  change (of_int 0) with (@Ok float 0%float). cbn [bind]. reflexivity.
Qed.

Lemma float_zero_extent (extent : value) (n : number) (y : float) :
  as_number extent = Ok (Float y) -> (y =? 0)%float = true -> fits n ->
  truediv (VNum n) extent = Raise ZeroDivisionError.
Proof.
  intros H Hy [x Hx]. unfold truediv. cbn [as_number bind]. rewrite H. cbn [bind].
  assert (Hd : (xf <- to_float n ;; yf <- to_float (Float y) ;; div xf yf)
               = Raise ZeroDivisionError).
  { rewrite Hx. cbn [bind to_float]. unfold div. now rewrite Hy. }
  destruct n; exact Hd.
Qed.

Lemma no_number_extent (extent : value) (n : number) (e : exn) :
  as_number extent = Raise e -> truediv (VNum n) extent = Raise e.
Proof. intros H. unfold truediv. cbn [as_number bind]. now rewrite H. Qed.

(** X15.  The extent divides every pixel coordinate before anything else is
    computed.  So, at a zoom that is not negative and for a well-formed
    geometry with at least one point, [convert_geometry] raises
    [ZeroDivisionError] when the extent is the integer zero (0 or [False]),
    also when it is the float zero and the pixel coordinates fit a float, and
    [TypeError] when the extent is not a number.  A geometry without any
    point never meets the division: it is returned with its type and its
    coordinates whatever the extent and the zoom are. *)
Theorem bad_extent_raises (geom : value) (s : shape pixel) (z tx ty : Z)
  (extent : value) :
  well_formed geom s ->
  ((0 <= z)%Z -> points s <> [] -> as_number extent = Ok (Int 0) ->
   convert_geometry m geom z tx ty extent = Raise ZeroDivisionError) /\
  ((0 <= z)%Z -> points s <> [] ->
   forall y : float,
     as_number extent = Ok (Float y) -> (y =? 0)%float = true ->
     Forall (fun p => fits (fst p)) (points s) ->
     convert_geometry m geom z tx ty extent = Raise ZeroDivisionError) /\
  ((0 <= z)%Z -> points s <> [] -> as_number extent = Raise TypeError ->
   convert_geometry m geom z tx ty extent = Raise TypeError) /\
  (points s = [] ->
   convert_geometry m geom z tx ty extent
     = Ok (geometry (type_name s) (encode pair_in s))).
Proof.
  intros Hwf. split; [ | split; [ | split]].
  - intros Hz Hne H0. apply (convert_geometry_raises z tx ty extent _ Hz geom s);
      try assumption.
    apply Forall_forall. intros p _. now apply int_zero_extent.
  - intros Hz Hne y H0 Hy Hfit.
    apply (convert_geometry_raises z tx ty extent _ Hz geom s); try assumption.
    apply Forall_impl with (2 := Hfit). intros p Hp.
    now apply (float_zero_extent extent (fst p) y).
  - intros Hz Hne Hn. apply (convert_geometry_raises z tx ty extent _ Hz geom s);
      try assumption.
    apply Forall_forall. intros p _. now apply no_number_extent.
  - intros Hnil. destruct Hwf as (d & -> & Htyp & Hco).
    unfold convert_geometry.
    assert (Ht : truthy (VDict d) = true) by (destruct d; [discriminate | reflexivity]).
    rewrite Ht. cbn [negb contains subscript bind].
    rewrite Htyp, Hco. cbn [negb bind].
    destruct s as [p | l | ls | ls]; cbn [type_name eq_str encode points] in *;
      simpl String.eqb; cbn iota.
    + discriminate.
    + subst l. reflexivity.
    + now rewrite conv_lines_empty.
    + now rewrite conv_lines_empty.
Qed.

(** ** A feature that raises *)

Lemma feature_loop_app (now : value) (layer_name : string) (tx ty : Z)
  (extent : value) (before after : list value) (st : state) :
  feature_loop m now layer_name tx ty extent (before ++ after) st
  = match feature_loop m now layer_name tx ty extent before st with
    | (Ok _, st') => feature_loop m now layer_name tx ty extent after st'
    | (Raise e, st') => (Raise e, st')
    end.
Proof.
  revert st. induction before as [ | feat rest IH]; intros st; cbn [app feature_loop].
  - reflexivity.
  - destruct (convert_feature m now layer_name tx ty extent feat) as [[[f p] | ] | e];
      [apply IH | apply IH | reflexivity].
Qed.

Lemma feature_loop_ok (now : value) (layer_name : string) (tx ty : Z)
  (extent : value) (features : list value) (st : state) :
  Forall (fun f => exists r, convert_feature m now layer_name tx ty extent f = Ok r)
         features ->
  fst (feature_loop m now layer_name tx ty extent features st) = Ok tt.
Proof.
  intros H. revert st. induction H as [ | feat rest [r Hr] _ IH]; intros st;
    cbn [feature_loop]; [reflexivity | ].
  rewrite Hr. destruct r as [[f p] | ]; apply IH.
Qed.

Lemma layer_loop_app (now : value) (decoded : value) (earlier later : list string)
  (tx ty : Z) (st : state) :
  layer_loop m now decoded (earlier ++ later) tx ty st
  = match layer_loop m now decoded earlier tx ty st with
    | (Ok _, st') => layer_loop m now decoded later tx ty st'
    | (Raise e, st') => (Raise e, st')
    end.
Proof.
  revert st. induction earlier as [ | l rest IH]; intros st; cbn [app layer_loop].
  - reflexivity.
  - destruct (layer_body m now decoded l tx ty st) as [[u | e] st'];
      [apply IH | reflexivity].
Qed.

(** X16.  A feature that raises ends its tile.  What the layers before its
    layer and the features before it in its layer have appended stays
    collected; the features after it and the layers after its layer are
    never looked at; the [try] block raises what the feature raised, and the
    tile loop goes on with the next tile after the message of the handler. *)
Theorem raising_feature_ends_its_tile (fetch : Z -> Z -> result value)
  (now : value) (tx ty : Z) (d : dict number) (earlier later : list string)
  (layer_name : string) (layer : dict number)
  (before after : list value) (bad extent : value) (e : exn)
  (tiles : list (Z * Z)) (st : state) :
  fetch tx ty = Ok (VDict d) ->
  map fst d = (earlier ++ layer_name :: later)%list ->
  fst (layer_loop m now (VDict d) earlier tx ty (emit (Request tx ty) st)) = Ok tt ->
  lookup layer_name d = Some (VDict layer) ->
  lookup "features" layer = Some (VList (before ++ bad :: after)) ->
  get (VDict layer) "extent" default_extent = Ok extent ->
  Forall (fun f => exists r, convert_feature m now layer_name tx ty extent f = Ok r)
         before ->
  convert_feature m now layer_name tx ty extent bad = Raise e ->
  let st1 := snd (layer_loop m now (VDict d) earlier tx ty (emit (Request tx ty) st)) in
  let kept := snd (feature_loop m now layer_name tx ty extent before st1) in
  try_tile m fetch now tx ty st = (Raise e, kept) /\
  tile_loop m fetch now ((tx, ty) :: tiles) st
    = tile_loop m fetch now tiles (emit (PrintError tx ty e) kept) /\
  all_features kept
    = (all_features st1
       ++ all_features
            (snd (feature_loop m now layer_name tx ty extent before initial)))%list.
Proof.
  intros Hfetch Hnames Hearlier Hlayer Hfeat Hext Hbefore Hbad st1 kept.
  assert (Htry : try_tile m fetch now tx ty st = (Raise e, kept)).
  { unfold try_tile. rewrite Hfetch, Hnames, layer_loop_app.
    subst kept st1.
    destruct (layer_loop m now (VDict d) earlier tx ty (emit (Request tx ty) st))
      as [r st1]. cbn [fst snd] in *. subst r.
    cbn [layer_loop]. unfold layer_body. cbn [subscript]. rewrite Hlayer.
    cbn [bind]. cbn [get] in *. rewrite Hfeat. injection Hext as Hext. rewrite Hext.
    cbn [bind iter].
    rewrite feature_loop_app.
    pose proof (feature_loop_ok now layer_name tx ty extent before st1 Hbefore) as Hok.
    destruct (feature_loop m now layer_name tx ty extent before st1) as [r st2].
    cbn [fst snd] in *. subst r.
    cbn [feature_loop]. now rewrite Hbad. }
  split; [assumption | split].
  - cbn [tile_loop]. now rewrite Htry.
  - subst kept. rewrite <- (extend_initial st1) at 1.
    rewrite feature_loop_extend. reflexivity.
Qed.

End Collected.

(** ** Examples *)

(** A LineString without points, as [convert_geometry] returns it and as a
    tile may hold it, with a key of its own. *)
Definition empty_line : value :=
  VDict [("type", VStr "LineString"); ("coordinates", VList [])].

Definition empty_line_raw : value :=
  VDict [("type", VStr "LineString"); ("coordinates", VList []); ("bbox", VList [])].

Lemma convert_geometry_result_shape_witness :
  (empty_line = VNone \/
   exists (typ : string) (coords : value),
     empty_line = VDict [("type", VStr typ); ("coordinates", coords)] /\
     subscript empty_line_raw "type" = Ok (VStr typ) /\
     In typ geometry_types) /\
  (truthy empty_line = false <-> empty_line = VNone).
Proof.
  apply (convert_geometry_result_shape annex_f empty_line_raw 15 0 0 (VNum (Int 0))).
  reflexivity.
Defined.

(** A tile feature that already has a ['layer'] and a ['tile_z'] of its own. *)
Definition tagged_twice : value :=
  VDict [("geometry", geometry "LineString" (VList []));
         ("properties", VDict [("layer", VStr "own"); ("road_type", VStr "Major road");
                               ("tile_z", VNum (Int 3))])].

Lemma tile_tags_override_properties_witness :
  exists (p p' : dict number) (geom : value),
    get tagged_twice "properties" (VDict []) = Ok (VDict p) /\
    VDict [("layer", VStr "flow"); ("road_type", VStr "Major road");
           ("tile_z", VNum (Int 15)); ("tile_x", VNum (Int 7)); ("tile_y", VNum (Int 9));
           ("timestamp", VStr "t")] = VDict p' /\
    feature_of (geometry "LineString" (VList []))
      (VDict [("layer", VStr "flow"); ("road_type", VStr "Major road");
              ("tile_z", VNum (Int 15)); ("tile_x", VNum (Int 7));
              ("tile_y", VNum (Int 9)); ("timestamp", VStr "t")])
    = VDict [("type", VStr "Feature"); ("geometry", geom);
             ("properties",
              VDict [("layer", VStr "flow"); ("road_type", VStr "Major road");
                     ("tile_z", VNum (Int 15)); ("tile_x", VNum (Int 7));
                     ("tile_y", VNum (Int 9)); ("timestamp", VStr "t")])] /\
    lookup "layer" p' = Some (VStr "flow") /\
    lookup "tile_x" p' = Some (VNum (Int 7)) /\
    lookup "tile_y" p' = Some (VNum (Int 9)) /\
    lookup "tile_z" p' = Some (VNum (Int 15)) /\
    lookup "timestamp" p' = Some (VStr "t") /\
    (forall k : string, is_tag k = false -> lookup k p' = lookup k p).
Proof.
  apply (tile_tags_override_properties annex_f (VStr "t") "flow" 7 9
           (VNum (Int 4096)) tagged_twice).
  reflexivity.
Defined.

Lemma unreachable_source_collects_nothing_witness :
  all_features (tile_loop annex_f (fun _ _ => Raise RequestException) VNone
                  [(0, 0); (1, 0)]%Z initial) = [] /\
  all_records (tile_loop annex_f (fun _ _ => Raise RequestException) VNone
                 [(0, 0); (1, 0)]%Z initial) = [] /\
  Forall request_or_error
    (trace (tile_loop annex_f (fun _ _ => Raise RequestException) VNone
              [(0, 0); (1, 0)]%Z initial)).
Proof.
  apply (unreachable_source_collects_nothing annex_f
           (fun _ _ => Raise RequestException) VNone [(0, 0); (1, 0)]%Z).
  intros tx ty _. now exists RequestException.
Defined.

(** A tile feature with one point, on the equator, and one property. *)
Definition crossing : dict number :=
  [("geometry", geometry "Point" (VList [VNum (Int 0); VNum (Int 0)]));
   ("properties", VDict [("road_type", VStr "Major road")])].

Lemma crossing_well_formed :
  well_formed (geometry "Point" (VList [VNum (Int 0); VNum (Int 0)]))
    (Point (Int 0, Int 0)).
Proof. eexists. repeat split. Defined.

Lemma well_formed_feature_is_never_skipped_witness :
  feature_loop annex_f VNone "flow" 18890 16384 default_extent [VDict crossing] initial
  = feature_loop annex_f VNone "flow" 18890 16384 default_extent []
      (append
         (feature_of
            (geometry "Point"
               (VTuple [VNum (Float 27.531738281250000); VNum (Float 0)]))
            (VDict (update [("road_type", VStr "Major road")]
                      (tags "flow" 18890 16384 VNone))))
         (VDict (update [("road_type", VStr "Major road")]
                   (tags "flow" 18890 16384 VNone)))
         initial).
Proof.
  apply (proj1 (proj2 (proj2
           (well_formed_feature_is_never_skipped annex_f VNone "flow" 18890 16384
              default_extent crossing
              (geometry "Point" (VList [VNum (Int 0); VNum (Int 0)]))
              (Point (Int 0, Int 0)) [] initial eq_refl crossing_well_formed)))).
  - vm_compute. reflexivity.
  - left. reflexivity.
Defined.

(** A street of one point. *)
Definition one_point_line : value :=
  geometry "LineString" (VList [VList [VNum (Int 1); VNum (Int 2)]]).

Lemma one_point_line_well_formed :
  well_formed one_point_line (LineString [(Int 1, Int 2)]).
Proof. eexists. repeat split. Defined.

Lemma bad_extent_raises_witness :
  convert_geometry annex_f one_point_line 15 18890 11419 (VNum (Int 0))
  = Raise ZeroDivisionError.
Proof.
  apply (proj1 (bad_extent_raises annex_f one_point_line (LineString [(Int 1, Int 2)])
                  15 18890 11419 (VNum (Int 0)) one_point_line_well_formed)).
  - lia.
  - discriminate.
  - reflexivity.
Defined.

(** A tile of two layers.  The first has one street without points; the
    second has the same street, then a point of three coordinates, then the
    street again. *)
Definition street : value := VDict [("geometry", empty_line)].

Definition three_coordinates : value :=
  VDict [("geometry",
          geometry "Point" (VList [VNum (Int 0); VNum (Int 0); VNum (Int 0)]))].

Definition broken_tile : dict number :=
  [("base", VDict [("features", VList [street])]);
   ("flow", VDict [("features", VList [street; three_coordinates; street])])].

Lemma raising_feature_ends_its_tile_witness :
  try_tile annex_f (fun _ _ => Ok (VDict broken_tile)) VNone 18890 11419 initial
    = (Raise ValueError,
       snd (feature_loop annex_f VNone "flow" 18890 11419 default_extent [street]
              (snd (layer_loop annex_f VNone (VDict broken_tile) ["base"] 18890 11419
                      (emit (Request 18890 11419) initial))))) /\
  List.length
    (all_features
       (tile_loop annex_f (fun _ _ => Ok (VDict broken_tile)) VNone
          [(18890, 11419)%Z] initial)) = 2%nat.
Proof.
  destruct (raising_feature_ends_its_tile annex_f (fun _ _ => Ok (VDict broken_tile))
              VNone 18890 11419 broken_tile ["base"] [] "flow"
              [("features", VList [street; three_coordinates; street])]
              [street] [street] three_coordinates default_extent ValueError []
              initial)
    as (Htry & Hloop & _); try reflexivity.
  - constructor; [ | constructor]. eexists. reflexivity.
  - split; [exact Htry | ]. rewrite Hloop. reflexivity.
Defined.

End collector.

(* ================================================================== *)
(** * The incident collector *)
(* ================================================================== *)

Module incident_reports.

Import PyFloat collect_all_data dictionaries.

Local Open Scope string_scope.

#[local] Abbreviation value := (Py.value number).

(** ** Vocabulary of the statements *)

(** The three files, by name. *)
Definition RAW : string := "traffic_incidents_raw.json".
Definition GEOJSON : string := "traffic_incidents.geojson".
Definition NDJSON : string := "traffic_incidents_records.ndjson".

(** The names of the files written, in order. *)
Definition written (out : list output) : list string :=
  flat_map (fun o => match o with
                     | SaveJson f _ | SaveNdjson f _ => [f]
                     | PrintIncidentsError _ => []
                     end) out.

Definition feature_collection (features : list value) : value :=
  VDict [("type", VStr "FeatureCollection"); ("features", VList features)].

(** An incident that the loop can convert: a dictionary whose ['properties'],
    when present, is a dictionary. [p] is that dictionary, empty when absent,
    and [geom] the value under ['geometry'], [None] when absent. *)
Definition incident_parts (incident geom : value) (p : dict number) : Prop :=
  exists d : dict number,
    incident = VDict d /\
    geom = match lookup "geometry" d with Some g => g | None => VNone end /\
    (lookup "properties" d = Some (VDict p) \/
     (lookup "properties" d = None /\ p = [])).

Definition convertible (incident : value) : Prop :=
  exists (geom : value) (p : dict number), incident_parts incident geom p.

(** The feature made of an incident at time [t]: the geometry as it came, and
    the properties with the time stamp written over them. *)
Definition stamped (t incident feature record : value) : Prop :=
  exists (geom : value) (p p' : dict number),
    incident_parts incident geom p /\
    record = VDict p' /\
    feature = VDict [("type", VStr "Feature"); ("geometry", geom);
                     ("properties", record)] /\
    lookup "timestamp" p' = Some t /\
    (forall k : string, (k =? "timestamp") = false -> lookup k p' = lookup k p).

Lemma incident_feature_parts (clock : nat -> value) (i : nat)
  (incident geom : value) (p : dict number) :
  incident_parts incident geom p ->
  incident_feature clock i incident
  = Ok (VDict [("type", VStr "Feature"); ("geometry", geom);
               ("properties", VDict (store "timestamp" (clock i) p))],
        VDict (store "timestamp" (clock i) p)).
Proof.
  intros (d & -> & -> & Hp). unfold incident_feature. cbn [get bind].
  destruct Hp as [Hp | [Hp ->]]; rewrite Hp; reflexivity.
Qed.

Lemma incident_feature_stamped (clock : nat -> value) (i : nat)
  (incident feature record : value) :
  convertible incident ->
  incident_feature clock i incident = Ok (feature, record) ->
  stamped (clock i) incident feature record.
Proof.
  intros (geom & p & Hparts) H.
  rewrite (incident_feature_parts clock i incident geom p Hparts) in H.
  injection H as <- <-.
  exists geom, p, (store "timestamp" (clock i) p).
  repeat split; try assumption.
  - now rewrite lookup_store, String.eqb_refl.
  - intros k Hk. rewrite lookup_store, String.eqb_sym. now rewrite Hk.
Qed.

(** The i-th feature and the i-th record come from the i-th incident, at
    the time the clock showed then. *)
Definition stamped_in_order (clock : nat -> value) (start : nat)
  (incidents features records : list value) : Prop :=
  List.length features = List.length incidents /\
  List.length records = List.length incidents /\
  forall (j : nat) (incident : value),
    nth_error incidents j = Some incident ->
    exists feature record : value,
      nth_error features j = Some feature /\
      nth_error records j = Some record /\
      stamped (clock (start + j)%nat) incident feature record.

Lemma incident_loop_convertible (clock : nat -> value)
  (incidents : list value) (i : nat) (fs rs : list value) :
  Forall convertible incidents ->
  exists features records : list value,
    incident_loop clock incidents i fs rs = Ok ((fs ++ features)%list, (rs ++ records)%list) /\
    stamped_in_order clock i incidents features records.
Proof.
  intros H. revert i fs rs.
  induction H as [ | incident rest Hc _ IH]; intros i fs rs; cbn [incident_loop].
  - exists [], []. rewrite !app_nil_r. split; [reflexivity | ].
    repeat split. intros [ | j] inc; discriminate.
  - destruct (incident_feature clock i incident) as [[feature record] | e] eqn:E.
    2:{ destruct Hc as (geom & p & Hparts).
        now rewrite (incident_feature_parts clock i incident geom p Hparts) in E. }
    cbn [bind].
    destruct (IH (S i) (fs ++ [feature])%list (rs ++ [record])%list)
      as (features & records & Hloop & Hlf & Hlr & Hnth).
    exists (feature :: features), (record :: records).
    split; [now rewrite Hloop, <- !app_assoc | ].
    split; [cbn [List.length]; now rewrite Hlf | ].
    split; [cbn [List.length]; now rewrite Hlr | ].
    intros [ | j] inc; cbn [nth_error].
    + intros [= <-]. exists feature, record. repeat split.
      rewrite Nat.add_0_r. now apply incident_feature_stamped.
    + intros Hj. destruct (Hnth j inc Hj) as (f & r & Hf & Hr & Hs).
      exists f, r. repeat split; try assumption.
      now replace (i + S j)%nat with (S i + j)%nat by lia.
Qed.

(** X17.  When the response is an object whose ['incidents'] is a list of
    convertible incidents, three files are written, in this order: the
    response as it came, the feature collection, and the records.  There is
    one feature and one record for every incident, in the order of the
    response; the feature has the geometry of the incident unchanged ([None]
    when it has none) and, as properties, the properties of the incident with
    the time stamp written over them; the record is that same dictionary. *)
Theorem one_feature_per_incident (clock : nat -> value) (d : dict number)
  (incidents : list value) :
  lookup "incidents" d = Some (VList incidents) ->
  Forall convertible incidents ->
  exists features records : list value,
    collect_traffic_incidents (Ok (VDict d)) clock
    = [SaveJson RAW (VDict d);
       SaveJson GEOJSON (feature_collection features);
       SaveNdjson NDJSON records] /\
    stamped_in_order clock 0 incidents features records.
Proof.
  intros Hinc Hconv.
  destruct (incident_loop_convertible clock incidents 0 [] [] Hconv)
    as (features & records & Hloop & Hspec).
  exists features, records. split; [ | assumption].
  unfold collect_traffic_incidents. cbn [contains subscript]. rewrite Hinc.
  cbn [bind iter]. now rewrite Hloop.
Qed.

(** A response with two incidents: one with a geometry and a time stamp of
    its own, one with nothing at all. *)
Definition two_incidents : dict number :=
  [("incidents",
    VList [VDict [("type", VStr "Feature");
                  ("geometry", VDict [("type", VStr "Point");
                                      ("coordinates", VList [VNum (Float 27.58); VNum (Float 47.16)])]);
                  ("properties", VDict [("id", VStr "a"); ("timestamp", VStr "old")])];
           VDict []])].

Lemma two_incidents_convertible :
  Forall convertible
    [VDict [("type", VStr "Feature");
            ("geometry", VDict [("type", VStr "Point");
                                ("coordinates", VList [VNum (Float 27.58); VNum (Float 47.16)])]);
            ("properties", VDict [("id", VStr "a"); ("timestamp", VStr "old")])];
     VDict []].
Proof.
  constructor; [ | constructor; [ | constructor]].
  - eexists _, _, _. split; [reflexivity | split; [reflexivity | left; reflexivity]].
  - eexists _, _, _. split; [reflexivity | split; [reflexivity | right; split; reflexivity]].
Defined.

Lemma one_feature_per_incident_witness :
  exists features records : list value,
    collect_traffic_incidents (Ok (VDict two_incidents)) (fun _ => VStr "t")
    = [SaveJson RAW (VDict two_incidents);
       SaveJson GEOJSON (feature_collection features);
       SaveNdjson NDJSON records] /\
    stamped_in_order (fun _ => VStr "t") 0
      [VDict [("type", VStr "Feature");
              ("geometry", VDict [("type", VStr "Point");
                                  ("coordinates", VList [VNum (Float 27.58); VNum (Float 47.16)])]);
              ("properties", VDict [("id", VStr "a"); ("timestamp", VStr "old")])];
       VDict []]
      features records.
Proof.
  apply (one_feature_per_incident (fun _ => VStr "t") two_incidents).
  - reflexivity.
  - apply two_incidents_convertible.
Defined.

(** ** An incident that cannot be converted *)

Lemma incident_loop_raises (clock : nat -> value)
  (before after : list value) (bad : value) (e : exn) (i : nat)
  (fs rs : list value) :
  Forall convertible before ->
  incident_feature clock (i + List.length before)%nat bad = Raise e ->
  incident_loop clock (before ++ bad :: after) i fs rs = Raise e.
Proof.
  intros H. revert i fs rs.
  induction H as [ | incident rest Hc _ IH]; intros i fs rs Hbad;
    cbn [app incident_loop List.length] in *.
  - rewrite Nat.add_0_r in Hbad. now rewrite Hbad.
  - destruct Hc as (geom & p & Hparts).
    rewrite (incident_feature_parts clock i incident geom p Hparts). cbn [bind].
    apply IH. now replace (S i + List.length rest)%nat with (i + S (List.length rest))%nat by lia.
Qed.

(** The incident is not an object, or its ['properties'] is not one. *)
Definition unconvertible (incident : value) (e : exn) : Prop :=
  (get incident "geometry" VNone = Raise AttributeError /\ e = AttributeError) \/
  (exists (d : dict number) (props : value),
     incident = VDict d /\ lookup "properties" d = Some props /\
     (forall p : dict number, props <> VDict p) /\ e = TypeError).

Lemma incident_feature_unconvertible (clock : nat -> value) (i : nat)
  (incident : value) (e : exn) :
  unconvertible incident e -> incident_feature clock i incident = Raise e.
Proof.
  intros [[H ->] | (d & props & -> & Hp & Hnot & ->)]; unfold incident_feature.
  - now rewrite H.
  - cbn [get bind]. rewrite Hp. destruct props; try reflexivity.
    now destruct (Hnot d0).
Qed.

(** X18.  The two derived files are written after the loop, so they are all
    or nothing: when one incident of the list cannot be converted (it is not
    an object, or its ['properties'] is not one), the response is the only
    file written, followed by the message of the handler, even though the
    incidents before it were converted. *)
Theorem unconvertible_incident_leaves_raw_only (clock : nat -> value)
  (d : dict number) (before after : list value) (bad : value) (e : exn) :
  lookup "incidents" d = Some (VList (before ++ bad :: after)) ->
  Forall convertible before ->
  unconvertible bad e ->
  collect_traffic_incidents (Ok (VDict d)) clock
    = [SaveJson RAW (VDict d); PrintIncidentsError e] /\
  written (collect_traffic_incidents (Ok (VDict d)) clock) = [RAW].
Proof.
  intros Hinc Hbefore Hbad.
  assert (H : collect_traffic_incidents (Ok (VDict d)) clock
              = [SaveJson RAW (VDict d); PrintIncidentsError e]).
  { unfold collect_traffic_incidents. cbn [contains subscript]. rewrite Hinc.
    cbn [bind iter].
    rewrite (incident_loop_raises clock before after bad e 0 [] [] Hbefore);
      [reflexivity | ].
    now apply incident_feature_unconvertible. }
  split; [assumption | now rewrite H].
Qed.

(** A response whose second incident is the number 5. *)
Definition second_is_number : dict number :=
  [("incidents", VList [VDict []; VNum (Int 5); VDict []])].

Lemma unconvertible_incident_leaves_raw_only_witness :
  collect_traffic_incidents (Ok (VDict second_is_number)) (fun _ => VStr "t")
    = [SaveJson RAW (VDict second_is_number); PrintIncidentsError AttributeError] /\
  written (collect_traffic_incidents (Ok (VDict second_is_number)) (fun _ => VStr "t"))
    = [RAW].
Proof.
  apply (unconvertible_incident_leaves_raw_only (fun _ => VStr "t") second_is_number
           [VDict []] [VDict []] (VNum (Int 5)) AttributeError).
  - reflexivity.
  - constructor; [ | constructor].
    eexists _, _, _. split; [reflexivity | split; [reflexivity | right; split; reflexivity]].
  - left. split; reflexivity.
Defined.

(** ** Which files are written *)

(** X19.  Whatever the endpoint answers, [collect_traffic_incidents] reaches
    its end and the files it writes are none, the raw response alone, or the
    raw response, the feature collection and the records, in this order.  A
    failed request writes nothing.  An answer that is an object without
    ['incidents'] gives the three files, with an empty feature collection and
    no record. *)
Theorem incident_files_written (response : result value) (clock : nat -> value) :
  (written (collect_traffic_incidents response clock) = [] \/
   written (collect_traffic_incidents response clock) = [RAW] \/
   written (collect_traffic_incidents response clock) = [RAW; GEOJSON; NDJSON]) /\
  (forall e : exn,
     response = Raise e ->
     collect_traffic_incidents response clock = [PrintIncidentsError e]) /\
  (forall data : value,
     response = Ok data ->
     exists rest : list output,
       collect_traffic_incidents response clock = SaveJson RAW data :: rest) /\
  (forall d : dict number,
     response = Ok (VDict d) ->
     lookup "incidents" d = None ->
     collect_traffic_incidents response clock
     = [SaveJson RAW (VDict d); SaveJson GEOJSON (feature_collection []);
        SaveNdjson NDJSON []]).
Proof.
  split; [ | split; [ | split]].
  - unfold collect_traffic_incidents. destruct response as [data | e]; [ | now left].
    right.
    destruct (has_incidents <- contains "incidents" data ;;
              (if has_incidents
               then incidents <- subscript data "incidents" ;;
                    l <- iter incidents ;; incident_loop clock l 0 [] []
               else Ok ([], []))) as [[features records] | e].
    + now right.
    + now left.
  - intros e ->. reflexivity.
  - intros data ->. unfold collect_traffic_incidents. eexists. reflexivity.
  - intros d -> Hnone. unfold collect_traffic_incidents.
    cbn [contains]. rewrite Hnone. reflexivity.
Qed.

End incident_reports.

(* ================================================================== *)
(** * More on the sampler: queries, records and the run *)
(* ================================================================== *)

Module sampler_run.

Import PyFloat collect_speed_data sampler dictionaries.

Local Open Scope string_scope.

#[local] Abbreviation value := (Py.value float).

(** ** Vocabulary of the statements *)

(** A coordinate that is a number other than zero. *)
Definition nonzero_number (v : value) : Prop :=
  exists x : float, v = VNum x /\ (x =? 0)%float = false.

(** The record of one answered query. *)
Definition record_of (now lat lon tomtom_response : value) : value :=
  VDict [("query_timestamp", now);
         ("query_lat", lat);
         ("query_lon", lon);
         ("tomtom_raw_response", tomtom_response)].

(** The two events of one query. *)
Definition query_events (q : value * value) : list event :=
  [Query (fst q) (snd q); Sleep].

(** The midpoint of the feature is [(lat, lon)], two numbers other than
    zero. *)
Definition midpoint (feature lat lon : value) : Prop :=
  exists geom : value,
    subscript feature "geometry" = Ok geom /\
    extract_center_point geom = Ok (lat, lon) /\
    nonzero_number lat /\ nonzero_number lon.

(** ** One turn of the loop *)

Lemma sample_queried (request : value -> value -> result value) (now : value)
  (feature lat lon : value) (st : state) :
  midpoint feature lat lon ->
  sample request now feature st
  = (st1 <-
       (if truthy (get_flow_segment_data request lat lon) then
          shown <- contains "flowSegmentData" (get_flow_segment_data request lat lon) ;;
          if shown then
            seg <- subscript (get_flow_segment_data request lat lon) "flowSegmentData" ;;
            _ <- get seg "currentSpeed" (VStr "N/A") ;;
            _ <- get seg "freeFlowSpeed" (VStr "N/A") ;;
            Ok (append (record_of now lat lon (get_flow_segment_data request lat lon))
                  (emit (Query lat lon) st))
          else
            Ok (append (record_of now lat lon (get_flow_segment_data request lat lon))
                  (emit (Query lat lon) st))
        else Ok (emit (Query lat lon) st)) ;;
     Ok (emit Sleep st1)).
Proof.
  intros (geom & Hgeom & Hcenter & (x & -> & Hx) & (y & -> & Hy)).
  unfold sample. rewrite Hgeom. cbn [bind]. rewrite Hcenter. cbn [bind].
  cbn [truthy is_zero float_number]. rewrite Hx, Hy. cbn [negb orb format_5f bind].
  reflexivity.
Qed.

(** X20.  A query that fails is passed over in silence, and the delay still
    follows it: when the request raises, or when the answer is falsy ([None],
    an empty object), no record is appended, nothing is raised, and the turn
    ends with the delay, so the loop goes on with the next feature. *)
Theorem failed_query_is_followed_by_the_delay
  (request : value -> value -> result value) (now feature lat lon : value)
  (st : state) :
  midpoint feature lat lon ->
  (forall e : exn,
     request lat lon = Raise e ->
     sample request now feature st = Ok (emit Sleep (emit (Query lat lon) st))) /\
  (forall tomtom_response : value,
     request lat lon = Ok tomtom_response ->
     truthy tomtom_response = false ->
     sample request now feature st = Ok (emit Sleep (emit (Query lat lon) st))).
Proof.
  intros Hmid. split.
  - intros e He. rewrite (sample_queried request now feature lat lon st Hmid).
    unfold get_flow_segment_data. rewrite He. reflexivity.
  - intros resp Hr Hf. rewrite (sample_queried request now feature lat lon st Hmid).
    unfold get_flow_segment_data. rewrite Hr, Hf. reflexivity.
Qed.

(** A street that is one point. *)
Definition corner : value :=
  VDict [("geometry",
          VDict [("type", VStr "Point");
                 ("coordinates", VList [VNum 27.58%float; VNum 47.16%float])])].

Lemma corner_midpoint : midpoint corner (VNum 47.16%float) (VNum 27.58%float).
Proof.
  eexists. split; [reflexivity | split; [reflexivity | split]];
    eexists; split; reflexivity.
Defined.

Lemma failed_query_is_followed_by_the_delay_witness :
  sample (fun _ _ => Raise RequestException) VNone corner initial
  = Ok (emit Sleep (emit (Query (VNum 47.16%float) (VNum 27.58%float)) initial)).
Proof.
  apply (proj1 (failed_query_is_followed_by_the_delay
                  (fun _ _ => Raise RequestException) VNone corner
                  (VNum 47.16%float) (VNum 27.58%float) initial corner_midpoint)
           RequestException).
  reflexivity.
Defined.

(** X21.  An answer that is a non-empty object is recorded as it came, with
    the time stamp and the coordinates of the query, and the delay follows.
    The speeds are read for display only: an answer without
    ['flowSegmentData'] is recorded all the same, but an answer whose
    ['flowSegmentData'] is not an object raises [AttributeError], which
    nothing catches. *)
Theorem answered_query_is_recorded
  (request : value -> value -> result value) (now feature lat lon : value)
  (st : state) (d : dict float) :
  midpoint feature lat lon ->
  request lat lon = Ok (VDict d) ->
  d <> [] ->
  ((lookup "flowSegmentData" d = None \/
    exists seg : dict float, lookup "flowSegmentData" d = Some (VDict seg)) ->
   sample request now feature st
   = Ok (emit Sleep
           (append (record_of now lat lon (VDict d)) (emit (Query lat lon) st)))) /\
  (forall seg : value,
     lookup "flowSegmentData" d = Some seg ->
     (forall s : dict float, seg <> VDict s) ->
     sample request now feature st = Raise AttributeError).
Proof.
  intros Hmid Hreq Hne.
  rewrite (sample_queried request now feature lat lon st Hmid).
  unfold get_flow_segment_data. rewrite Hreq.
  assert (Ht : truthy (VDict d) = true) by (destruct d; [contradiction | reflexivity]).
  rewrite Ht. cbn [contains subscript bind].
  split.
  - intros [Hnone | [seg Hseg]].
    + rewrite Hnone. reflexivity.
    + rewrite Hseg. reflexivity.
  - intros seg Hseg Hnot. rewrite Hseg. cbn [bind].
    destruct seg; try reflexivity. now destruct (Hnot d0).
Qed.

(** An answer with the two speeds. *)
Definition flowing : dict float :=
  [("flowSegmentData",
    VDict [("currentSpeed", VNum 31%float); ("freeFlowSpeed", VNum 50%float)])].

Lemma answered_query_is_recorded_witness :
  sample (fun _ _ => Ok (VDict flowing)) (VStr "t") corner initial
  = Ok (emit Sleep
          (append (record_of (VStr "t") (VNum 47.16%float) (VNum 27.58%float)
                     (VDict flowing))
             (emit (Query (VNum 47.16%float) (VNum 27.58%float)) initial))).
Proof.
  apply (answered_query_is_recorded (fun _ _ => Ok (VDict flowing)) (VStr "t")
           corner (VNum 47.16%float) (VNum 27.58%float) initial flowing).
  - apply corner_midpoint.
  - reflexivity.
  - discriminate.
  - right. eexists. reflexivity.
Defined.

(** ** The whole loop *)

(** What one turn can do to the state. *)
Inductive turn (request : value -> value -> result value) (now : value)
  (st : state) : state -> list (value * value) -> Prop :=
| passed_over : turn request now st st []
| unanswered (lat lon : value) :
    turn request now st (emit Sleep (emit (Query lat lon) st)) [(lat, lon)]
| answered (lat lon tomtom_response : value) :
    request lat lon = Ok tomtom_response ->
    truthy tomtom_response = true ->
    turn request now st
      (emit Sleep (append (record_of now lat lon tomtom_response)
                     (emit (Query lat lon) st)))
      [(lat, lon)].

Lemma sample_turn (request : value -> value -> result value) (now feature : value)
  (st st' : state) :
  sample request now feature st = Ok st' ->
  exists qs, turn request now st st' qs.
Proof.
  unfold sample. intros H.
  apply bind_ok in H as (geom & _ & H).
  apply bind_ok in H as ([lat lon] & _ & H).
  destruct (negb (truthy lat) || negb (truthy lon)).
  { injection H as <-. exists []. constructor. }
  apply bind_ok in H as (? & _ & H).
  apply bind_ok in H as (? & _ & H).
  apply bind_ok in H as (st1 & H1 & [= <-]).
  destruct (truthy (get_flow_segment_data request lat lon)) eqn:Ht.
  - assert (Hreq : request lat lon = Ok (get_flow_segment_data request lat lon)).
    { unfold get_flow_segment_data in *. destruct (request lat lon); [reflexivity | ].
      discriminate. }
    assert (Hst1 : st1 = append (record_of now lat lon (get_flow_segment_data request lat lon))
                           (emit (Query lat lon) st)).
    { apply bind_ok in H1 as (shown & _ & H1). destruct shown.
      - apply bind_ok in H1 as (? & _ & H1).
        apply bind_ok in H1 as (? & _ & H1).
        apply bind_ok in H1 as (? & _ & H1). now injection H1.
      - now injection H1. }
    subst st1. exists [(lat, lon)]. now apply answered.
  - injection H1 as <-. exists [(lat, lon)]. constructor.
Qed.

(** X22.  In a run of the loop that reaches its end, every query is followed
    at once by the delay, whether it was answered or not: the trace is a
    sequence of pairs of a query and a delay, at most one pair for each
    feature.  The records are those of answered queries: there are no more
    records than queries, and each record holds the time stamp, the
    coordinates of a query of the run and the truthy answer to it. *)
Theorem every_query_is_followed_by_the_delay
  (request : value -> value -> result value) (now : value)
  (features : list value) (st st' : state) :
  sample_loop request now features st = Ok st' ->
  exists (queries : list (value * value)) (records : list value),
    trace st' = (trace st ++ flat_map query_events queries)%list /\
    raw_data st' = (raw_data st ++ records)%list /\
    (List.length records <= List.length queries <= List.length features)%nat /\
    Forall (fun r => exists lat lon tomtom_response : value,
                       In (lat, lon) queries /\
                       request lat lon = Ok tomtom_response /\
                       truthy tomtom_response = true /\
                       r = record_of now lat lon tomtom_response) records.
Proof.
  revert st. induction features as [ | feature rest IH]; intros st; cbn [sample_loop].
  - intros [= <-]. exists [], []. rewrite !app_nil_r. repeat split; try constructor.
  - intros H. apply bind_ok in H as (st1 & Hs & H).
    destruct (IH st1 H) as (qs & rs & Htr & Hraw & [Hl1 Hl2] & Hrec).
    apply sample_turn in Hs as [q1 Hturn].
    destruct Hturn as [ | lat lon | lat lon resp Hreq Htruthy].
    + exists qs, rs. repeat split; try assumption. cbn [List.length]. lia.
    + exists ((lat, lon) :: qs), rs.
      cbn [emit trace raw_data] in *.
      split; [rewrite Htr, <- !app_assoc; reflexivity | ].
      split; [assumption | ].
      split; [cbn [List.length]; lia | ].
      apply Forall_impl with (2 := Hrec).
      intros r (la & lo & resp & Hin & Hr). exists la, lo, resp.
      split; [now right | assumption].
    + exists ((lat, lon) :: qs), (record_of now lat lon resp :: rs).
      cbn [emit append trace raw_data] in *.
      split; [rewrite Htr, <- !app_assoc; reflexivity | ].
      split; [rewrite Hraw, <- app_assoc; reflexivity | ].
      split; [cbn [List.length]; lia | ].
      constructor.
      * exists lat, lon, resp. repeat split; try assumption. now left.
      * apply Forall_impl with (2 := Hrec).
        intros r (la & lo & resp' & Hin & Hr). exists la, lo, resp'.
        split; [now right | assumption].
Qed.

Lemma every_query_is_followed_by_the_delay_witness :
  exists (queries : list (value * value)) (records : list value),
    trace (emit Sleep (emit (Query (VNum 47.16%float) (VNum 27.58%float)) initial))
      = (trace initial ++ flat_map query_events queries)%list /\
    raw_data (emit Sleep (emit (Query (VNum 47.16%float) (VNum 27.58%float)) initial))
      = (raw_data initial ++ records)%list /\
    (List.length records <= List.length queries <= List.length [corner])%nat /\
    Forall (fun r => exists lat lon tomtom_response : value,
                       In (lat, lon) queries /\
                       (fun _ _ : value => @Raise value RequestException) lat lon
                         = Ok tomtom_response /\
                       truthy tomtom_response = true /\
                       r = record_of VNone lat lon tomtom_response) records.
Proof.
  apply (every_query_is_followed_by_the_delay (fun _ _ => Raise RequestException)
           VNone [corner] initial).
  reflexivity.
Defined.

(** ** The run *)

Lemma main_first (request : value -> value -> result value) (now : value)
  (d : dict float) (features : list value) :
  lookup "features" d = Some (VList features) ->
  main request now (VDict d)
  = match features with
    | [] => Ok initial
    | first :: _ => sample request now first initial
    end.
Proof.
  intros Hf. unfold main. cbn [subscript]. rewrite Hf. cbn [bind len prefix].
  destruct features as [ | first rest]; [reflexivity | ].
  cbn [firstn sample_loop]. now destruct (sample request now first initial).
Qed.

(** X23.  [main] looks at the first feature of the document only: the loop
    goes through [features[:1]], so the run is the single turn of the first
    feature, whatever the other features are, and an empty list of features
    gives an empty run.  A run that reaches its end has made at most one
    query and holds at most one record. *)
Theorem main_samples_first_feature_only
  (request : value -> value -> result value) (now : value) (d : dict float)
  (features : list value) :
  lookup "features" d = Some (VList features) ->
  main request now (VDict d)
  = match features with
    | [] => Ok initial
    | first :: _ => sample request now first initial
    end /\
  (forall st : state,
     main request now (VDict d) = Ok st ->
     (List.length (raw_data st) <= 1)%nat /\ (List.length (trace st) <= 2)%nat).
Proof.
  intros Hf. split; [now apply main_first | ].
  intros st Hst. rewrite (main_first request now d features Hf) in Hst.
  destruct features as [ | first rest].
  - injection Hst as <-. cbn. lia.
  - apply sample_turn in Hst as [qs Hturn].
    destruct Hturn; cbn [initial emit append raw_data trace app List.length]; lia.
Qed.

(** A document of two features; the second is not even an object. *)
Definition two_features : dict float :=
  [("type", VStr "FeatureCollection"); ("features", VList [corner; VNum 1%float])].

Lemma main_samples_first_feature_only_witness :
  main (fun _ _ => Raise RequestException) VNone (VDict two_features)
  = sample (fun _ _ => Raise RequestException) VNone corner initial /\
  (forall st : state,
     main (fun _ _ => Raise RequestException) VNone (VDict two_features) = Ok st ->
     (List.length (raw_data st) <= 1)%nat /\ (List.length (trace st) <= 2)%nat).
Proof.
  apply (main_samples_first_feature_only (fun _ _ => Raise RequestException) VNone
           two_features [corner; VNum 1%float]).
  reflexivity.
Defined.

(** ** Streets that stop the run *)

Lemma extract_center_point_empty (geom : value) (s : street) :
  has_shape geom s -> sequence s = [] ->
  extract_center_point geom = Raise IndexError.
Proof.
  intros (d & -> & Htyp & Hco) Hnil.
  unfold extract_center_point. cbn [subscript]. rewrite Htyp. cbn [bind].
  destruct s as [l | l others | p]; cbn [type_name eq_str sequence coordinates] in *;
    simpl String.eqb; cbn iota; rewrite Hco; cbn [bind]; subst; try discriminate;
    reflexivity.
Qed.

(** X24.  Nothing in [main] catches what the first feature raises.  A first
    feature without ['geometry'] ends the run with [KeyError]; a first
    feature whose LineString, or whose first line of a MultiLineString, has
    no point makes [extract_center_point] raise [IndexError], and the run
    ends with it before any query is sent. *)
Theorem empty_street_aborts_the_run
  (request : value -> value -> result value) (now : value) (d fd : dict float)
  (rest : list value) :
  lookup "features" d = Some (VList (VDict fd :: rest)) ->
  (lookup "geometry" fd = None -> main request now (VDict d) = Raise KeyError) /\
  (forall (geom : value) (s : street),
     lookup "geometry" fd = Some geom ->
     has_shape geom s ->
     sequence s = [] ->
     extract_center_point geom = Raise IndexError /\
     main request now (VDict d) = Raise IndexError).
Proof.
  intros Hf. rewrite (main_first request now d _ Hf). split.
  - intros Hnone. unfold sample. cbn [subscript]. now rewrite Hnone.
  - intros geom s Hgeom Hshape Hnil.
    pose proof (extract_center_point_empty geom s Hshape Hnil) as Hraise.
    split; [assumption | ].
    unfold sample. cbn [subscript]. rewrite Hgeom. cbn [bind]. now rewrite Hraise.
Qed.

(** A document whose first street has no point. *)
Definition pointless : dict float :=
  [("features",
    VList [VDict [("geometry",
                   VDict [("type", VStr "LineString"); ("coordinates", VList [])])]])].

Lemma empty_street_aborts_the_run_witness :
  extract_center_point
    (VDict [("type", VStr "LineString"); ("coordinates", VList [])])
    = Raise IndexError /\
  main (fun _ _ => Ok VNone) VNone (VDict pointless) = Raise IndexError.
Proof.
  apply (proj2 (empty_street_aborts_the_run (fun _ _ => Ok VNone) VNone pointless
                  [("geometry",
                    VDict [("type", VStr "LineString"); ("coordinates", VList [])])]
                  [] eq_refl)
           (VDict [("type", VStr "LineString"); ("coordinates", VList [])])
           (LineString [])).
  - reflexivity.
  - eexists. repeat split.
  - reflexivity.
Defined.

End sampler_run.

(* ================================================================== *)
(** * More on the renderer: segments, colors and lines *)
(* ================================================================== *)

Module canvas.

Import PyFloat visualize_traffic renderer dictionaries.

#[local] Abbreviation value := (Py.value float).

Local Open Scope string_scope.

(** ** Vocabulary of the statements *)

(** The four colors of the legend. *)
Definition palette : list color := [GREEN; YELLOW; ORANGE; RED].

(** The pixel lies on the canvas. *)
Definition on_canvas (p : Z * Z) : Prop :=
  (0 <= fst p < IMG_WIDTH /\ 0 <= snd p < IMG_HEIGHT)%Z.

(** A segment that can be drawn: two pixels at least, all of them on the
    canvas, in a color of the legend. *)
Definition drawable (s : segment) : Prop :=
  (2 <= List.length (coords s))%nat /\
  Forall on_canvas (coords s) /\
  In (seg_color s) palette.

Lemma in_canvas_on_canvas (p : Z * Z) : in_canvas p = true -> on_canvas p.
Proof.
  destruct p as [px py]. unfold in_canvas, on_canvas. cbn [fst snd].
  rewrite !andb_true_iff, !Z.leb_le, !Z.ltb_lt. lia.
Qed.

Lemma color_in_palette (x : float) : In (get_color_for_traffic_level x) palette.
Proof.
  unfold get_color_for_traffic_level, palette.
  destruct (0.7 <=? clamp x)%float; [now left | ].
  destruct (0.5 <=? clamp x)%float; [right; now left | ].
  destruct (0.3 <=? clamp x)%float; [right; right; now left | ].
  right; right; right; now left.
Qed.

(** ** The segments that [load_segments] returns *)

Lemma line_loop_new (lines : list value) (c : color) (segs out : list segment) :
  line_loop lines c segs = Ok out ->
  exists new,
    out = (segs ++ new)%list /\
    Forall (fun s => (2 <= List.length (coords s))%nat /\
                     Forall on_canvas (coords s) /\
                     seg_color s = c) new.
Proof.
  revert segs. induction lines as [ | line lines IH]; intros segs; cbn [line_loop].
  - intros [= <-]. exists []. now rewrite app_nil_r.
  - intros H. apply bind_ok in H as (pts & _ & H).
    apply bind_ok in H as (cs & Hcs & H).
    destruct (1 <? List.length cs)%nat eqn:Hlen.
    + destruct (IH _ H) as (new & -> & Hnew).
      exists ({| coords := cs; seg_color := c |} :: new).
      split; [now rewrite <- app_assoc | ].
      constructor; [ | assumption]. cbn [coords seg_color].
      split; [apply Nat.ltb_lt in Hlen; lia | split; [ | reflexivity]].
      destruct (pixel_loop_filter pts [] cs Hcs) as (qs & _ & ->). cbn [app].
      apply Forall_forall. intros q Hq. apply filter_In in Hq as [_ Hq].
      now apply in_canvas_on_canvas.
    + now apply IH.
Qed.

(** The traffic level that [load_segments] reads from a feature: the number
    under ['traffic_level'] of its properties, 0.5 when there is none. *)
Definition level_of (feature : value) : result float :=
  properties <- get feature "properties" (VDict []) ;;
  traffic_level <- get properties "traffic_level" (VNum 0.5%float) ;;
  as_number traffic_level.

Lemma load_feature_new (feature : value) (segs out : list segment) :
  load_feature feature segs = Ok out ->
  exists (level : float) (new : list segment),
    level_of feature = Ok level /\
    out = (segs ++ new)%list /\
    Forall (fun s => drawable s /\ seg_color s = get_color_for_traffic_level level) new.
Proof.
  unfold load_feature, level_of. intros H.
  apply bind_ok in H as (geom & _ & H).
  apply bind_ok in H as (properties & -> & H). cbn [bind].
  apply bind_ok in H as (traffic_level & -> & H). cbn [bind].
  apply bind_ok in H as (level & -> & H).
  apply bind_ok in H as (geom_type & _ & H).
  apply bind_ok in H as (cv & _ & H).
  apply bind_ok in H as (lines & _ & H).
  exists level.
  destruct (line_loop_new lines (get_color_for_traffic_level level) segs out H)
    as (new & Hout & Hnew).
  exists new. split; [reflexivity | split; [assumption | ]].
  apply Forall_impl with (2 := Hnew).
  intros s (Hlen & Hon & Hc). split; [ | assumption].
  repeat split; try assumption. rewrite Hc. apply color_in_palette.
Qed.

Lemma feature_loop_drawable (features : list value) (segs out : list segment) :
  feature_loop features segs = Ok out -> Forall drawable segs -> Forall drawable out.
Proof.
  revert segs. induction features as [ | feature rest IH]; intros segs;
    cbn [feature_loop].
  - now intros [= <-].
  - intros H Hsegs. apply bind_ok in H as (segs' & Hf & H).
    apply (IH segs' H).
    apply load_feature_new in Hf as (level & new & _ & -> & Hnew).
    apply Forall_app. split; [assumption | ].
    apply Forall_impl with (2 := Hnew). now intros s [Hs _].
Qed.

(** X25.  Every segment that [load_segments] returns can be drawn: it has two
    pixels at least, every pixel lies on the canvas ([0 <= x < 5000] and
    [0 <= y < 5000]), and its color is one of the four colors of the
    legend. *)
Theorem loaded_segments_are_drawable (geojson_data : value) (segments : list segment) :
  load_segments geojson_data = Ok segments ->
  Forall drawable segments.
Proof.
  unfold load_segments. intros H.
  apply bind_ok in H as (features & _ & H).
  apply bind_ok in H as (fs & _ & H).
  apply (feature_loop_drawable fs [] segments H). constructor.
Qed.

(** A street of three points, the second east of the rendered area, and a
    street with a single point on the canvas. *)
Definition two_streets : value :=
  VDict [("features",
          VList [VDict [("geometry",
                         VDict [("type", VStr "LineString");
                                ("coordinates",
                                 VList [VList [VNum 27.55%float; VNum 47.10%float];
                                        VList [VNum 27.80%float; VNum 47.15%float];
                                        VList [VNum 27.60%float; VNum 47.20%float]])])];
                 VDict [("geometry",
                         VDict [("type", VStr "LineString");
                                ("coordinates",
                                 VList [VList [VNum 27.55%float; VNum 47.10%float];
                                        VList [VNum 27.80%float; VNum 47.15%float]])]);
                        ("properties", VDict [("traffic_level", VNum 0.9%float)])]])].

Lemma loaded_segments_are_drawable_witness :
  Forall drawable
    [{| coords := [(1267, 3689); (2560, 1697)]%Z; seg_color := YELLOW |}].
Proof.
  apply (loaded_segments_are_drawable two_streets).
  vm_compute. reflexivity.
Defined.

(** ** The color of a feature *)

Lemma nan_has_no_rank (x : float) : (x =? x)%float = false -> rank (Prim2SF x) = None.
Proof.
  intros H. destruct (rank (Prim2SF x)) as [[[a b] c] | ] eqn:Rx; [ | reflexivity].
  rewrite (eqb_ranked x x _ _ Rx Rx) in H.
  destruct (lex_spec a b c a b c); unfold lt3 in *; try discriminate; lia.
Qed.

Lemma nan_is_green (x : float) :
  (x =? x)%float = false -> get_color_for_traffic_level x = GREEN.
Proof.
  intros H. unfold get_color_for_traffic_level.
  now rewrite (clamp_nan x (nan_has_no_rank x H)).
Qed.

(** The feature has no traffic level of its own. *)
Definition unrated (feature : value) : Prop :=
  exists d : dict float,
    feature = VDict d /\
    (lookup "properties" d = None \/
     exists p : dict float,
       lookup "properties" d = Some (VDict p) /\ lookup "traffic_level" p = None).

(** X26.  All the segments of a feature have the color of its traffic level.
    A feature without ['traffic_level'], or without ['properties'], is given
    the level 0.5 and is yellow; a feature whose level is not a number (NaN)
    is green, as a free road is. *)
Theorem segment_color_follows_traffic_level (feature : value)
  (segs out : list segment) :
  load_feature feature segs = Ok out ->
  exists (level : float) (new : list segment),
    level_of feature = Ok level /\
    out = (segs ++ new)%list /\
    Forall (fun s => seg_color s = get_color_for_traffic_level level) new /\
    (unrated feature -> Forall (fun s => seg_color s = YELLOW) new) /\
    ((level =? level)%float = false -> Forall (fun s => seg_color s = GREEN) new).
Proof.
  intros H. apply load_feature_new in H as (level & new & Hlevel & -> & Hnew).
  exists level, new.
  assert (Hcol : Forall (fun s => seg_color s = get_color_for_traffic_level level) new).
  { apply Forall_impl with (2 := Hnew). now intros s [_ Hs]. }
  split; [assumption | split; [reflexivity | split; [assumption | split]]].
  - intros (d & -> & Hu).
    assert (Hhalf : level = 0.5%float).
    { unfold level_of in Hlevel. cbn [get bind] in Hlevel.
      destruct Hu as [Hn | (p & Hp & Hn)].
      - rewrite Hn in Hlevel. cbn [get lookup as_number bind] in Hlevel.
        now injection Hlevel.
      - rewrite Hp in Hlevel. cbn [get bind] in Hlevel. rewrite Hn in Hlevel.
        cbn [as_number] in Hlevel. now injection Hlevel. }
    subst level. exact Hcol.
  - intros Hnan. apply Forall_impl with (2 := Hcol).
    intros s ->. now apply nan_is_green.
Qed.

(** A feature without properties: one line of two points on the canvas. *)
Definition plain_street : value :=
  VDict [("geometry",
          VDict [("type", VStr "LineString");
                 ("coordinates",
                  VList [VList [VNum 27.55%float; VNum 47.10%float];
                         VList [VNum 27.60%float; VNum 47.20%float]])])].

Lemma segment_color_follows_traffic_level_witness :
  exists (level : float) (new : list segment),
    level_of plain_street = Ok level /\
    [{| coords := [(1267, 3689); (2560, 1697)]%Z; seg_color := YELLOW |}]
      = ([] ++ new)%list /\
    Forall (fun s => seg_color s = get_color_for_traffic_level level) new /\
    (unrated plain_street -> Forall (fun s => seg_color s = YELLOW) new) /\
    ((level =? level)%float = false -> Forall (fun s => seg_color s = GREEN) new).
Proof.
  apply (segment_color_follows_traffic_level plain_street []).
  vm_compute. reflexivity.
Defined.

(** ** The lines of a segment *)

(** The lines go from each pixel of the sequence to the next, in order, in
    one color. *)
Definition chain (pts : list (Z * Z)) (c : color) (lns : list line) : Prop :=
  List.length lns = (List.length pts - 1)%nat /\
  forall (i : nat) (ln : line),
    nth_error lns i = Some ln ->
    nth_error pts i = Some (p1 ln) /\
    nth_error pts (S i) = Some (p2 ln) /\
    line_color ln = c.

Lemma segment_lines_chain (s : segment) :
  chain (coords s) (seg_color s) (segment_lines s).
Proof.
  unfold chain, segment_lines. split; [now rewrite length_map, length_seq | ].
  intros i ln H. rewrite nth_error_map in H.
  destruct (nth_error (seq 0 (List.length (coords s) - 1)) i) as [k | ] eqn:Ek;
    [ | discriminate].
  injection H as <-. cbn [p1 p2 line_color].
  assert (Hi : (i < List.length (coords s) - 1)%nat).
  { pose proof (proj1 (nth_error_Some (seq 0 (List.length (coords s) - 1)) i)) as Hs.
    rewrite Ek, length_seq in Hs. apply Hs. discriminate. }
  pose proof (nth_error_nth _ _ 0%nat Ek) as Hk. rewrite seq_nth in Hk by assumption.
  cbn in Hk. subst k.
  replace (i + 1)%nat with (S i) by lia.
  repeat split; apply nth_error_nth'; lia.
Qed.

(** X27.  [visualize] draws, segment after segment, one line from each pixel
    of the segment to the next: a segment of k pixels gives k - 1 lines, each
    starting where the one before ended, all in the color of the segment.  So
    there are at least as many lines as segments. *)
Theorem drawn_lines_follow_the_segments (geojson_data : value) (lines : list line) :
  visualize geojson_data = Ok lines ->
  exists segments : list segment,
    load_segments geojson_data = Ok segments /\
    lines = flat_map segment_lines segments /\
    Forall (fun s => chain (coords s) (seg_color s) (segment_lines s) /\
                     forall (i : nat) (a b : line),
                       nth_error (segment_lines s) i = Some a ->
                       nth_error (segment_lines s) (S i) = Some b ->
                       p2 a = p1 b) segments /\
    (List.length segments <= List.length lines)%nat.
Proof.
  unfold visualize. intros H. apply bind_ok in H as (segments & Hseg & [= <-]).
  exists segments. split; [assumption | split; [reflexivity | split]].
  - apply Forall_forall. intros s _.
    pose proof (segment_lines_chain s) as Hc. split; [assumption | ].
    intros i a b Ha Hb.
    destruct Hc as [_ Hc].
    destruct (Hc i a Ha) as (_ & Ha2 & _).
    destruct (Hc (S i) b Hb) as (Hb1 & _ & _).
    rewrite Ha2 in Hb1. now injection Hb1.
  - assert (Hd : Forall drawable segments).
    { unfold load_segments in Hseg.
      apply bind_ok in Hseg as (features & _ & Hseg).
      apply bind_ok in Hseg as (fs & _ & Hseg).
      apply (feature_loop_drawable fs [] segments Hseg). constructor. }
    clear Hseg. induction Hd as [ | s rest (Hlen & _ & _) _ IH]; [constructor | ].
    cbn [flat_map List.length]. rewrite length_app.
    destruct (segment_lines_chain s) as [Hl _]. rewrite Hl. lia.
Qed.

Lemma drawn_lines_follow_the_segments_witness :
  exists segments : list segment,
    load_segments two_streets = Ok segments /\
    [{| p1 := (1267, 3689)%Z; p2 := (2560, 1697)%Z; line_color := YELLOW |}]
      = flat_map segment_lines segments /\
    Forall (fun s => chain (coords s) (seg_color s) (segment_lines s) /\
                     forall (i : nat) (a b : line),
                       nth_error (segment_lines s) i = Some a ->
                       nth_error (segment_lines s) (S i) = Some b ->
                       p2 a = p1 b) segments /\
    (List.length segments
     <= List.length
          [{| p1 := (1267, 3689)%Z; p2 := (2560, 1697)%Z; line_color := YELLOW |}])%nat.
Proof.
  apply (drawn_lines_follow_the_segments two_streets).
  vm_compute. reflexivity.
Defined.

(** ** The color never gets worse when the level grows *)

Local Open Scope float_scope.

(** How free the road is that the color stands for. *)
Definition freedom (c : color) : nat :=
  match c with
  | (0, 255, 0)%Z => 3
  | (0, 255, 255)%Z => 2
  | (0, 165, 255)%Z => 1
  | _ => 0
  end.

Lemma leb_ranks (x y : float) :
  (x <=? y) = true ->
  exists a b, rank (Prim2SF x) = Some a /\ rank (Prim2SF y) = Some b.
Proof.
  intros H.
  destruct (rank (Prim2SF x)) as [a | ] eqn:Rx.
  - destruct (rank (Prim2SF y)) as [b | ] eqn:Ry; [now exists a, b | ].
    destruct (compare_nan_r x y Ry) as (_ & E & _). congruence.
  - destruct (compare_nan_l x y Rx) as (_ & E & _). congruence.
Qed.

Lemma leb_trans (x y z : float) :
  (x <=? y) = true -> (y <=? z) = true -> (x <=? z) = true.
Proof.
  intros Hxy Hyz.
  destruct (leb_ranks x y Hxy) as ([[a1 a2] a3] & [[b1 b2] b3] & Rx & Ry).
  destruct (leb_ranks y z Hyz) as (b' & [[c1 c2] c3] & Ry' & Rz).
  rewrite (leb_ranked x y _ _ Rx Ry) in Hxy.
  rewrite (leb_ranked y z _ _ Ry Rz) in Hyz.
  rewrite (leb_ranked x z _ _ Rx Rz).
  destruct (lex_spec a1 a2 a3 b1 b2 b3); try discriminate;
    destruct (lex_spec b1 b2 b3 c1 c2 c3); try discriminate;
    destruct (lex_spec a1 a2 a3 c1 c2 c3); try reflexivity;
    unfold lt3 in *; exfalso; lia.
Qed.

Lemma color_by_threshold (x : float) (a : Z * Z * Z) :
  rank (Prim2SF x) = Some a ->
  get_color_for_traffic_level x
  = if 0.7 <=? x then GREEN
    else if 0.5 <=? x then YELLOW
    else if 0.3 <=? x then ORANGE
    else RED.
Proof.
  destruct a as [[c e] m]. intros Rx.
  destruct (0.7 <=? x) eqn:E7; [now apply green_from | ].
  assert (L7 : (x <? 0.7) = true) by (clear - Rx E7; float_cases).
  destruct (0.5 <=? x) eqn:E5; [now apply yellow_between | ].
  assert (L5 : (x <? 0.5) = true) by (clear - Rx E5; float_cases).
  destruct (0.3 <=? x) eqn:E3; [now apply orange_between | ].
  assert (L3 : (x <? 0.3) = true) by (clear - Rx E3; float_cases).
  now apply red_below.
Qed.

Lemma freedom_monotone (x y : float) :
  (x <=? y) = true ->
  (freedom (get_color_for_traffic_level x)
   <= freedom (get_color_for_traffic_level y))%nat.
Proof.
  intros Hxy.
  destruct (leb_ranks x y Hxy) as (a & b & Rx & Ry).
  rewrite (color_by_threshold x a Rx), (color_by_threshold y b Ry).
  destruct (0.7 <=? x) eqn:X7.
  { now rewrite (leb_trans 0.7 x y X7 Hxy). }
  destruct (0.5 <=? x) eqn:X5.
  { rewrite (leb_trans 0.5 x y X5 Hxy). destruct (0.7 <=? y); cbn; lia. }
  destruct (0.3 <=? x) eqn:X3.
  { rewrite (leb_trans 0.3 x y X3 Hxy).
    destruct (0.7 <=? y); [cbn; lia | ]. destruct (0.5 <=? y); cbn; lia. }
  cbn [freedom RED]. lia.
Qed.

(** X28.  A higher traffic level never gives the color of a less free road:
    with red below orange, orange below yellow and yellow below green, the
    color of [x] is at most the color of [y] whenever [x <= y]. *)
Theorem color_never_worsens_with_level (x y : float) :
  (x <=? y) = true ->
  (freedom (get_color_for_traffic_level x)
   <= freedom (get_color_for_traffic_level y))%nat /\
  (get_color_for_traffic_level x = GREEN -> get_color_for_traffic_level y = GREEN) /\
  (get_color_for_traffic_level y = RED -> get_color_for_traffic_level x = RED).
Proof.
  intros Hxy. pose proof (freedom_monotone x y Hxy) as Hm.
  pose proof (color_in_palette x) as Px. pose proof (color_in_palette y) as Py.
  split; [assumption | split].
  - intros Hx. rewrite Hx in Hm.
    destruct Py as [Hy | [Hy | [Hy | [Hy | []]]]]; rewrite <- Hy in *;
      [reflexivity | | | ]; vm_compute in Hm; lia.
  - intros Hy. rewrite Hy in Hm.
    destruct Px as [Hx | [Hx | [Hx | [Hx | []]]]]; rewrite <- Hx in *;
      [ | | | reflexivity]; vm_compute in Hm; lia.
Qed.

Lemma color_never_worsens_with_level_witness :
  (freedom (get_color_for_traffic_level 0.4)
   <= freedom (get_color_for_traffic_level 0.6))%nat /\
  (get_color_for_traffic_level 0.4 = GREEN -> get_color_for_traffic_level 0.6 = GREEN) /\
  (get_color_for_traffic_level 0.6 = RED -> get_color_for_traffic_level 0.4 = RED).
Proof.
  apply (color_never_worsens_with_level 0.4 0.6).
  reflexivity.
Defined.

End canvas.
